(** * Vector search service of mcphub: embedding validation, dimension
      reconciliation and index selection

    Shallow embedding of [src/services/vectorSearchService.ts].

    Conventions of the embedding
    - JavaScript strings are Rocq [string]s, read as sequences of character
      codes 0..255 (the Latin-1 range of UTF-16 code units).
    - JavaScript numbers that are vector components are real numbers [R]:
      the rounding of IEEE doubles is not modelled, so nothing is stated
      that depends on it; widths, counts and type modifiers are integers
      [Z] or [nat].
    - [async] functions become computations in a state-and-exception monad
      [M] over a [World] (database, call clock, journal of external calls);
      the behaviour of the external collaborators (embedding transport,
      database faults, repository faults, configuration) is an [Env] of
      oracles indexed by the call clock, so that each call may behave
      differently.  In an [Env] the configuration read resolves and the
      transport answers with [null], a value that is no array, or an array
      of numbers; every other collaborator may fail at any call.  Module
      [Runtime] lifts both restrictions for [generateEmbedding] and
      [saveToolsAsVectorEmbeddings]: the configuration read may reject and
      the [embedding] of a response is any JSON value.
    - [console] output is not modelled; where the source only logs, the
      embedding continues. *)

From Stdlib Require Import String Ascii List ZArith Lia Bool Arith.
From Stdlib Require Import Reals Lra DecimalString DecimalPos.
Import ListNotations.

Open Scope string_scope.
Open Scope nat_scope.

(** ** JavaScript string primitives used by the service *)

Module JsString.

Definition code (c : ascii) : nat := nat_of_ascii c.

(** The class [\s] of ECMAScript regular expressions, also the set that
    [String.prototype.trim] strips, restricted to codes below 256:
    TAB, LF, VT, FF, CR, SPACE and NO-BREAK SPACE. *)
Definition isWhitespace (c : ascii) : bool :=
  let n := code c in
  ((9 <=? n) && (n <=? 13)) || (n =? 32) || (n =? 160).

(** [toLowerCase] on one code unit: A-Z, and the Latin-1 capitals
    U+00C0..U+00DE except the multiplication sign U+00D7. *)
Definition toLowerChar (c : ascii) : ascii :=
  let n := code c in
  if ((65 <=? n) && (n <=? 90))
     || ((192 <=? n) && (n <=? 214))
     || ((216 <=? n) && (n <=? 222))
  then ascii_of_nat (n + 32) else c.

Fixpoint toLowerCase (s : string) : string :=
  match s with
  | EmptyString => EmptyString
  | String c s' => String (toLowerChar c) (toLowerCase s')
  end.

(** [s.includes(pat)] *)
Fixpoint includes (s pat : string) : bool :=
  prefix pat s ||
  match s with
  | EmptyString => false
  | String _ s' => includes s' pat
  end.

(** Longest prefix of characters satisfying [p], and what follows it. *)
Fixpoint span (p : ascii -> bool) (s : string) : string * string :=
  match s with
  | EmptyString => (EmptyString, EmptyString)
  | String c s' =>
      if p c then let (a, b) := span p s' in (String c a, b)
      else (EmptyString, s)
  end.

Definition takeWhile (p : ascii -> bool) (s : string) : string := fst (span p s).
Definition dropWhile (p : ascii -> bool) (s : string) : string := snd (span p s).

Definition notWhitespace (c : ascii) : bool := negb (isWhitespace c).

(** [s.split(/\s+/)]: the pieces between maximal runs of whitespace.  The
    result is never empty; leading or trailing whitespace gives an empty
    first or last piece, and the empty string gives one empty piece. *)
Fixpoint splitWs (s : string) (cur : string) (inGap : bool) : list string :=
  match s with
  | EmptyString => [cur]
  | String c s' =>
      if isWhitespace c then
        if inGap then splitWs s' cur true
        else cur :: splitWs s' EmptyString true
      else splitWs s' (cur ++ String c EmptyString) false
  end.

Definition splitWhitespace (s : string) : list string :=
  splitWs s EmptyString false.

Fixpoint rev (s : string) : string :=
  match s with
  | EmptyString => EmptyString
  | String c s' => rev s' ++ String c EmptyString
  end.

Definition trimStart (s : string) : string := dropWhile isWhitespace s.
Definition trimEnd (s : string) : string := rev (dropWhile isWhitespace (rev s)).
Definition trim (s : string) : string := trimEnd (trimStart s).

(** [s.replace(/\n+/g, ' ')]: every maximal run of line feeds becomes one
    space. *)
Fixpoint collapseNewlines (s : string) (inRun : bool) : string :=
  match s with
  | EmptyString => EmptyString
  | String c s' =>
      if code c =? 10 then
        if inRun then collapseNewlines s' true
        else String " "%char (collapseNewlines s' true)
      else String c (collapseNewlines s' false)
  end.

(** [s.substring(0, n)] *)
Definition substring0 (n : nat) (s : string) : string := substring 0 n s.

(** [[a, b, ...].join(' ')] *)
Fixpoint join (sep : string) (l : list string) : string :=
  match l with
  | [] => EmptyString
  | [x] => x
  | x :: rest => x ++ sep ++ join sep rest
  end.

(** Template-literal rendering of an integer. *)
Definition ofZ (z : Z) : string := NilZero.string_of_int (Z.to_int z).
Definition ofNat (n : nat) : string := ofZ (Z.of_nat n).

Definition isDigit (c : ascii) : bool :=
  let n := code c in (48 <=? n) && (n <=? 57).

Definition isAlphanumeric (c : ascii) : bool :=
  let n := code c in
  ((48 <=? n) && (n <=? 57)) || ((65 <=? n) && (n <=? 90)) || ((97 <=? n) && (n <=? 122)).

Fixpoint existsb (p : ascii -> bool) (s : string) : bool :=
  match s with
  | EmptyString => false
  | String c s' => p c || existsb p s'
  end.

(** [s.endsWith('/') ? s.slice(0, -1) : s] *)
Fixpoint stripTrailingSlash (s : string) : string :=
  match s with
  | EmptyString => EmptyString
  | String c EmptyString => if code c =? 47 then EmptyString else s
  | String c s' => String c (stripTrailingSlash s')
  end.

(** The capture of the first match of [/vector\((\d+)\)/] in [s]. *)
Definition vectorTypeHere (s : string) : option string :=
  if prefix "vector(" s then
    let (digits, rest) := span isDigit (substring 7 (String.length s - 7) s) in
    if negb (String.eqb digits EmptyString) && prefix ")" rest
    then Some digits else None
  else None.

Fixpoint matchVectorType (s : string) : option string :=
  match vectorTypeHere s with
  | Some digits => Some digits
  | None =>
      match s with
      | EmptyString => None
      | String _ s' => matchVectorType s'
      end
  end.

(** [parseInt] on a non-empty run of decimal digits. *)
Definition parseDigits (s : string) : option Z :=
  option_map Z.of_uint (NilEmpty.uint_of_string s).

End JsString.

(** ** Model constants *)

Definition EMBEDDING_DIMENSIONS_SMALL : Z := 1536.
Definition EMBEDDING_DIMENSIONS_LARGE : Z := 3072.
Definition BGE_DIMENSIONS : Z := 1024.
Definition NOMIC_DIMENSIONS : Z := 768.
Definition FALLBACK_DIMENSIONS : Z := 100.

Definition VECTOR_MAX_DIMENSIONS : Z := 2000.
Definition HALFVEC_MAX_DIMENSIONS : Z := 4000.

(** ** [getDimensionsForModel] *)

Definition getDimensionsForModel (model : string) : Z :=
  let lowerCaseModelName := JsString.toLowerCase model in
  if JsString.includes lowerCaseModelName "bge-m3" then BGE_DIMENSIONS
  else if JsString.includes lowerCaseModelName "nomic-embed-text" then NOMIC_DIMENSIONS
  else if JsString.includes lowerCaseModelName "text-embedding-3-large"
       then EMBEDDING_DIMENSIONS_LARGE
  else if JsString.includes lowerCaseModelName "text-embedding-3-small"
       then EMBEDDING_DIMENSIONS_SMALL
  else if String.eqb lowerCaseModelName "fallback"
          || String.eqb lowerCaseModelName "simple-hash"
       then FALLBACK_DIMENSIONS
  else EMBEDDING_DIMENSIONS_SMALL.

(** ** Embedding vectors and their validation *)

Open Scope R_scope.

(** What [callEmbeddingAPI] hands back: [data[0].embedding] of the response,
    or [null] after any transport failure. *)
Inductive JsEmbedding : Type :=
| EmbFalsy                 (* null, undefined or another falsy value *)
| EmbNotArray              (* a truthy value that is not an array *)
| EmbArray (v : list R).

Definition isZero (val : R) : bool := if Req_dec_T val 0 then true else false.

Definition inRange (minRange maxRange val : R) : bool :=
  (if Rle_dec minRange val then true else false)
  && (if Rle_dec val maxRange then true else false).

(** [Array.isArray(embedding) && embedding.length !== 0] *)
Definition validateEmbeddingArray (embedding : JsEmbedding) : bool :=
  match embedding with
  | EmbArray (_ :: _) => true
  | _ => false
  end.

Definition validateEmbeddingNotZero (embedding : list R) : bool :=
  let allVectorValuesAreZero := forallb isZero embedding in
  negb allVectorValuesAreZero.

Definition validateEmbeddingRange (embedding : list R) (minRange maxRange : R) : bool :=
  forallb (inRange minRange maxRange) embedding.

Definition defaultMinRange : R := - (11 / 10).
Definition defaultMaxRange : R := 11 / 10.

Definition validateEmbeddingDimensions (embedding : list R) (modelName : string) : bool :=
  let actualDimensions := Z.of_nat (length embedding) in
  let expectedDimensions := getDimensionsForModel modelName in
  Z.eqb actualDimensions expectedDimensions.

(** ** [generateFallbackEmbedding] *)

Definition vocabulary : list string :=
  [ "search"; "find"; "get"; "fetch"; "retrieve"; "query"; "map"; "location";
    "weather"; "file"; "directory"; "email"; "message"; "send"; "create";
    "update"; "delete"; "browser"; "web"; "page"; "click"; "navigate";
    "screenshot"; "automation"; "database"; "table"; "record"; "insert";
    "select"; "schema"; "data"; "image"; "photo"; "video"; "media"; "upload";
    "download"; "convert"; "text"; "document"; "pdf"; "excel"; "word";
    "format"; "parse"; "api"; "rest"; "http"; "request"; "response"; "json";
    "xml"; "time"; "date"; "calendar"; "schedule"; "reminder"; "clock";
    "math"; "calculate"; "number"; "sum"; "average"; "statistics"; "user";
    "account"; "login"; "auth"; "permission"; "role" ].

(** [vocabulary.indexOf(word)], [None] standing for -1. *)
Fixpoint indexOf (l : list string) (word : string) (i : nat) : option nat :=
  match l with
  | [] => None
  | x :: rest => if String.eqb x word then Some i else indexOf rest word (S i)
  end.

(** [vector[i] += x].  Both uses in the source have [i < vector.length]
    (the vocabulary index is guarded, the hash is reduced modulo the
    length), so the array is never extended. *)
Fixpoint addAt (i : nat) (x : R) (vector : list R) : list R :=
  match vector, i with
  | [], _ => []
  | y :: rest, O => (y + x) :: rest
  | y :: rest, S i' => y :: addAt i' x rest
  end.

(** [word.split('').reduce((a, b) => a + b.charCodeAt(0), 0)] *)
Fixpoint wordHash (word : string) : nat :=
  match word with
  | EmptyString => 0%nat
  | String b rest => (JsString.code b + wordHash rest)%nat
  end.

Definition accumulateWord (vector : list R) (word : string) : list R :=
  let vector1 :=
    match indexOf vocabulary word 0 with
    | Some index =>
        if (index <? length vector)%nat then addAt index 1 vector else vector
    | None => vector
    end in
  let hash := wordHash word in
  addAt (hash mod length vector1) (1 / 10) vector1.

Definition sumOfSquares (vector : list R) : R :=
  fold_left (fun sum val => sum + val * val) vector 0.

Definition generateFallbackEmbedding (text : string) : list R :=
  let words := JsString.splitWhitespace (JsString.toLowerCase text) in
  let vector0 := repeat 0 (Z.to_nat FALLBACK_DIMENSIONS) in
  let vector := fold_left accumulateWord words vector0 in
  let magnitude := sqrt (sumOfSquares vector) in
  if Rlt_dec 0 magnitude then map (fun val => val / magnitude) vector
  else vector.

Close Scope R_scope.

(** ** JavaScript values (tool schemas, parsed metadata) *)

#[local] Set Warnings "-register-all".
Inductive JsValue : Type :=
| JUndefined
| JNull
| JBool (b : bool)
| JNumber (r : R)
| JString (s : string)
| JArray (items : list JsValue)
| JObject (fields : list (string * JsValue)).   (* in enumeration order *)

Definition isTruthy (v : JsValue) : bool :=
  match v with
  | JUndefined | JNull => false
  | JBool b => b
  | JNumber r => negb (isZero r)
  | JString s => negb (String.eqb s "")
  | JArray _ | JObject _ => true
  end.

(** [typeof v === 'object'] *)
Definition typeofObject (v : JsValue) : bool :=
  match v with
  | JNull | JArray _ | JObject _ => true
  | _ => false
  end.

Fixpoint lookupField (fields : list (string * JsValue)) (name : string) : JsValue :=
  match fields with
  | [] => JUndefined
  | (k, v) :: rest => if String.eqb k name then v else lookupField rest name
  end.

(** [v.name] for a name that is neither an index nor a built-in property:
    [None] is the TypeError raised on [null] and [undefined]. *)
Definition getProp (v : JsValue) (name : string) : option JsValue :=
  match v with
  | JUndefined | JNull => None
  | JObject fields => Some (lookupField fields name)
  | _ => Some JUndefined
  end.

(** [v.name] once an earlier access has shown that [v] is neither [null] nor
    [undefined]. *)
Definition propOf (v : JsValue) (name : string) : JsValue :=
  match getProp v name with
  | Some x => x
  | None => JUndefined
  end.

(** [Object.keys(v)] for a truthy [v] with [typeof v === 'object']. *)
Definition objectKeys (v : JsValue) : list string :=
  match v with
  | JObject fields => map fst fields
  | JArray items => map JsString.ofNat (seq 0 (length items))
  | _ => []
  end.

(** [a || b] *)
Definition orElse (a b : JsValue) : JsValue := if isTruthy a then a else b.

(** ** The world: database, clock and journal of external calls *)

Inductive IndexKind : Type := Hnsw | Ivfflat | HnswHalfvec.

Definition indexKindName (k : IndexKind) : string :=
  match k with
  | Hnsw => "hnsw"
  | Ivfflat => "ivfflat"
  | HnswHalfvec => "hnsw-halfvec"
  end.

(** The statements the service sends through [dataSource.query]. *)
Inductive Sql : Type :=
| SelectVectorTypeInfo            (* atttypmod, format_type(atttypid, atttypmod) *)
| SelectAtttypmod                 (* atttypmod as dimensions *)
| SelectRecordDimensions          (* GROUP BY dimensions, model ORDER BY count DESC LIMIT 5 *)
| DeleteMismatched (expectedDimensions : Z)   (* DELETE ... WHERE dimensions != $1 *)
| AlterEmbeddingColumn (dimensions : Z)       (* ALTER COLUMN embedding TYPE vector(n) *)
| DropIndexIfExists (indexName : string)
| CreateIndexHnsw (indexName tableName columnName : string)
| CreateIndexIvfflat (indexName tableName columnName : string)
| CreateIndexHnswHalfvec (indexName tableName columnName : string) (dimensions : Z).

Record StoredRecord : Type := mkStoredRecord {
  entityKey : string;
  textContent : string;
  recordDimensions : Z;
  recordModel : string;
  recordServerName : string
}.

(** The table [vector_embeddings]: declared width of its [embedding] column
    as PostgreSQL reports it in [pg_attribute.atttypmod] (-1 when the column
    is an unconstrained [vector]), its rows and its indexes. *)
Record Store : Type := mkStore {
  atttypmod : Z;
  records : list StoredRecord;
  indexes : list (string * IndexKind)
}.

Inductive QueryResult : Type :=
| TypeInfoRows (rows : list (Z * string))        (* atttypmod, formatted_type *)
| AtttypmodRows (rows : list Z)                  (* dimensions *)
| GroupRows (rows : list (Z * string * nat))     (* dimensions, model, count *)
| NoRows.

(** A thrown JavaScript value: an [Error] with its message, or anything
    else. *)
Inductive Thrown : Type :=
| ErrorWith (message : string)
| NonError.

(** [error instanceof Error ? error.message : 'Unknown error'] *)
Definition errorMessageOf (e : Thrown) : string :=
  match e with
  | ErrorWith m => m
  | NonError => "Unknown error"
  end.

(** [error?.message || 'Unknown error'] *)
Definition messageOrUnknown (e : Thrown) : string :=
  match e with
  | ErrorWith m => if String.eqb m "" then "Unknown error" else m
  | NonError => "Unknown error"
  end.

Inductive Call : Type :=
| CallQuery (q : Sql)
| CallEmbeddingAPI (text : string)
| CallSaveEmbedding (key text : string) (width : nat) (model : string)
| CallSearchByText (query : string)
| CallSearchSimilar (width : nat)
| CallDeleteByServerName (serverName : string)
| CallInitializeDatabase.

Record World : Type := mkWorld {
  clock : nat;                        (* number of external calls so far *)
  store : Store;
  journal : list (Call * bool)        (* oldest first; [true] = the call returned *)
}.

Inductive Outcome (A : Type) : Type :=
| Ok (a : A)
| Throw (e : Thrown).
Arguments Ok {A} a.
Arguments Throw {A} e.

Definition M (A : Type) : Type := World -> Outcome A * World.

Definition ret {A} (a : A) : M A := fun w => (Ok a, w).
Definition throw {A} (e : Thrown) : M A := fun w => (Throw e, w).

Definition bind {A B} (m : M A) (k : A -> M B) : M B :=
  fun w =>
    match m w with
    | (Ok a, w1) => k a w1
    | (Throw e, w1) => (Throw e, w1)
    end.

(** [try { m } catch (e) { handler e }]: effects of [m] up to the throw
    stay. *)
Definition tryCatch {A} (m : M A) (handler : Thrown -> M A) : M A :=
  fun w =>
    match m w with
    | (Ok a, w1) => (Ok a, w1)
    | (Throw e, w1) => handler e w1
    end.

Declare Scope js_scope.
Delimit Scope js_scope with js.
Notation "x <- m ;; k" := (bind m (fun x => k))
  (at level 61, m at next level, right associativity) : js_scope.
Notation "m ;;; k" := (bind m (fun _ => k))
  (at level 61, right associativity) : js_scope.

Definition tick (c : Call) (ok : bool) (w : World) : World :=
  mkWorld (S (clock w)) (store w) (journal w ++ [(c, ok)]).

Definition withStore (s : Store) (w : World) : World :=
  mkWorld (clock w) s (journal w).

(** ** The environment: runtime and external collaborators *)

Record SmartRoutingConfig : Type := mkSmartRoutingConfig {
  enabled : bool;
  openaiApiKey : string;
  openaiApiBaseUrl : string;
  openaiApiEmbeddingModel : string;
  dbUrl : string
}.

Record OpenAIConfig : Type := mkOpenAIConfig {
  apiKey : string;
  baseURL : string;
  embeddingModel : string
}.

(** A row of [searchByText] / [searchSimilar]:
    [{ similarity, embedding: { text_content, metadata } }]. *)
Record SearchEntity : Type := mkSearchEntity {
  text_content : option string;      (* [None]: null or undefined *)
  metadata : JsValue
}.

Record SearchRow : Type := mkSearchRow {
  similarity : R;
  embedding : option SearchEntity    (* [None]: null or undefined *)
}.

(** Every oracle takes the clock of the call, so that two calls of the same
    collaborator may behave differently (as [mockResolvedValueOnce] does in
    the test-suite).  [Some e] in a fault oracle: the call rejects with
    [e]. *)
Record Env : Type := mkEnv {
  smartRoutingConfig : nat -> SmartRoutingConfig;
  isDatabaseConnected : nat -> bool;
  dataSourceIsInitialized : nat -> bool;
  initializeDatabaseFault : nat -> option Thrown;
  embeddingTransport : nat -> string -> OpenAIConfig -> JsEmbedding;
  queryFault : nat -> Sql -> option Thrown;
  repositoryFactoryFault : nat -> option Thrown;
  saveEmbeddingFault : nat -> string -> option Thrown;
  deleteByServerNameFault : nat -> string -> option Thrown;
  searchByTextResult : nat -> string -> Z -> R -> Outcome (list SearchRow);
  searchSimilarResult : nat -> list R -> Z -> R -> Outcome (list SearchRow);
  processEnvDbUrl : string;
  JSON_parse : string -> option JsValue   (* [None]: SyntaxError *)
}.

(** ** The database as the service's statements observe it *)

Definition formatType (typmod : Z) : string :=
  if (0 <? typmod)%Z then "vector(" ++ JsString.ofZ typmod ++ ")" else "vector".

Fixpoint bumpGroup (d : Z) (m : string) (groups : list (Z * string * nat))
  : list (Z * string * nat) :=
  match groups with
  | [] => [(d, m, 1)]
  | (d', m', n) :: rest =>
      if Z.eqb d d' && String.eqb m m' then (d', m', S n) :: rest
      else (d', m', n) :: bumpGroup d m rest
  end.

Definition groupCounts (rs : list StoredRecord) : list (Z * string * nat) :=
  fold_left (fun groups r => bumpGroup (recordDimensions r) (recordModel r) groups) rs [].

Fixpoint insertByCount (g : Z * string * nat) (sorted : list (Z * string * nat))
  : list (Z * string * nat) :=
  match sorted with
  | [] => [g]
  | h :: rest =>
      if snd h <? snd g then g :: sorted else h :: insertByCount g rest
  end.

Definition orderByCountDesc (groups : list (Z * string * nat)) : list (Z * string * nat) :=
  fold_right insertByCount [] groups.

Definition answer (q : Sql) (s : Store) : QueryResult :=
  match q with
  | SelectVectorTypeInfo => TypeInfoRows [(atttypmod s, formatType (atttypmod s))]
  | SelectAtttypmod => AtttypmodRows [atttypmod s]
  | SelectRecordDimensions =>
      GroupRows (firstn 5 (orderByCountDesc (groupCounts (records s))))
  | _ => NoRows
  end.

Definition dropIndex (name : string) (l : list (string * IndexKind)) : list (string * IndexKind) :=
  filter (fun entry => negb (String.eqb (fst entry) name)) l.

Definition execute (q : Sql) (s : Store) : Store :=
  match q with
  | DeleteMismatched expected =>
      mkStore (atttypmod s)
              (filter (fun r => Z.eqb (recordDimensions r) expected) (records s))
              (indexes s)
  | AlterEmbeddingColumn n => mkStore n (records s) (indexes s)
  | DropIndexIfExists name => mkStore (atttypmod s) (records s) (dropIndex name (indexes s))
  | CreateIndexHnsw name _ _ =>
      mkStore (atttypmod s) (records s) ((name, Hnsw) :: dropIndex name (indexes s))
  | CreateIndexIvfflat name _ _ =>
      mkStore (atttypmod s) (records s) ((name, Ivfflat) :: dropIndex name (indexes s))
  | CreateIndexHnswHalfvec name _ _ _ =>
      mkStore (atttypmod s) (records s) ((name, HnswHalfvec) :: dropIndex name (indexes s))
  | _ => s
  end.

Record IndexResult : Type := mkIndexResult {
  success : bool;
  indexType : option string;
  message : string
}.

(** The body of [getOpenAIConfig]: the base URL loses one trailing slash. *)
Definition openAIConfigOf (smartRoutingConfig : SmartRoutingConfig) : OpenAIConfig :=
  let baseURL := JsString.stripTrailingSlash (openaiApiBaseUrl smartRoutingConfig) in
  mkOpenAIConfig (openaiApiKey smartRoutingConfig) baseURL
                 (openaiApiEmbeddingModel smartRoutingConfig).

(** Lines 520-524 of [generateEmbedding]: runs of line feeds become one
    space, then the text is cut to 8000 characters. *)
Definition prepareText (text : string) : string :=
  let cleanedText := JsString.collapseNewlines text false in
  if (8000 <? Z.of_nat (String.length cleanedText))%Z
  then JsString.substring0 (Z.to_nat 8000) cleanedText else cleanedText.

(** Every character of [s] satisfies [p]. *)
Fixpoint allChars (p : ascii -> bool) (s : string) : bool :=
  match s with
  | EmptyString => true
  | String c s' => p c && allChars p s'
  end.

Section Service.

Variable env : Env.

Local Open Scope js_scope.

(** [await dataSource.query(sql)] *)
Definition query (q : Sql) : M QueryResult :=
  fun w =>
    match queryFault env (clock w) q with
    | Some e => (Throw e, tick (CallQuery q) false w)
    | None =>
        (Ok (answer q (store w)),
         withStore (execute q (store w)) (tick (CallQuery q) true w))
    end.

(** ** [createVectorIndex] *)

Definition createVectorIndex (dimensions : Z) (tableName columnName : string)
  : M IndexResult :=
  let indexName := "idx_" ++ tableName ++ "_" ++ columnName in
  (* Drop any existing index first; errors are ignored *)
  tryCatch (query (DropIndexIfExists indexName) ;;; ret tt) (fun _ => ret tt) ;;;
  if (dimensions <=? VECTOR_MAX_DIMENSIONS)%Z then
    tryCatch
      (query (CreateIndexHnsw indexName tableName columnName) ;;;
       ret (mkIndexResult true (Some "hnsw")
              ("HNSW index created successfully for "
                 ++ JsString.ofZ dimensions ++ " dimensions")))
      (fun error =>
         let errorMessage := errorMessageOf error in
         tryCatch
           (query (CreateIndexIvfflat indexName tableName columnName) ;;;
            ret (mkIndexResult true (Some "ivfflat")
                   ("IVFFlat index created successfully for "
                      ++ JsString.ofZ dimensions ++ " dimensions")))
           (fun ivfError =>
              ret (mkIndexResult false None ("No index created: " ++ errorMessage))))
  else if (dimensions <=? HALFVEC_MAX_DIMENSIONS)%Z then
    tryCatch
      (query (CreateIndexHnswHalfvec indexName tableName columnName dimensions) ;;;
       ret (mkIndexResult true (Some "hnsw-halfvec")
              ("HNSW index (halfvec) created successfully for "
                 ++ JsString.ofZ dimensions ++ " dimensions")))
      (fun error =>
         let errorMessage := errorMessageOf error in
         ret (mkIndexResult false None
                ("No vector index created for " ++ JsString.ofZ dimensions
                   ++ " dimensions. " ++ errorMessage)))
  else
    ret (mkIndexResult false None
           ("Dimensions (" ++ JsString.ofZ dimensions
              ++ ") exceed maximum indexable limit ("
              ++ JsString.ofZ HALFVEC_MAX_DIMENSIONS ++ ")")).


(** ** Configuration and collaborators *)

Definition advance (w : World) : World :=
  mkWorld (S (clock w)) (store w) (journal w).

(** [await getSmartRoutingConfig()]: fetched afresh at every call. *)
Definition getSmartRoutingConfig : M SmartRoutingConfig :=
  fun w => (Ok (smartRoutingConfig env (clock w)), advance w).

Definition getOpenAIConfig : M OpenAIConfig :=
  smartRoutingConfig <- getSmartRoutingConfig ;;
  ret (openAIConfigOf smartRoutingConfig).

(** [await initializeDatabase()] *)
Definition initializeDatabase : M unit :=
  fun w =>
    match initializeDatabaseFault env (clock w) with
    | Some e => (Throw e, tick CallInitializeDatabase false w)
    | None => (Ok tt, tick CallInitializeDatabase true w)
    end.

(** [callEmbeddingAPI]: the whole body is inside [try]/[catch] and every
    failure (exception, non-2xx status, missing [data]) gives [null]; the
    value it gives is the transport oracle's. *)
Definition callEmbeddingAPI (text : string) (config : OpenAIConfig) : M JsEmbedding :=
  fun w =>
    (Ok (embeddingTransport env (clock w) text config),
     tick (CallEmbeddingAPI text) true w).

(** ** [generateEmbedding] *)

Definition generateEmbedding (text : string) : M (list R) :=
  config <- getOpenAIConfig ;;
  let truncatedText := prepareText text in
  tryCatch
    (embedding <- callEmbeddingAPI truncatedText config ;;
     match embedding with
     | EmbFalsy => ret (generateFallbackEmbedding text)
     | EmbNotArray => ret (generateFallbackEmbedding text)
     | EmbArray v =>
         if negb (validateEmbeddingArray embedding)
         then ret (generateFallbackEmbedding text)
         else if negb (validateEmbeddingNotZero v)
         then ret (generateFallbackEmbedding text)
         else if negb (validateEmbeddingRange v defaultMinRange defaultMaxRange)
         then ret (generateFallbackEmbedding text)
         else if negb (validateEmbeddingDimensions v (embeddingModel config))
         then ret (generateFallbackEmbedding text)
         else ret v
     end)
    (fun error => ret (generateFallbackEmbedding text)).

(** ** [clearMismatchedVectorData] *)

Definition clearMismatchedVectorData (expectedDimensions : Z) : M unit :=
  tryCatch
    (query (DeleteMismatched expectedDimensions) ;;; ret tt)
    (fun error => throw error).

(** ** [checkDatabaseVectorDimensions] *)

(** Lines 1220-1300: the width the database currently has, from the
    schema and, failing that, from the most common width of the rows. *)
Definition detectCurrentDimensions : M Z :=
  vectorTypeInfo <-
    tryCatch (r <- query SelectVectorTypeInfo ;; ret (Some r)) (fun _ => ret None) ;;
  result <- query SelectAtttypmod ;;
  let currentDimensions :=
    match result with
    | AtttypmodRows (rawValue :: _) =>
        if Z.eqb rawValue 0 then 0%Z
        else
          let fromFormattedType :=
            match vectorTypeInfo with
            | Some (TypeInfoRows ((_, formatted_type) :: _)) =>
                match JsString.matchVectorType formatted_type with
                | Some digits =>
                    match JsString.parseDigits digits with
                    | Some n => n
                    | None => 0%Z
                    end
                | None => 0%Z
                end
            | _ => 0%Z
            end in
          if Z.eqb fromFormattedType 0
          then (if Z.eqb rawValue (-1) then 0%Z else rawValue)
          else fromFormattedType
    | _ => 0%Z
    end in
  tryCatch
    (recordCheck <- query SelectRecordDimensions ;;
     match recordCheck with
     | GroupRows ((mostCommon, _, _) :: _) =>
         if Z.eqb currentDimensions 0 && (0 <? mostCommon)%Z
         then ret mostCommon else ret currentDimensions
     | _ => ret currentDimensions
     end)
    (fun _ => ret currentDimensions).

Definition needsMigration (currentDimensions dimensionsNeeded : Z) : bool :=
  (0 <? currentDimensions)%Z && negb (Z.eqb currentDimensions dimensionsNeeded).

Definition needsInitialization (currentDimensions : Z) : bool :=
  Z.eqb currentDimensions 0.

(** Lines 1212-1216 *)
Definition ensureInitialized : M unit :=
  fun w => if dataSourceIsInitialized env (clock w)
           then ret tt w else initializeDatabase w.

(** Lines 1306-1340, the branch [needsMigration]: a failed index only
    produces a warning. *)
Definition migrate (dimensionsNeeded : Z) : M unit :=
  (* STEP 1 *) clearMismatchedVectorData dimensionsNeeded ;;;
  (* STEP 2 *) query (AlterEmbeddingColumn dimensionsNeeded) ;;;
  (* STEP 3 *) indexResult <- createVectorIndex dimensionsNeeded
                                "vector_embeddings" "embedding" ;;
  ret tt.

(** Lines 1341-1359, the branch [needsInitialization]. *)
Definition initializeColumn (dimensionsNeeded : Z) : M unit :=
  query (AlterEmbeddingColumn dimensionsNeeded) ;;;
  indexResult <- createVectorIndex dimensionsNeeded
                   "vector_embeddings" "embedding" ;;
  ret tt.

Definition checkDatabaseVectorDimensions (dimensionsNeeded : Z) : M unit :=
  tryCatch
    (if (dimensionsNeeded <=? 0)%Z then
       throw (ErrorWith ("Invalid dimension value: " ++ JsString.ofZ dimensionsNeeded
                           ++ ". Must be a positive integer."))
     else
       ensureInitialized ;;;
       currentDimensions <- detectCurrentDimensions ;;
       if needsMigration currentDimensions dimensionsNeeded then
         migrate dimensionsNeeded
       else if needsInitialization currentDimensions then
         initializeColumn dimensionsNeeded
       else ret tt)
    (fun error =>
       throw (ErrorWith ("Vector dimension check failed: " ++ messageOrUnknown error))).

(** ** The repository *)

(** [getRepositoryFactory('vectorEmbeddings')()] *)
Definition getVectorRepository : M unit :=
  fun w =>
    match repositoryFactoryFault env (clock w) with
    | Some e => (Throw e, w)
    | None => (Ok tt, w)
    end.

Definition upsertRecord (r : StoredRecord) (rs : list StoredRecord) : list StoredRecord :=
  r :: filter (fun old => negb (String.eqb (entityKey old) (entityKey r))) rs.

(** Modelled from the spec: [VectorEmbeddingRepository.saveEmbedding] is
    not part of the sources at hand.  Section 3 of the specification: one
    record per natural key "server:tool", re-saving overwrites, and the
    record's [dimensions] is the length of its vector. *)
Definition saveEmbedding {Component : Type} (key text : string) (vector : list Component)
           (serverName model : string) : M unit :=
  fun w =>
    let call := CallSaveEmbedding key text (length vector) model in
    match saveEmbeddingFault env (clock w) key with
    | Some e => (Throw e, tick call false w)
    | None =>
        let r := mkStoredRecord key text (Z.of_nat (length vector)) model serverName in
        (Ok tt,
         withStore (mkStore (atttypmod (store w))
                            (upsertRecord r (records (store w)))
                            (indexes (store w)))
                   (tick call true w))
    end.

(** Modelled from the spec: [VectorEmbeddingRepository.deleteByServerName]
    is not part of the sources at hand.  Section 4.7 of the
    specification: deletes all records for the server and gives their
    count. *)
Definition deleteByServerName (serverName : string) : M nat :=
  fun w =>
    let call := CallDeleteByServerName serverName in
    match deleteByServerNameFault env (clock w) serverName with
    | Some e => (Throw e, tick call false w)
    | None =>
        let keep r := negb (String.eqb (recordServerName r) serverName) in
        let rs := records (store w) in
        (Ok (length rs - length (filter keep rs)),
         withStore (mkStore (atttypmod (store w)) (filter keep rs) (indexes (store w)))
                   (tick call true w))
    end.

Definition searchByText (queryText : string) (limit : Z) (threshold : R)
  : M (list SearchRow) :=
  fun w =>
    match searchByTextResult env (clock w) queryText limit threshold with
    | Ok rows => (Ok rows, tick (CallSearchByText queryText) true w)
    | Throw e => (Throw e, tick (CallSearchByText queryText) false w)
    end.

Definition searchSimilar (probe : list R) (limit : Z) (threshold : R)
  : M (list SearchRow) :=
  fun w =>
    match searchSimilarResult env (clock w) probe limit threshold with
    | Ok rows => (Ok rows, tick (CallSearchSimilar (length probe)) true w)
    | Throw e => (Throw e, tick (CallSearchSimilar (length probe)) false w)
    end.

End Service.

(** ** [saveToolsAsVectorEmbeddings] *)

Module Tool.
Record t : Type := mk {
  name : string;
  description : string;
  inputSchema : JsValue          (* [JUndefined] when absent *)
}.
End Tool.

(** The text that is embedded for a tool: name, description, the keys of
    the schema other than "type" and "properties", and the property names;
    empty strings dropped by [filter(Boolean)]. *)
Definition searchableTextOf (tool : Tool.t) : string :=
  let schema := Tool.inputSchema tool in
  let schemaKeys :=
    if isTruthy schema && typeofObject schema
    then filter (fun key => negb (String.eqb key "type")
                            && negb (String.eqb key "properties"))
                (objectKeys schema)
    else [] in
  let propertyKeys :=
    if isTruthy schema then
      match getProp schema "properties" with
      | Some properties =>
          if isTruthy properties && typeofObject properties
          then objectKeys properties else []
      | None => []
      end
    else [] in
  JsString.join " "
    (filter (fun s => negb (String.eqb s ""))
            ([Tool.name tool; Tool.description tool] ++ schemaKeys ++ propertyKeys)).

Section SaveBatch.

Variable env : Env.

(** The embedding generator the batch uses: [None] stands for a result
    that is not an array.  The service instantiates it with
    [generateEmbedding]; the batch is written against any generator
    because its checks (probe width, per-tool shape and width) guard
    against generators that misbehave.  The batch looks at the length of
    an embedding only, never at its components. *)
Context {Component : Type}.
Variable generate : string -> M (option (list Component)).

Local Open Scope js_scope.

(** One iteration of [for (const tool of tools)]; [true]: the tool was
    saved ([successCount++]), [false]: it was not ([failureCount++]). *)
Definition processTool (serverName : string) (config : OpenAIConfig)
           (actualDimensions : nat) (tool : Tool.t) : M bool :=
  tryCatch
    (let searchableText := searchableTextOf tool in
     embedding <- generate searchableText ;;
     match embedding with
     | None => ret false                        (* not an array *)
     | Some v =>
         if length v =? 0 then ret false        (* empty *)
         else if negb (length v =? actualDimensions) then ret false
         else
           tryCatch
             (saveEmbedding env (serverName ++ ":" ++ Tool.name tool) searchableText v
                            serverName (embeddingModel config) ;;;
              ret true)
             (fun saveError => ret false)
     end)
    (fun toolError => ret false).

Fixpoint forEachTool (serverName : string) (config : OpenAIConfig)
         (actualDimensions : nat) (tools : list Tool.t)
         (counts : nat * nat) : M (nat * nat) :=
  match tools with
  | [] => ret counts
  | tool :: rest =>
      saved <- processTool serverName config actualDimensions tool ;;
      forEachTool serverName config actualDimensions rest
        (if saved then (S (fst counts), snd counts) else (fst counts, S (snd counts)))
  end.

(** Lines 738-761: the probe, and the check of the width it gives. *)
Definition probeDimensions : M nat :=
  actualDimensions <-
    tryCatch
      (testEmbedding <- generate "test" ;;
       ret (option_map (@length Component) testEmbedding))
      (fun error => throw (ErrorWith "Cannot determine embedding dimensions from API")) ;;
  match actualDimensions with
  | None =>
      throw (ErrorWith ("API produced invalid embedding dimensions: undefined. "
                          ++ "Cannot determine correct vector size for the database."))
  | Some 0 =>
      throw (ErrorWith ("API produced invalid embedding dimensions: 0. "
                          ++ "Cannot determine correct vector size for the database."))
  | Some n => ret n
  end.

(** Lines 708-732: what precedes the probe.  [None]: there is nothing to
    do (no tools, or smart routing disabled). *)
Definition batchPreamble (tools : list Tool.t) : M (option OpenAIConfig) :=
  if length tools =? 0 then ret None
  else
    smartRoutingConfig <- getSmartRoutingConfig env ;;
    if negb (enabled smartRoutingConfig) then ret None
    else
      (fun w => if isDatabaseConnected env (clock w)
                then ret tt w else initializeDatabase env w) ;;;
      config <- getOpenAIConfig env ;;
      getVectorRepository env ;;;
      ret (Some config).

(** Lines 763-868: reconciliation, then the loop over the tools. *)
Definition reconcileAndStore (serverName : string) (config : OpenAIConfig)
           (actualDimensions : nat) (tools : list Tool.t) : M unit :=
  tryCatch (checkDatabaseVectorDimensions env (Z.of_nat actualDimensions))
           (fun dbCheckError => throw dbCheckError) ;;;
  counts <- forEachTool serverName config actualDimensions tools (0, 0) ;;
  ret tt.

(** The body of the outermost [try] of [saveToolsAsVectorEmbeddings]. *)
Definition saveToolsBody (serverName : string) (tools : list Tool.t) : M unit :=
  start <- batchPreamble tools ;;
  match start with
  | None => ret tt
  | Some config =>
      actualDimensions <- probeDimensions ;;
      reconcileAndStore serverName config actualDimensions tools
  end.

Definition saveToolsAsVectorEmbeddingsWith (serverName : string) (tools : list Tool.t)
  : M unit :=
  tryCatch (saveToolsBody serverName tools)
           (fun error => ret tt).      (* console.error, nothing re-thrown *)

End SaveBatch.

Definition generateEmbeddingArray (env : Env) (text : string) : M (option (list R)) :=
  bind (generateEmbedding env text) (fun v => ret (Some v)).

Definition saveToolsAsVectorEmbeddings (env : Env) (serverName : string)
           (tools : list Tool.t) : M unit :=
  saveToolsAsVectorEmbeddingsWith env (generateEmbeddingArray env) serverName tools.

(** ** The service at run time *)

(** The declarations of the service promise more than JavaScript checks
    when it runs: [getSmartRoutingConfig] is awaited and may reject, and
    what [callEmbeddingAPI] resolves to is [data[0].embedding] of the
    response, whatever JSON value the server put there.  This module embeds
    [generateEmbedding] and [saveToolsAsVectorEmbeddings] with both
    possibilities.  The definitions of the same names outside the module
    are their restriction to a configuration read that resolves and to
    arrays of numbers ([generateEmbedding_restriction] below). *)
Module Runtime.

(** What the service runs on: the collaborators of [Env], the rejections
    of the configuration read (by call clock), the value of
    [data[0].embedding] that [callEmbeddingAPI] resolves to ([JNull] after
    any failure), and ToNumber on strings and arrays ([None]: NaN). *)
Record Host : Type := mkHost {
  services : Env;
  getSmartRoutingConfigFault : nat -> option Thrown;
  embeddingResponse : nat -> string -> OpenAIConfig -> JsValue;
  coerceToNumber : JsValue -> option R
}.

(** [val === 0] *)
Definition strictlyZero (val : JsValue) : bool :=
  match val with
  | JNumber r => isZero r
  | _ => false
  end.

Section Validation.

Variable host : Host.

(** ToNumber, which [>=] and [<=] apply to an operand that is compared
    with a number. *)
Definition toNumber (val : JsValue) : option R :=
  match val with
  | JUndefined => None
  | JNull => Some 0%R
  | JBool b => Some (if b then 1%R else 0%R)
  | JNumber r => Some r
  | JObject _ => None
  | JString _ | JArray _ => coerceToNumber host val
  end.

(** [val >= minRange && val <= maxRange] *)
Definition withinRange (minRange maxRange : R) (val : JsValue) : bool :=
  match toNumber val with
  | Some r => inRange minRange maxRange r
  | None => false
  end.

(** [Array.isArray(embedding) && embedding.length !== 0] *)
Definition validateEmbeddingArray (embedding : JsValue) : bool :=
  match embedding with
  | JArray (_ :: _) => true
  | _ => false
  end.

Definition validateEmbeddingNotZero (embedding : list JsValue) : bool :=
  let allVectorValuesAreZero := forallb strictlyZero embedding in
  negb allVectorValuesAreZero.

Definition validateEmbeddingRange (embedding : list JsValue) (minRange maxRange : R) : bool :=
  forallb (withinRange minRange maxRange) embedding.

Definition validateEmbeddingDimensions (embedding : list JsValue) (modelName : string) : bool :=
  let actualDimensions := Z.of_nat (length embedding) in
  let expectedDimensions := getDimensionsForModel modelName in
  Z.eqb actualDimensions expectedDimensions.

End Validation.

Section Service.

Variable host : Host.

Local Open Scope js_scope.

(** [await getSmartRoutingConfig()] *)
Definition getSmartRoutingConfig : M SmartRoutingConfig :=
  fun w =>
    match getSmartRoutingConfigFault host (clock w) with
    | Some e => (Throw e, advance w)
    | None => (Ok (smartRoutingConfig (services host) (clock w)), advance w)
    end.

Definition getOpenAIConfig : M OpenAIConfig :=
  smartRoutingConfig <- getSmartRoutingConfig ;;
  ret (openAIConfigOf smartRoutingConfig).

(** [callEmbeddingAPI]: never throws; [null] after any failure. *)
Definition callEmbeddingAPI (text : string) (config : OpenAIConfig) : M JsValue :=
  fun w =>
    (Ok (embeddingResponse host (clock w) text config),
     tick (CallEmbeddingAPI text) true w).

(** The array of numbers that [generateFallbackEmbedding] returns. *)
Definition fallbackEmbedding (text : string) : list JsValue :=
  map JNumber (generateFallbackEmbedding text).

(** The configuration is awaited before the [try] is entered (line 517);
    the [try] starts at line 526. *)
Definition generateEmbedding (text : string) : M (list JsValue) :=
  config <- getOpenAIConfig ;;
  let truncatedText := prepareText text in
  tryCatch
    (embedding <- callEmbeddingAPI truncatedText config ;;
     if negb (isTruthy embedding) then ret (fallbackEmbedding text)
     else if negb (validateEmbeddingArray embedding) then ret (fallbackEmbedding text)
     else
       match embedding with
       | JArray items =>
           if negb (validateEmbeddingNotZero items)
           then ret (fallbackEmbedding text)
           else if negb (validateEmbeddingRange host items defaultMinRange defaultMaxRange)
           then ret (fallbackEmbedding text)
           else if negb (validateEmbeddingDimensions items (embeddingModel config))
           then ret (fallbackEmbedding text)
           else ret items
       | _ => ret (fallbackEmbedding text)
       end)
    (fun error => ret (fallbackEmbedding text)).

(** What the batch gets from [await generateEmbedding(...)]: always an
    array. *)
Definition generateEmbeddingArray (text : string) : M (option (list JsValue)) :=
  embedding <- generateEmbedding text ;;
  ret (Some embedding).

(** Lines 708-732 of [saveToolsAsVectorEmbeddings]. *)
Definition batchPreamble (tools : list Tool.t) : M (option OpenAIConfig) :=
  if length tools =? 0 then ret None
  else
    smartRoutingConfig <- getSmartRoutingConfig ;;
    if negb (enabled smartRoutingConfig) then ret None
    else
      (fun w => if isDatabaseConnected (services host) (clock w)
                then ret tt w else initializeDatabase (services host) w) ;;;
      config <- getOpenAIConfig ;;
      getVectorRepository (services host) ;;;
      ret (Some config).

(** The body of the outermost [try] of [saveToolsAsVectorEmbeddings]: the
    probe, reconciliation and the loop over the tools are those of the
    batch above, with [generateEmbedding] as the generator. *)
Definition saveToolsBody (serverName : string) (tools : list Tool.t) : M unit :=
  start <- batchPreamble tools ;;
  match start with
  | None => ret tt
  | Some config =>
      actualDimensions <- probeDimensions generateEmbeddingArray ;;
      reconcileAndStore (services host) generateEmbeddingArray
                        serverName config actualDimensions tools
  end.

Definition saveToolsAsVectorEmbeddings (serverName : string) (tools : list Tool.t)
  : M unit :=
  tryCatch (saveToolsBody serverName tools)
           (fun error => ret tt).      (* console.error, nothing re-thrown *)

End Service.

(** The value that stands for an answer of the typed transport. *)
Definition ofEmbedding (embedding : JsEmbedding) : JsValue :=
  match embedding with
  | EmbFalsy => JNull
  | EmbNotArray => JObject []
  | EmbArray v => JArray (map JNumber v)
  end.

(** The host of a typed environment: the configuration read always
    resolves and the transport answers as the typed one does. *)
Definition ofEnv (env : Env) : Host :=
  mkHost env (fun _ => None)
         (fun c text config => ofEmbedding (embeddingTransport env c text config))
         (fun _ => None).

End Runtime.

(** ** Search results *)

Module Hit.
(** An element of the result of [searchToolsByVector]. *)
Record t : Type := mk {
  serverName : JsValue;
  toolName : JsValue;
  description : JsValue;
  inputSchema : JsValue;
  similarity : R;
  searchableText : option string
}.
End Hit.

Module ToolInfo.
(** An element of the result of [getAllVectorizedTools]. *)
Record t : Type := mk {
  serverName : JsValue;
  toolName : JsValue;
  description : JsValue;
  inputSchema : JsValue
}.
Definition unknown : t := mk (JString "unknown") (JString "unknown") (JString "") (JObject []).
End ToolInfo.

(** [serverNames.includes(v)] for an array of strings. *)
Definition includesValue (serverNames : list string) (v : JsValue) : bool :=
  match v with
  | JString s => existsb (String.eqb s) serverNames
  | _ => false
  end.

Definition isUnderscore (c : ascii) : bool := JsString.code c =? 95.

(** Lines 955-976: tool name, server name and description read off the
    text.  [/^(\S+)/] for the tool name, [/^([^_]+)_/] on the tool name for
    the server name, [replace(/^\S+\s*/, '').trim()] for the description. *)
Definition extractToolName (textContent : string) : string :=
  JsString.takeWhile JsString.notWhitespace textContent.

Definition extractServerName (toolName : string) : string :=
  let (prefix, rest) := JsString.span (fun c => negb (isUnderscore c)) toolName in
  match prefix, rest with
  | String _ _, String _ _ => prefix      (* [rest] starts with the underscore *)
  | _, _ => "unknown"
  end.

Definition extractDescription (textContent : string) : string :=
  let (token, rest) := JsString.span JsString.notWhitespace textContent in
  match token with
  | EmptyString => JsString.trim textContent          (* no match, nothing replaced *)
  | String _ _ => JsString.trim (JsString.dropWhile JsString.isWhitespace rest)
  end.

Definition heuristicHit (result : SearchRow) : Hit.t :=
  let textContent :=
    match embedding result with
    | Some e => match text_content e with Some t => t | None => "" end
    | None => ""
    end in
  let toolName := extractToolName textContent in
  let serverName := extractServerName toolName in
  let description := extractDescription textContent in
  Hit.mk (JString serverName) (JString toolName) (JString description)
         (JObject []) (similarity result) (Some textContent).

Section Search.

Variable env : Env.

Local Open Scope js_scope.

(** The callback of [results.filter] in both listing functions.  Reading
    [result.embedding.metadata] raises a TypeError when the row has no
    [embedding]; everything else is inside the callback's own [try]. *)
Definition serverNameAllowed (serverNames : list string) (result : SearchRow)
  : Outcome bool :=
  match embedding result with
  | None => Throw (ErrorWith "Cannot read properties of undefined (reading 'metadata')")
  | Some e =>
      match metadata e with
      | JString s =>
          match JSON_parse env s with
          | Some parsedMetadata =>
              match getProp parsedMetadata "serverName" with
              | Some v => Ok (includesValue serverNames v)
              | None => Ok false
              end
          | None => Ok false
          end
      | _ => Ok false
      end
  end.

Fixpoint filterRows (serverNames : list string) (results : list SearchRow)
  : Outcome (list SearchRow) :=
  match results with
  | [] => Ok []
  | result :: rest =>
      match serverNameAllowed serverNames result with
      | Throw e => Throw e
      | Ok keep =>
          match filterRows serverNames rest with
          | Throw e => Throw e
          | Ok kept => Ok (if keep then result :: kept else kept)
          end
      end
  end.

(** [serverNames && serverNames.length > 0 ? results.filter(...) : results] *)
Definition filterByServerNames (serverNames : option (list string))
           (results : list SearchRow) : Outcome (list SearchRow) :=
  match serverNames with
  | Some (n :: names) => filterRows (n :: names) results
  | _ => Ok results
  end.

(** Lines 933-953: the record built from well-formed metadata, when there
    is one. *)
Definition structuredHit (result : SearchRow) : option Hit.t :=
  match embedding result with
  | Some e =>
      match metadata e with
      | JString s =>
          if String.eqb s "" then None
          else
            match JSON_parse env s with
            | Some parsedMetadata =>
                match getProp parsedMetadata "serverName",
                      getProp parsedMetadata "toolName" with
                | Some serverName, Some toolName =>
                    if isTruthy serverName && isTruthy toolName then
                      Some (Hit.mk serverName toolName
                              (orElse (propOf parsedMetadata "description") (JString ""))
                              (orElse (propOf parsedMetadata "inputSchema") (JObject []))
                              (similarity result) (text_content e))
                    else None
                | _, _ => None
                end
            | None => None
            end
      | _ => None
      end
  | None => None
  end.


(** The callback of [filteredResults.map] in [searchToolsByVector]. *)
Definition transformSearchRow (result : SearchRow) : Hit.t :=
  match structuredHit result with
  | Some hit => hit
  | None => heuristicHit result
  end.

Definition liftOutcome {A} (o : Outcome A) : M A := fun w => (o, w).

(** ** [searchToolsByVector] *)

Definition searchToolsBody (queryText : string) (limit : Z) (threshold : R)
           (serverNames : option (list string)) : M (list Hit.t) :=
  getVectorRepository env ;;;
  results <- searchByText env queryText limit threshold ;;
  filteredResults <- liftOutcome (filterByServerNames serverNames results) ;;
  ret (map transformSearchRow filteredResults).

Definition searchToolsByVector (queryText : string) (limit : Z) (threshold : R)
           (serverNames : option (list string)) : M (list Hit.t) :=
  tryCatch (searchToolsBody queryText limit threshold serverNames)
           (fun error => ret []).

(** ** [getAllVectorizedTools] *)

(** The callback of [filteredResults.map] in [getAllVectorizedTools]. *)
Definition transformListedRow (result : SearchRow) : Outcome ToolInfo.t :=
  match embedding result with
  | None => Throw (ErrorWith "Cannot read properties of undefined (reading 'metadata')")
  | Some e =>
      match metadata e with
      | JString s =>
          match JSON_parse env s with
          | Some parsedMetadata =>
              match getProp parsedMetadata "serverName" with
              | Some serverName =>
                  Ok (ToolInfo.mk serverName
                        (propOf parsedMetadata "toolName")
                        (propOf parsedMetadata "description")
                        (propOf parsedMetadata "inputSchema"))
              | None => Ok ToolInfo.unknown
              end
          | None => Ok ToolInfo.unknown
          end
      | _ => Ok ToolInfo.unknown
      end
  end.

Fixpoint mapRows {A} (f : SearchRow -> Outcome A) (rows : list SearchRow)
  : Outcome (list A) :=
  match rows with
  | [] => Ok []
  | row :: rest =>
      match f row with
      | Throw e => Throw e
      | Ok a =>
          match mapRows f rest with
          | Throw e => Throw e
          | Ok l => Ok (a :: l)
          end
      end
  end.

(** Lines 1004-1028: the width of the zero probe vector. *)
Definition dimensionsToUse (config : OpenAIConfig) : M Z :=
  let fromModel := getDimensionsForModel (embeddingModel config) in
  tryCatch
    (result <- query env SelectAtttypmod ;;
     match result with
     | AtttypmodRows (rawValue :: _) =>
         if Z.eqb rawValue 0 then ret fromModel
         else if Z.eqb rawValue (-1) then ret fromModel
         else ret rawValue
     | _ => ret fromModel
     end)
    (fun error => ret fromModel).

(** [new Array(n).fill(0)]: a RangeError unless [0 <= n < 2^32]. *)
Definition zeroVector (n : Z) : M (list R) :=
  if ((n <? 0) || (4294967295 <? n))%Z
  then throw (ErrorWith "Invalid array length")
  else ret (repeat 0%R (Z.to_nat n)).

Definition getAllVectorizedToolsBody (serverNames : option (list string))
  : M (list ToolInfo.t) :=
  config <- getOpenAIConfig env ;;
  getVectorRepository env ;;;
  dimensions <- dimensionsToUse config ;;
  probe <- zeroVector dimensions ;;
  results <- searchSimilar env probe 1000%Z (-1)%R ;;
  filteredResults <- liftOutcome (filterByServerNames serverNames results) ;;
  liftOutcome (mapRows transformListedRow filteredResults).

Definition getAllVectorizedTools (serverNames : option (list string))
  : M (list ToolInfo.t) :=
  tryCatch (getAllVectorizedToolsBody serverNames)
           (fun error => ret []).

(** ** [removeServerToolEmbeddings] *)

Definition removeServerToolEmbeddingsBody (serverName : string) : M unit :=
  proceed <-
    (fun w =>
       if isDatabaseConnected env (clock w) then ret true w
       else
         (smartRoutingConfig <- getSmartRoutingConfig env ;;
          if String.eqb (dbUrl smartRoutingConfig) ""
             && String.eqb (processEnvDbUrl env) ""
          then ret false          (* cleanup skipped: no database configured *)
          else initializeDatabase env ;;; ret true) w) ;;
  if proceed : bool then
    getVectorRepository env ;;;
    removedCount <- deleteByServerName env serverName ;;
    ret tt
  else ret tt.

Definition removeServerToolEmbeddings (serverName : string) : M unit :=
  tryCatch (removeServerToolEmbeddingsBody serverName)
           (fun error => ret tt).     (* logged, never re-thrown *)

End Search.

(** ** [syncAllServerToolsEmbeddings] *)

Module ServerInfo.
(** An element of the result of [getServersInfo], as far as the
    synchronization reads it. *)
Record t : Type := mk {
  name : string;
  status : string;
  tools : option (list Tool.t)      (* [None]: null or undefined *)
}.
End ServerInfo.

Section Sync.

Variable env : Env.

(** [await getServersInfo()], imported from [mcpService]: any computation
    that gives the servers or throws. *)
Variable getServersInfo : M (list ServerInfo.t).

Local Open Scope js_scope.

(** [for (const server of servers)], with the two counters
    [totalToolsSynced] and [serversSynced]. *)
Fixpoint syncServers (servers : list ServerInfo.t) (counts : nat * nat)
  : M (nat * nat) :=
  match servers with
  | [] => ret counts
  | server :: rest =>
      if String.eqb (ServerInfo.status server) "connected" then
        match ServerInfo.tools server with
        | Some (tool :: others) =>
            let tools := tool :: others in
            synced <-
              tryCatch
                (saveToolsAsVectorEmbeddings env (ServerInfo.name server) tools ;;;
                 ret (fst counts + length tools, S (snd counts)))
                (fun error => ret counts) ;;
            syncServers rest synced
        | _ => syncServers rest counts          (* connected, no tools to sync *)
        end
      else syncServers rest counts              (* skipped *)
  end.

Definition syncAllServerToolsEmbeddings : M unit :=
  tryCatch
    (servers <- getServersInfo ;;
     counts <- syncServers servers (0, 0) ;;
     ret tt)
    (fun error => throw error).

End Sync.

(** ** [maskString] *)

(** [s.repeat(n)] *)
Fixpoint repeatString (s : string) (n : nat) : string :=
  match n with
  | O => EmptyString
  | S n' => s ++ repeatString s n'
  end.

(** [s.slice(-n)] for an integer [n >= 0]: the last [n] characters of [s],
    all of [s] when it has fewer; [-0] is 0, so [s.slice(-0)] is all of
    [s]. *)
Definition sliceLast (n : nat) (s : string) : string :=
  if n =? 0 then s else substring (String.length s - n) n s.

(** [maskString(text, visibleStart, visibleEnd, maskChar)] for counts that
    are integers [>= 0]. *)
Definition maskString (text : string) (visibleStart visibleEnd : nat)
           (maskChar : string) : string :=
  if String.length text <=? visibleStart + visibleEnd
  then repeatString maskChar (String.length text)
  else
    let start := JsString.substring0 visibleStart text in
    let tail := sliceLast visibleEnd text in
    let maskedSection :=
      repeatString maskChar (String.length text - visibleStart - visibleEnd) in
    start ++ maskedSection ++ tail.

(** ** Sample worlds *)

(** A reader for a fragment of JSON, used as [JSON.parse] in the sample
    environments: objects, arrays, strings with the two-character escapes,
    integers and the three literals.  The properties below are proved for
    every [JSON_parse]; this reader only serves the concrete examples, whose
    documents are in the fragment or are not JSON at all. *)
Module JsonFragment.

Definition isJsonSpace (c : ascii) : bool :=
  let n := JsString.code c in (n =? 32) || (n =? 9) || (n =? 10) || (n =? 13).

Definition skip (s : string) : string := JsString.dropWhile isJsonSpace s.

Definition unescape (c : ascii) : option ascii :=
  let n := JsString.code c in
  if (n =? 34) || (n =? 92) || (n =? 47) then Some c
  else if n =? 110 then Some (ascii_of_nat 10)
  else if n =? 116 then Some (ascii_of_nat 9)
  else if n =? 114 then Some (ascii_of_nat 13)
  else if n =? 98 then Some (ascii_of_nat 8)
  else if n =? 102 then Some (ascii_of_nat 12)
  else None.

(** After the opening quote: the characters up to the closing quote. *)
Fixpoint stringBody (s : string) : option (string * string) :=
  match s with
  | EmptyString => None
  | String c rest =>
      let n := JsString.code c in
      if n =? 34 then Some (EmptyString, rest)
      else if n <? 32 then None
      else if n =? 92 then
        match rest with
        | String e rest' =>
            match unescape e, stringBody rest' with
            | Some x, Some (body, after) => Some (String x body, after)
            | _, _ => None
            end
        | EmptyString => None
        end
      else
        match stringBody rest with
        | Some (body, after) => Some (String c body, after)
        | None => None
        end
  end.

Definition integer (s : string) : option (Z * string) :=
  let (negative, s1) :=
    match s with
    | String c rest => if JsString.code c =? 45 then (true, rest) else (false, s)
    | EmptyString => (false, s)
    end in
  let (digits, after) := JsString.span JsString.isDigit s1 in
  let leadingZero := prefix "0" digits && (1 <? String.length digits) in
  let continues :=
    match after with
    | String c _ =>
        let n := JsString.code c in (n =? 46) || (n =? 101) || (n =? 69)
    | EmptyString => false
    end in
  if leadingZero || continues then None
  else match JsString.parseDigits digits with
       | Some z => if String.eqb digits EmptyString then None
                   else Some (if negative then (- z)%Z else z, after)
       | None => None
       end.

Fixpoint value (fuel : nat) (s : string) {struct fuel} : option (JsValue * string) :=
  match fuel with
  | O => None
  | S fuel' =>
      let s := skip s in
      if prefix "null" s then Some (JNull, substring 4 (String.length s) s)
      else if prefix "true" s then Some (JBool true, substring 4 (String.length s) s)
      else if prefix "false" s then Some (JBool false, substring 5 (String.length s) s)
      else
        match s with
        | EmptyString => None
        | String c rest =>
            let n := JsString.code c in
            if n =? 34 then
              match stringBody rest with
              | Some (body, after) => Some (JString body, after)
              | None => None
              end
            else if n =? 123 then
              match skip rest with
              | String d after =>
                  if JsString.code d =? 125 then Some (JObject [], after)
                  else members fuel' (skip rest) []
              | EmptyString => None
              end
            else if n =? 91 then
              match skip rest with
              | String d after =>
                  if JsString.code d =? 93 then Some (JArray [], after)
                  else elements fuel' (skip rest) []
              | EmptyString => None
              end
            else
              match integer s with
              | Some (z, after) => Some (JNumber (IZR z), after)
              | None => None
              end
        end
  end
with members (fuel : nat) (s : string) (acc : list (string * JsValue)) {struct fuel}
     : option (JsValue * string) :=
  match fuel with
  | O => None
  | S fuel' =>
      match skip s with
      | String q rest =>
          if JsString.code q =? 34 then
            match stringBody rest with
            | Some (key, after) =>
                match skip after with
                | String colon after' =>
                    if JsString.code colon =? 58 then
                      match value fuel' after' with
                      | Some (v, after'') =>
                          (* a repeated key keeps its last value *)
                          let acc' :=
                            (filter (fun kv => negb (String.eqb (fst kv) key)) acc
                               ++ [(key, v)])%list in
                          match skip after'' with
                          | String d tail =>
                              if JsString.code d =? 125 then Some (JObject acc', tail)
                              else if JsString.code d =? 44 then members fuel' tail acc'
                              else None
                          | EmptyString => None
                          end
                      | None => None
                      end
                    else None
                | EmptyString => None
                end
            | None => None
            end
          else None
      | EmptyString => None
      end
  end
with elements (fuel : nat) (s : string) (acc : list JsValue) {struct fuel}
     : option (JsValue * string) :=
  match fuel with
  | O => None
  | S fuel' =>
      match value fuel' s with
      | Some (v, after) =>
          match skip after with
          | String d tail =>
              if JsString.code d =? 93 then Some (JArray (acc ++ [v])%list, tail)
              else if JsString.code d =? 44 then elements fuel' tail (acc ++ [v])%list
              else None
          | EmptyString => None
          end
      | None => None
      end
  end.

Definition parse (s : string) : option JsValue :=
  match value (S (String.length s)) s with
  | Some (v, rest) =>
      match skip rest with
      | EmptyString => Some v
      | String _ _ => None
      end
  | None => None
  end.

Definition quote : string := String (ascii_of_nat 34) EmptyString.
Definition quoted (s : string) : string := (quote ++ s ++ quote)%string.

End JsonFragment.

Definition sampleConfig : SmartRoutingConfig :=
  mkSmartRoutingConfig true "test-api-key" "http://localhost:8000/"
                       "text-embedding-3-small" "postgresql://localhost/mcphub".

(** Every collaborator answers and none fails; the embedding transport is
    down ([null]), so every embedding is the fallback one. *)
Definition quietEnv : Env :=
  mkEnv (fun _ => sampleConfig)
        (fun _ => true) (fun _ => true) (fun _ => None)
        (fun _ _ _ => EmbFalsy)
        (fun _ _ => None) (fun _ => None) (fun _ _ => None) (fun _ _ => None)
        (fun _ _ _ _ => Ok []) (fun _ _ _ _ => Ok [])
        "" JsonFragment.parse.

(** As [quietEnv], but every CREATE INDEX statement is rejected. *)
Definition indexFaultEnv : Env :=
  mkEnv (fun _ => sampleConfig)
        (fun _ => true) (fun _ => true) (fun _ => None)
        (fun _ _ _ => EmbFalsy)
        (fun _ q =>
           match q with
           | CreateIndexHnsw _ _ _ | CreateIndexIvfflat _ _ _
           | CreateIndexHnswHalfvec _ _ _ _ =>
               Some (ErrorWith "access method hnsw does not exist")
           | _ => None
           end)
        (fun _ => None) (fun _ _ => None) (fun _ _ => None)
        (fun _ _ _ _ => Ok []) (fun _ _ _ _ => Ok [])
        "" JsonFragment.parse.

(** As [quietEnv], but every ALTER TABLE statement is rejected. *)
Definition alterFaultEnv : Env :=
  mkEnv (fun _ => sampleConfig)
        (fun _ => true) (fun _ => true) (fun _ => None)
        (fun _ _ _ => EmbFalsy)
        (fun _ q =>
           match q with
           | AlterEmbeddingColumn _ => Some (ErrorWith "cannot alter type of a column")
           | _ => None
           end)
        (fun _ => None) (fun _ _ => None) (fun _ _ => None)
        (fun _ _ _ _ => Ok []) (fun _ _ _ _ => Ok [])
        "" JsonFragment.parse.

(** As [quietEnv], but the repository rejects every search and every
    deletion. *)
Definition searchFaultEnv : Env :=
  mkEnv (fun _ => sampleConfig)
        (fun _ => true) (fun _ => true) (fun _ => None)
        (fun _ _ _ => EmbFalsy)
        (fun _ _ => None) (fun _ => None) (fun _ _ => None)
        (fun _ _ => Some (ErrorWith "Delete failed"))
        (fun _ _ _ _ => Throw (ErrorWith "Search failed"))
        (fun _ _ _ _ => Throw (ErrorWith "Search failed"))
        "" JsonFragment.parse.

(** Four rows: well-formed metadata of server "a", the text "invalid json",
    [null], and well-formed metadata of server "b". *)
Definition metadataOf (serverName toolName : string) : JsValue :=
  JString ("{" ++ JsonFragment.quoted "serverName" ++ ":" ++ JsonFragment.quoted serverName
               ++ "," ++ JsonFragment.quoted "toolName" ++ ":" ++ JsonFragment.quoted toolName
               ++ "}").

Definition sampleRows : list SearchRow :=
  [ mkSearchRow 1%R (Some (mkSearchEntity (Some "a_list List the things")
                                          (metadataOf "a" "a_list")));
    mkSearchRow 1%R (Some (mkSearchEntity (Some "a_get Get one thing")
                                          (JString "invalid json")));
    mkSearchRow 1%R (Some (mkSearchEntity (Some "lookup Look something up") JNull));
    mkSearchRow 1%R (Some (mkSearchEntity (Some "b_list List the others")
                                          (metadataOf "b" "b_list"))) ].

(** As [quietEnv], but both searches of the repository give [sampleRows]. *)
Definition sampleSearchEnv : Env :=
  mkEnv (fun _ => sampleConfig)
        (fun _ => true) (fun _ => true) (fun _ => None)
        (fun _ _ _ => EmbFalsy)
        (fun _ _ => None) (fun _ => None) (fun _ _ => None) (fun _ _ => None)
        (fun _ _ _ _ => Ok sampleRows) (fun _ _ _ _ => Ok sampleRows)
        "" JsonFragment.parse.

(** A row whose metadata name the server "a" and no tool, and whose text
    begins with the word "b_tool". *)
Definition unnamedToolRow : SearchRow :=
  mkSearchRow 1%R
    (Some (mkSearchEntity
             (Some "b_tool Does things")
             (JString ("{" ++ JsonFragment.quoted "serverName" ++ ":"
                           ++ JsonFragment.quoted "a" ++ "}")))).

(** As [quietEnv], but the text search of the repository gives
    [unnamedToolRow]. *)
Definition unnamedToolEnv : Env :=
  mkEnv (fun _ => sampleConfig)
        (fun _ => true) (fun _ => true) (fun _ => None)
        (fun _ _ _ => EmbFalsy)
        (fun _ _ => None) (fun _ => None) (fun _ _ => None) (fun _ _ => None)
        (fun _ _ _ _ => Ok [unnamedToolRow]) (fun _ _ _ _ => Ok [unnamedToolRow])
        "" JsonFragment.parse.

(** The settings cannot be read: every read of the configuration
    rejects.  The transport is down. *)
Definition unreadableSettingsHost : Runtime.Host :=
  Runtime.mkHost quietEnv (fun _ => Some (ErrorWith "settings unavailable"))
                 (fun _ _ _ => JNull) (fun _ => None).

(** The first two reads of the configuration resolve, the third one (at
    call clock 2) rejects, later ones resolve again.  The transport is
    down. *)
Definition thirdReadFaultHost : Runtime.Host :=
  Runtime.mkHost quietEnv
                 (fun c => if c =? 2 then Some (ErrorWith "settings unavailable") else None)
                 (fun _ _ _ => JNull) (fun _ => None).

(** ToNumber on the strings that are runs of decimal digits. *)
Definition digitsToNumber (val : JsValue) : option R :=
  match val with
  | JString s => option_map IZR (JsString.parseDigits s)
  | _ => None
  end.

(** The server answers every request with an [embedding] of 1536 strings
    "0". *)
Definition zeroStringsHost : Runtime.Host :=
  Runtime.mkHost quietEnv (fun _ => None)
                 (fun _ _ _ => JArray (repeat (JString "0") 1536)) digitsToNumber.

(** A generator that gives 1536 components to the probe text and 768 to
    every other text. *)
Definition narrowToolGenerator : string -> M (option (list R)) :=
  fun text =>
    ret (Some (repeat 1%R (if String.eqb text "test" then 1536 else 768))).

Definition emptyStore : Store := mkStore (-1) [] [].
Definition emptyWorld : World := mkWorld 0 emptyStore [].

(** A database declared at width 1536, with its HNSW index and no rows. *)
Definition indexedWorld : World :=
  mkWorld 0 (mkStore 1536 [] [("idx_vector_embeddings_embedding", Hnsw)]) [].

(** A database declared at width 1024 that holds one record of that width
    and one of width 100. *)
Definition staleWorld : World :=
  mkWorld 0
    (mkStore 1024
       [ mkStoredRecord "docs:search_tool" "search_tool Search for documents query"
                        1024 "bge-m3" "docs";
         mkStoredRecord "mail:send" "send Send a message" 100 "fallback" "mail" ]
       [("idx_vector_embeddings_embedding", Hnsw)])
    [].

Definition sampleTool : Tool.t :=
  Tool.mk "search_tool" "Search for documents"
          (JObject [("type", JString "object");
                    ("properties", JObject [("query", JObject [])])]).

(** ** Observers of the journal *)

Definition isCreateIndex (c : Call) : bool :=
  match c with
  | CallQuery (CreateIndexHnsw _ _ _)
  | CallQuery (CreateIndexIvfflat _ _ _)
  | CallQuery (CreateIndexHnswHalfvec _ _ _ _) => true
  | _ => false
  end.

Definition isSaveEmbedding (c : Call) : bool :=
  match c with
  | CallSaveEmbedding _ _ _ _ => true
  | _ => false
  end.

(** ** Vocabulary of the statements *)

(** Case-insensitive containment and equality, stated on the name itself. *)
Definition containsIgnoringCase (name pat : string) : Prop :=
  exists pre mid post,
    name = (pre ++ mid ++ post)%string /\ JsString.toLowerCase mid = pat.

Definition equalsIgnoringCase (name pat : string) : Prop :=
  JsString.toLowerCase name = pat.

(** The conventional name of the index of a column. *)
Definition indexNameOf (tableName columnName : string) : string :=
  ("idx_" ++ tableName ++ "_" ++ columnName)%string.

(** Sum of the components of a vector. *)
Definition sumList (v : list R) : R := fold_right Rplus 0%R v.

(** No component is negative. *)
Definition nonNegative (v : list R) : Prop := Forall (fun x => (0 <= x)%R) v.

(** The index of [vector_embeddings.embedding]. *)
Definition defaultIndexName : string := "idx_vector_embeddings_embedding".

(** The embedding generated for a tool fails the checks of the loop: it is
    not an array, or it is empty, or its length is not the batch width. *)
Definition rejectedEmbedding (actualDimensions : nat) (r : Outcome (option (list R))) : Prop :=
  match r with
  | Ok None => True
  | Ok (Some v) => length v = 0 \/ length v <> actualDimensions
  | Throw _ => False
  end.

(** The metadata of a row is usable when it is a non-empty string that
    parses to a value with truthy [serverName] and [toolName]. *)
Definition usableMetadata (env : Env) (row : SearchRow) : Prop :=
  exists e s parsed serverName toolName,
    embedding row = Some e /\ metadata e = JString s /\ s <> ""%string
    /\ JSON_parse env s = Some parsed
    /\ getProp parsed "serverName" = Some serverName
    /\ getProp parsed "toolName" = Some toolName
    /\ isTruthy serverName = true /\ isTruthy toolName = true.

(** [result.embedding?.text_content || ''] *)
Definition textOf (row : SearchRow) : string :=
  match embedding row with
  | Some e => match text_content e with Some t => t | None => ""%string end
  | None => ""%string
  end.

(** No character of [s] is an underscore. *)
Definition noUnderscore (s : string) : Prop :=
  allChars (fun c => negb (isUnderscore c)) s = true.

(** The metadata of the row is a string that parses to a value whose
    [serverName] is one of the allowed names. *)
Definition allowedMetadata (env : Env) (serverNames : list string) (row : SearchRow) : Prop :=
  exists e s parsed v,
    embedding row = Some e /\ metadata e = JString s
    /\ JSON_parse env s = Some parsed
    /\ getProp parsed "serverName" = Some (JString v)
    /\ In v serverNames.

(** The metadata of the row is not a string, or is a string that does not
    parse (a row without [embedding] has no metadata at all). *)
Definition unreadableMetadata (env : Env) (row : SearchRow) : Prop :=
  match embedding row with
  | None => True
  | Some e =>
      match metadata e with
      | JString s => JSON_parse env s = None
      | _ => True
      end
  end.

(** ** Vocabulary of the further properties *)


(** The statements that only read. *)
Definition isSelect (c : Call) : bool :=
  match c with
  | CallQuery SelectVectorTypeInfo
  | CallQuery SelectAtttypmod
  | CallQuery SelectRecordDimensions => true
  | _ => false
  end.

(** [s] ends with a slash. *)
Definition endsWithSlash (s : string) : Prop := exists p, s = (p ++ "/")%string.


(** The width that the type modifier of the column stands for: none (0)
    for the modifiers 0 and -1. *)
Definition storedWidth (s : Store) : Z :=
  let declared := atttypmod s in
  if (declared =? 0)%Z then 0%Z
  else if (0 <? declared)%Z then declared
  else if (declared =? -1)%Z then 0%Z else declared.

(** The width detection arrives at, by whether the query on the widths of
    the rows was answered. *)
Definition detectedWidth (s : Store) (recordsAnswered : bool) : Z :=
  let current := storedWidth s in
  if recordsAnswered then
    match firstn 5 (orderByCountDesc (groupCounts (records s))) with
    | (mostCommon, _, _) :: _ =>
        if (current =? 0)%Z && (0 <? mostCommon)%Z then mostCommon else current
    | [] => current
    end
  else current.

Definition isDelete (c : Call) : bool :=
  match c with
  | CallQuery (DeleteMismatched _) => true
  | _ => false
  end.



(** The row has an [embedding] (its metadata can be read at all). *)
Definition hasEmbedding (row : SearchRow) : Prop := embedding row <> None.

(** The servers whose tools the synchronization saves: connected, with at
    least one tool. *)
Definition toolsToSync (server : ServerInfo.t) : list Tool.t :=
  if String.eqb (ServerInfo.status server) "connected" then
    match ServerInfo.tools server with
    | Some tools => tools
    | None => []
    end
  else [].

(** Every character of [s] is [c]. *)
Definition madeOf (c : ascii) (s : string) : Prop :=
  allChars (fun x => Ascii.eqb x c) s = true.




(** The string begins with a whitespace character. *)
Definition beginsWithWhitespace (s : string) : bool :=
  match s with
  | EmptyString => false
  | String c _ => JsString.isWhitespace c
  end.

(** * Properties *)

Open Scope list_scope.

(** ** Sanity checks of the embedding on sample inputs *)

Example getDimensionsForModel_gguf :
  getDimensionsForModel "BGE-M3-Q5_K_M.gguf" = 1024%Z.
Proof. reflexivity. Qed.

Example splitWhitespace_blank :
  JsString.splitWhitespace "  a  b " = [""; "a"; "b"; ""].
Proof. reflexivity. Qed.

Example trim_sample : JsString.trim "  a b  " = "a b".
Proof. reflexivity. Qed.

Example parse_sample_metadata :
  JsonFragment.parse
    ("{" ++ JsonFragment.quoted "serverName" ++ ": " ++ JsonFragment.quoted "docs"
         ++ ", " ++ JsonFragment.quoted "toolName" ++ ":" ++ JsonFragment.quoted "search_tool"
         ++ ", " ++ JsonFragment.quoted "n" ++ ":[1, -2]}")
  = Some (JObject [("serverName", JString "docs"); ("toolName", JString "search_tool");
                   ("n", JArray [JNumber 1; JNumber (-2)])]).
Proof. reflexivity. Qed.

Example parse_invalid_json : JsonFragment.parse "invalid json" = None.
Proof. reflexivity. Qed.

Example searchableTextOf_sample :
  searchableTextOf sampleTool = "search_tool Search for documents query".
Proof. reflexivity. Qed.

Example search_sample_unfiltered :
  option_map (map (fun hit => (Hit.serverName hit, Hit.toolName hit)))
             (match fst (searchToolsByVector sampleSearchEnv "x" 10 (7 / 10)%R None emptyWorld)
              with Ok hits => Some hits | Throw _ => None end)
  = Some [ (JString "a", JString "a_list"); (JString "a", JString "a_get");
           (JString "unknown", JString "lookup"); (JString "b", JString "b_list") ].
Proof. vm_compute. reflexivity. Qed.

Example search_sample_filtered :
  option_map (map (fun hit => (Hit.serverName hit, Hit.toolName hit)))
             (match fst (searchToolsByVector sampleSearchEnv "x" 10 (7 / 10)%R
                                             (Some ["a"]) emptyWorld)
              with Ok hits => Some hits | Throw _ => None end)
  = Some [ (JString "a", JString "a_list") ].
Proof. vm_compute. reflexivity. Qed.

Example list_sample_filtered :
  fst (getAllVectorizedTools sampleSearchEnv (Some ["a"]) emptyWorld)
  = Ok [ ToolInfo.mk (JString "a") (JString "a_list") JUndefined JUndefined ].
Proof. vm_compute. reflexivity. Qed.

(** ** Strings *)

Lemma append_nil_r (s : string) : (s ++ "")%string = s.
Proof. induction s as [|c s IH]; simpl; [reflexivity | now rewrite IH]. Qed.

Lemma append_assoc (a b c : string) : ((a ++ b) ++ c)%string = (a ++ (b ++ c))%string.
Proof. induction a as [|x a IH]; simpl; [reflexivity | now rewrite IH]. Qed.

Lemma toLowerCase_app (a b : string) :
  JsString.toLowerCase (a ++ b) = (JsString.toLowerCase a ++ JsString.toLowerCase b)%string.
Proof. induction a as [|x a IH]; simpl; [reflexivity | now rewrite IH]. Qed.

(** A lower-cased string splits where its pre-image splits. *)
Lemma toLowerCase_split (s a b : string) :
  JsString.toLowerCase s = (a ++ b)%string ->
  exists s1 s2, s = (s1 ++ s2)%string
                /\ JsString.toLowerCase s1 = a /\ JsString.toLowerCase s2 = b.
Proof.
  revert s; induction a as [|x a IH]; intros s H.
  - exists EmptyString, s. simpl in *. auto.
  - destruct s as [|c s]; simpl in H; [discriminate|].
    injection H as Hc Hs. destruct (IH _ Hs) as (s1 & s2 & -> & H1 & H2).
    exists (String c s1), s2. simpl. rewrite Hc, H1. auto.
Qed.

Lemma prefix_true_iff (pat s : string) :
  prefix pat s = true <-> exists post, s = (pat ++ post)%string.
Proof.
  revert s; induction pat as [|x pat IH]; intros s.
  - destruct s; simpl; (split; [intros _; eexists; reflexivity | reflexivity]).
  - destruct s as [|c s]; simpl.
    + split; [discriminate | intros (post & H); discriminate].
    + destruct (ascii_dec x c) as [->|Hne].
      * rewrite IH. split; intros (post & H); exists post.
        -- now rewrite H.
        -- now injection H.
      * split; [discriminate | intros (post & H); injection H; congruence].
Qed.

Lemma includes_true_iff (s pat : string) :
  JsString.includes s pat = true <-> exists pre post, s = (pre ++ pat ++ post)%string.
Proof.
  induction s as [|c s IH]; cbn [JsString.includes].
  - rewrite orb_false_r, prefix_true_iff. split.
    + intros (post & H). exists EmptyString, post. exact H.
    + intros (pre & post & H). destruct pre; simpl in H.
      * now exists post.
      * discriminate.
  - rewrite orb_true_iff, prefix_true_iff, IH. split.
    + intros [(post & H) | (pre & post & H)].
      * exists EmptyString, post. exact H.
      * exists (String c pre), post. simpl. now rewrite H.
    + intros (pre & post & H). destruct pre as [|x pre]; simpl in H.
      * left. now exists post.
      * right. injection H as _ H. now exists pre, post.
Qed.

Lemma includes_toLowerCase_iff (name pat : string) :
  JsString.includes (JsString.toLowerCase name) pat = true
  <-> containsIgnoringCase name pat.
Proof.
  rewrite includes_true_iff. split.
  - intros (pre & post & H).
    destruct (toLowerCase_split _ _ _ H) as (s1 & s2 & -> & H1 & H2).
    destruct (toLowerCase_split _ _ _ H2) as (s3 & s4 & -> & H3 & H4).
    now exists s1, s3, s4.
  - intros (pre & mid & post & -> & H).
    exists (JsString.toLowerCase pre), (JsString.toLowerCase post).
    now rewrite !toLowerCase_app, H.
Qed.

Lemma includes_toLowerCase_false (name pat : string) :
  ~ containsIgnoringCase name pat ->
  JsString.includes (JsString.toLowerCase name) pat = false.
Proof.
  intros H. destruct (JsString.includes _ pat) eqn:E; [|reflexivity].
  exfalso. apply H. now apply includes_toLowerCase_iff.
Qed.

(** ** C6: the model-to-width lookup *)

(** C6.  The width of a model is a function of its name alone, found by
    case-insensitive matching with the first match winning: a name that
    contains "bge-m3" has width 1024; otherwise one that contains
    "nomic-embed-text" has 768; otherwise one that contains
    "text-embedding-3-large" has 3072; otherwise one that contains
    "text-embedding-3-small" has 1536; otherwise the names "fallback" and
    "simple-hash" have 100; every other name has 1536. *)
Theorem getDimensionsForModel_table (model : string) :
  let has := containsIgnoringCase model in
  let named := equalsIgnoringCase model in
  (has "bge-m3" -> getDimensionsForModel model = 1024%Z)
  /\ (~ has "bge-m3" -> has "nomic-embed-text" ->
      getDimensionsForModel model = 768%Z)
  /\ (~ has "bge-m3" -> ~ has "nomic-embed-text" -> has "text-embedding-3-large" ->
      getDimensionsForModel model = 3072%Z)
  /\ (~ has "bge-m3" -> ~ has "nomic-embed-text" -> ~ has "text-embedding-3-large" ->
      has "text-embedding-3-small" ->
      getDimensionsForModel model = 1536%Z)
  /\ (~ has "bge-m3" -> ~ has "nomic-embed-text" -> ~ has "text-embedding-3-large" ->
      ~ has "text-embedding-3-small" -> named "fallback" \/ named "simple-hash" ->
      getDimensionsForModel model = 100%Z)
  /\ (~ has "bge-m3" -> ~ has "nomic-embed-text" -> ~ has "text-embedding-3-large" ->
      ~ has "text-embedding-3-small" -> ~ named "fallback" -> ~ named "simple-hash" ->
      getDimensionsForModel model = 1536%Z).
Proof.
  cbv zeta. unfold getDimensionsForModel, equalsIgnoringCase.
  repeat split.
  - intros H. apply includes_toLowerCase_iff in H. now rewrite H.
  - intros N1 H. apply includes_toLowerCase_iff in H.
    now rewrite (includes_toLowerCase_false _ _ N1), H.
  - intros N1 N2 H. apply includes_toLowerCase_iff in H.
    now rewrite (includes_toLowerCase_false _ _ N1),
                (includes_toLowerCase_false _ _ N2), H.
  - intros N1 N2 N3 H. apply includes_toLowerCase_iff in H.
    now rewrite (includes_toLowerCase_false _ _ N1),
                (includes_toLowerCase_false _ _ N2),
                (includes_toLowerCase_false _ _ N3), H.
  - intros N1 N2 N3 N4 H.
    rewrite (includes_toLowerCase_false _ _ N1),
            (includes_toLowerCase_false _ _ N2),
            (includes_toLowerCase_false _ _ N3),
            (includes_toLowerCase_false _ _ N4).
    destruct H as [H|H]; rewrite H; reflexivity.
  - intros N1 N2 N3 N4 N5 N6.
    rewrite (includes_toLowerCase_false _ _ N1),
            (includes_toLowerCase_false _ _ N2),
            (includes_toLowerCase_false _ _ N3),
            (includes_toLowerCase_false _ _ N4).
    destruct (String.eqb_spec (JsString.toLowerCase model) "fallback"); [contradiction|].
    destruct (String.eqb_spec (JsString.toLowerCase model) "simple-hash"); [contradiction|].
    reflexivity.
Qed.

(** The lookup at a quantised BGE-M3 file name, by the first clause of the
    table. *)
Lemma getDimensionsForModel_table_witness :
  getDimensionsForModel "BGE-M3-Q5_K_M.gguf" = 1024%Z.
Proof.
  apply (proj1 (getDimensionsForModel_table "BGE-M3-Q5_K_M.gguf")).
  exists EmptyString, "BGE-M3", "-Q5_K_M.gguf". split; reflexivity.
Defined.

(** ** C5: index selection *)

Ltac unfold_monad :=
  unfold bind, tryCatch, ret, throw, liftOutcome in *.

Ltac step_query :=
  cbn [clock tick withStore store journal fst snd];
  match goal with
  | |- context [match queryFault ?e ?c ?q with _ => _ end] =>
      destruct (queryFault e c q) eqn:?
  end.

Lemma includes_fourth (a b c pat post : string) :
  JsString.includes (a ++ b ++ c ++ pat ++ post)%string pat = true.
Proof.
  apply includes_true_iff. exists (a ++ b ++ c)%string, post.
  now rewrite !append_assoc.
Qed.

(** C5.  [createVectorIndex] never throws and follows the decision tree on
    the width, after dropping any existing index of the column (as it
    always does first, ignoring a failure of the DROP).  For a width of at
    most 2000 it tries HNSW and, if that fails, IVFFlat, and reports
    "hnsw", "ivfflat", or failure with no kind when both fail; for a width
    in 2001..4000 it tries HNSW on the halfvec cast only, with no IVFFlat
    attempt, and reports "hnsw-halfvec" or failure; above 4000 it attempts
    no index creation at all (the journal holds the DROP alone) and reports
    failure with no kind and a message that names the configured limit,
    HALFVEC_MAX_DIMENSIONS. *)
Theorem createVectorIndex_decision_tree
        (env : Env) (w : World) (dimensions : Z) (tableName columnName : string) :
  let indexName := indexNameOf tableName columnName in
  let c := clock w in
  let drop := DropIndexIfExists indexName in
  let hnsw := CreateIndexHnsw indexName tableName columnName in
  let ivfflat := CreateIndexIvfflat indexName tableName columnName in
  let halfvec := CreateIndexHnswHalfvec indexName tableName columnName dimensions in
  let dropped := match queryFault env c drop with None => true | Some _ => false end in
  exists result w',
    createVectorIndex env dimensions tableName columnName w = (Ok result, w')
    /\ ((dimensions <= 2000)%Z ->
        (queryFault env (S c) hnsw = None ->
         success result = true /\ indexType result = Some "hnsw"
         /\ journal w' = journal w ++ [(CallQuery drop, dropped); (CallQuery hnsw, true)]
         /\ In (indexName, Hnsw) (indexes (store w')))
        /\ (queryFault env (S c) hnsw <> None ->
            queryFault env (S (S c)) ivfflat = None ->
            success result = true /\ indexType result = Some "ivfflat"
            /\ journal w' = journal w ++ [(CallQuery drop, dropped); (CallQuery hnsw, false);
                                          (CallQuery ivfflat, true)]
            /\ In (indexName, Ivfflat) (indexes (store w')))
        /\ (queryFault env (S c) hnsw <> None ->
            queryFault env (S (S c)) ivfflat <> None ->
            success result = false /\ indexType result = None
            /\ journal w' = journal w ++ [(CallQuery drop, dropped); (CallQuery hnsw, false);
                                          (CallQuery ivfflat, false)]))
    /\ ((2000 < dimensions <= 4000)%Z ->
        (queryFault env (S c) halfvec = None ->
         success result = true /\ indexType result = Some "hnsw-halfvec"
         /\ journal w' = journal w ++ [(CallQuery drop, dropped); (CallQuery halfvec, true)]
         /\ In (indexName, HnswHalfvec) (indexes (store w')))
        /\ (queryFault env (S c) halfvec <> None ->
            success result = false /\ indexType result = None
            /\ journal w' = journal w ++ [(CallQuery drop, dropped); (CallQuery halfvec, false)]))
    /\ ((4000 < dimensions)%Z ->
        success result = false /\ indexType result = None
        /\ JsString.includes (message result) (JsString.ofZ HALFVEC_MAX_DIMENSIONS) = true
        /\ journal w' = journal w ++ [(CallQuery drop, dropped)]).
Proof.
  cbv zeta. unfold createVectorIndex, indexNameOf.
  set (name := ("idx_" ++ tableName ++ "_" ++ columnName)%string).
  unfold_monad. unfold query.
  unfold VECTOR_MAX_DIMENSIONS, HALFVEC_MAX_DIMENSIONS.
  destruct (Z.leb_spec dimensions 2000) as [Hle|Hgt];
    [| destruct (Z.leb_spec dimensions 4000) as [Hle4|Hgt4]];
    repeat step_query;
    eexists; eexists; (split; [reflexivity|]);
    cbn [success indexType message journal store indexes execute tick withStore clock];
    rewrite <- ?app_assoc; cbn [app];
    repeat split; intros; try lia; try congruence; try (now left);
    try (change (JsString.ofZ 4000) with "4000"; apply includes_fourth).
Qed.

(** The decision tree at width 1536 in a database without faults. *)
Lemma createVectorIndex_decision_tree_witness :
  exists result w',
    createVectorIndex quietEnv 1536 "vector_embeddings" "embedding" emptyWorld
    = (Ok result, w')
    /\ success result = true /\ indexType result = Some "hnsw".
Proof.
  destruct (createVectorIndex_decision_tree quietEnv emptyWorld 1536
              "vector_embeddings" "embedding") as (r & w' & E & H & _).
  exists r, w'. split; [exact E|].
  destruct H as [H _]; [lia|]. destruct H as (H1 & H2 & _); [reflexivity|].
  now split.
Defined.

(** At width 4001 the only statement is the DROP INDEX that precedes the
    decision tree: the existing index is dropped and none is created. *)
Example createVectorIndex_above_limit :
  let w' := snd (createVectorIndex quietEnv 4001 "vector_embeddings" "embedding"
                                   indexedWorld) in
  journal w' <> journal indexedWorld
  /\ journal w' = [(CallQuery (DropIndexIfExists "idx_vector_embeddings_embedding"), true)]
  /\ indexes (store indexedWorld) = [("idx_vector_embeddings_embedding", Hnsw)]
  /\ indexes (store w') = [].
Proof. cbv zeta. vm_compute. repeat split. discriminate. Qed.

(** ** The fallback embedding and what [generateEmbedding] returns *)

Section FallbackVector.

Local Open Scope R_scope.

Lemma isZero_true_iff (x : R) : isZero x = true <-> x = 0.
Proof. unfold isZero. destruct (Req_dec_T x 0); split; congruence. Qed.

Lemma length_addAt (i : nat) (x : R) (v : list R) : length (addAt i x v) = length v.
Proof.
  revert i; induction v as [|y v IH]; intros [|i]; simpl; auto.
Qed.

Lemma sumList_addAt (i : nat) (x : R) (v : list R) :
  (i < length v)%nat -> sumList (addAt i x v) = sumList v + x.
Proof.
  revert i; induction v as [|y v IH]; intros [|i] H; simpl in *; try lia.
  - lra.
  - rewrite IH by lia. lra.
Qed.

Lemma nonNegative_addAt (i : nat) (x : R) (v : list R) :
  0 <= x -> nonNegative v -> nonNegative (addAt i x v).
Proof.
  intros Hx. unfold nonNegative.
  revert i; induction v as [|y v IH]; intros [|i] H; simpl; auto;
    inversion H; subst; constructor; auto; lra.
Qed.

Lemma length_accumulateWord (v : list R) (word : string) :
  length (accumulateWord v word) = length v.
Proof.
  unfold accumulateWord. rewrite length_addAt.
  destruct (indexOf vocabulary word 0) as [index|]; [|reflexivity].
  destruct (index <? length v)%nat; [apply length_addAt | reflexivity].
Qed.

Lemma nonNegative_accumulateWord (v : list R) (word : string) :
  nonNegative v -> nonNegative (accumulateWord v word).
Proof.
  intros H. unfold accumulateWord. apply nonNegative_addAt; [lra|].
  destruct (indexOf vocabulary word 0) as [index|]; [|exact H].
  destruct (index <? length v)%nat; [|exact H].
  apply nonNegative_addAt; [lra | exact H].
Qed.

(** Every word adds at least one tenth to the vector. *)
Lemma sumList_accumulateWord (v : list R) (word : string) :
  (0 < length v)%nat -> sumList v + 1 / 10 <= sumList (accumulateWord v word).
Proof.
  intros Hlen. unfold accumulateWord.
  set (v1 := match indexOf vocabulary word 0 with
             | Some index => if (index <? length v)%nat then addAt index 1 v else v
             | None => v
             end).
  assert (Hv1 : length v1 = length v /\ sumList v <= sumList v1).
  { unfold v1. destruct (indexOf vocabulary word 0) as [index|]; [|split; [auto|lra]].
    destruct (Nat.ltb_spec index (length v)); [|split; [auto|lra]].
    rewrite length_addAt, sumList_addAt by assumption. split; [auto|lra]. }
  destruct Hv1 as [Hl Hs].
  rewrite sumList_addAt.
  - lra.
  - apply Nat.mod_upper_bound. lia.
Qed.

Lemma fold_accumulateWord (words : list string) (v : list R) :
  (0 < length v)%nat -> nonNegative v ->
  let v' := fold_left accumulateWord words v in
  length v' = length v /\ nonNegative v'
  /\ sumList v + 1 / 10 * INR (length words) <= sumList v'.
Proof.
  revert v; induction words as [|word words IH]; intros v Hlen Hnn; cbv zeta.
  - simpl. repeat split; auto. lra.
  - cbn [fold_left]. 
    destruct (IH (accumulateWord v word)) as (Hl & Hn & Hs).
    + now rewrite length_accumulateWord.
    + now apply nonNegative_accumulateWord.
    + rewrite length_accumulateWord in Hl. repeat split; auto.
      pose proof (sumList_accumulateWord v word Hlen) as Hw.
      change (length (word :: words)) with (S (length words)).
      rewrite S_INR. lra.
Qed.

Lemma sumList_allZero (v : list R) : forallb isZero v = true -> sumList v = 0.
Proof.
  induction v as [|x v IH]; simpl; [reflexivity|].
  intros H. apply andb_true_iff in H as [Hx Hv].
  apply isZero_true_iff in Hx. rewrite IH by assumption. lra.
Qed.

Lemma splitWs_not_nil (s cur : string) (inGap : bool) :
  JsString.splitWs s cur inGap <> [].
Proof.
  revert cur inGap; induction s as [|c s IH]; intros cur inGap; simpl.
  - discriminate.
  - destruct (JsString.isWhitespace c); [destruct inGap|]; auto; discriminate.
Qed.

Lemma allZero_map_div (m : R) (v : list R) :
  0 < m -> forallb isZero (map (fun val => val / m) v) = true ->
  forallb isZero v = true.
Proof.
  intros Hm. induction v as [|x v IH]; simpl; [reflexivity|].
  intros H. apply andb_true_iff in H as [Hx Hv].
  apply andb_true_iff. split; [|auto].
  apply isZero_true_iff in Hx. apply isZero_true_iff.
  unfold Rdiv in Hx. apply Rmult_integral in Hx as [Hx|Hx]; [exact Hx|].
  exfalso. apply (Rinv_neq_0_compat m); [lra | exact Hx].
Qed.

Lemma length_generateFallbackEmbedding (text : string) :
  length (generateFallbackEmbedding text) = 100%nat.
Proof.
  unfold generateFallbackEmbedding.
  set (words := JsString.splitWhitespace _).
  set (v0 := repeat 0 (Z.to_nat FALLBACK_DIMENSIONS)).
  assert (Hv0 : length v0 = 100%nat) by (unfold v0; now rewrite repeat_length).
  destruct (fold_accumulateWord words v0) as (Hl & _).
  - rewrite Hv0. lia.
  - unfold nonNegative, v0. clear. induction (Z.to_nat FALLBACK_DIMENSIONS); simpl;
      constructor; auto. lra.
  - destruct (Rlt_dec 0 _); [rewrite length_map|]; congruence.
Qed.

(** The fallback vector is never the zero vector: even the empty text has
    one (empty) word, which adds a tenth at position 0. *)
Lemma generateFallbackEmbedding_not_zero (text : string) :
  validateEmbeddingNotZero (generateFallbackEmbedding text) = true.
Proof.
  unfold validateEmbeddingNotZero, generateFallbackEmbedding.
  set (words := JsString.splitWhitespace _).
  set (v0 := repeat 0 (Z.to_nat FALLBACK_DIMENSIONS)).
  assert (Hv0 : length v0 = 100%nat) by (unfold v0; now rewrite repeat_length).
  assert (Hs0 : sumList v0 = 0).
  { unfold v0. clear. induction (Z.to_nat FALLBACK_DIMENSIONS); simpl; lra. }
  destruct (fold_accumulateWord words v0) as (Hl & Hn & Hs).
  - rewrite Hv0. lia.
  - unfold nonNegative, v0. clear. induction (Z.to_nat FALLBACK_DIMENSIONS); simpl;
      constructor; auto. lra.
  - assert (Hw : (1 <= length words)%nat).
    { unfold words, JsString.splitWhitespace.
      pose proof (splitWs_not_nil (JsString.toLowerCase text) EmptyString false).
      destruct (JsString.splitWs _ _ _); [congruence | simpl; lia]. }
    apply le_INR in Hw. simpl INR at 1 in Hw.
    assert (Hnz : forallb isZero (fold_left accumulateWord words v0) = false).
    { destruct (forallb isZero _) eqn:E; [|reflexivity].
      apply sumList_allZero in E. lra. }
    destruct (Rlt_dec 0 _) as [Hm|Hm].
    + destruct (forallb isZero (map _ _)) eqn:E; [|reflexivity].
      apply (allZero_map_div _ _ Hm) in E. congruence.
    + now rewrite Hnz.
Qed.

End FallbackVector.

Lemma generateFallbackEmbedding_not_nil (text : string) :
  generateFallbackEmbedding text <> [].
Proof.
  intros H. pose proof (length_generateFallbackEmbedding text) as L.
  rewrite H in L. discriminate.
Qed.

(** What [generateEmbedding] returns, by the answer of the transport. *)
Lemma generateEmbedding_cases (env : Env) (text : string) (w : World) :
  let config := openAIConfigOf (smartRoutingConfig env (clock w)) in
  let answer := embeddingTransport env (S (clock w)) (prepareText text) config in
  exists v,
    generateEmbedding env text w
    = (Ok v, tick (CallEmbeddingAPI (prepareText text)) true (advance w))
    /\ (v = generateFallbackEmbedding text
        \/ (answer = EmbArray v /\ v <> []
            /\ validateEmbeddingNotZero v = true
            /\ validateEmbeddingRange v defaultMinRange defaultMaxRange = true
            /\ validateEmbeddingDimensions v (embeddingModel config) = true)).
Proof.
  cbv zeta. unfold generateEmbedding, getOpenAIConfig, getSmartRoutingConfig, callEmbeddingAPI.
  unfold_monad. cbn [clock advance].
  destruct (embeddingTransport env (S (clock w)) (prepareText text)
              (openAIConfigOf (smartRoutingConfig env (clock w)))) as [| |v] eqn:E;
    try (eexists; split; [reflexivity | now left]).
  destruct v as [|x v]; cbn [validateEmbeddingArray negb];
    [eexists; split; [reflexivity | now left]|].
  destruct (validateEmbeddingNotZero (x :: v)) eqn:E1; cbn [negb];
    [|eexists; split; [reflexivity | now left]].
  destruct (validateEmbeddingRange (x :: v) _ _) eqn:E2; cbn [negb];
    [|eexists; split; [reflexivity | now left]].
  destruct (validateEmbeddingDimensions (x :: v) _) eqn:E3; cbn [negb];
    [|eexists; split; [reflexivity | now left]].
  eexists; split; [reflexivity|]. right. repeat split; auto. discriminate.
Qed.

(** ** The monad *)

Lemma bind_Ok {A B} (m : M A) (k : A -> M B) (w w1 : World) (a : A) :
  m w = (Ok a, w1) -> bind m k w = k a w1.
Proof. intros H. unfold bind. now rewrite H. Qed.

Lemma bind_Throw {A B} (m : M A) (k : A -> M B) (w w1 : World) (e : Thrown) :
  m w = (Throw e, w1) -> bind m k w = (Throw e, w1).
Proof. intros H. unfold bind. now rewrite H. Qed.

Lemma bind_assoc {A B C} (m : M A) (f : A -> M B) (g : B -> M C) (w : World) :
  bind (bind m f) g w = bind m (fun x => bind (f x) g) w.
Proof. unfold bind. destruct (m w) as [[a|e] w1]; reflexivity. Qed.

Lemma tryCatch_Ok {A} (m : M A) (h : Thrown -> M A) (w w1 : World) (a : A) :
  m w = (Ok a, w1) -> tryCatch m h w = (Ok a, w1).
Proof. intros H. unfold tryCatch. now rewrite H. Qed.

Lemma tryCatch_Throw {A} (m : M A) (h : Thrown -> M A) (w w1 : World) (e : Thrown) :
  m w = (Throw e, w1) -> tryCatch m h w = h e w1.
Proof. intros H. unfold tryCatch. now rewrite H. Qed.

(** ** Reconciliation *)

Lemma query_ok (env : Env) (q : Sql) (w : World) :
  queryFault env (clock w) q = None ->
  query env q w = (Ok (answer q (store w)),
                   withStore (execute q (store w)) (tick (CallQuery q) true w)).
Proof. intros H. unfold query. now rewrite H. Qed.

Lemma query_fail (env : Env) (q : Sql) (w : World) (e : Thrown) :
  queryFault env (clock w) q = Some e ->
  query env q w = (Throw e, tick (CallQuery q) false w).
Proof. intros H. unfold query. now rewrite H. Qed.

(** [createVectorIndex] never throws, sends DROP INDEX and then only CREATE
    INDEX statements (at least one up to width 4000), and leaves the rows
    and the declared width as they are. *)
Lemma createVectorIndex_effects (env : Env) (dimensions : Z) (w : World) :
  exists result w' dropped attempts,
    createVectorIndex env dimensions "vector_embeddings" "embedding" w = (Ok result, w')
    /\ journal w' = journal w
                      ++ [(CallQuery (DropIndexIfExists defaultIndexName), dropped)]
                      ++ attempts
    /\ Forall (fun ev => isCreateIndex (fst ev) = true) attempts
    /\ ((dimensions <= 4000)%Z -> attempts <> [])
    /\ atttypmod (store w') = atttypmod (store w)
    /\ records (store w') = records (store w).
Proof.
  unfold createVectorIndex, defaultIndexName.
  change ("idx_" ++ "vector_embeddings" ++ "_" ++ "embedding")%string
    with "idx_vector_embeddings_embedding".
  unfold_monad. unfold query.
  unfold VECTOR_MAX_DIMENSIONS, HALFVEC_MAX_DIMENSIONS.
  destruct (Z.leb_spec dimensions 2000) as [Hle|Hgt];
    [| destruct (Z.leb_spec dimensions 4000) as [Hle4|Hgt4]];
    repeat step_query;
    do 2 eexists; eexists _, _; (split; [reflexivity|]);
    cbn [journal store atttypmod records execute tick withStore clock];
    rewrite <- ?app_assoc; cbn [app];
    (split; [reflexivity|]);
    repeat split; try (intros; (lia || discriminate));
    repeat constructor.
Qed.

Lemma Forall_filter_dimensions (expected : Z) (rs : list StoredRecord) :
  Forall (fun r => recordDimensions r = expected)
         (filter (fun r => Z.eqb (recordDimensions r) expected) rs).
Proof.
  apply Forall_forall. intros r Hr. apply filter_In in Hr as [_ Hr].
  now apply Z.eqb_eq.
Qed.

(** The three steps of the migration, in order; the first two are fatal
    when they fail, the third is not. *)
Lemma migrate_effects (env : Env) (required : Z) (w1 : World) :
  let delete := CallQuery (DeleteMismatched required) in
  let alter := CallQuery (AlterEmbeddingColumn required) in
  let drop := CallQuery (DropIndexIfExists defaultIndexName) in
  (exists e w2,
      migrate env required w1 = (Throw e, w2)
      /\ ((queryFault env (clock w1) (DeleteMismatched required) = Some e
           /\ journal w2 = journal w1 ++ [(delete, false)])
          \/ (queryFault env (clock w1) (DeleteMismatched required) = None
              /\ queryFault env (S (clock w1)) (AlterEmbeddingColumn required) = Some e
              /\ journal w2 = journal w1 ++ [(delete, true); (alter, false)])))
  \/
  (exists w2 dropped attempts,
      migrate env required w1 = (Ok tt, w2)
      /\ queryFault env (clock w1) (DeleteMismatched required) = None
      /\ queryFault env (S (clock w1)) (AlterEmbeddingColumn required) = None
      /\ journal w2 = journal w1 ++ [(delete, true); (alter, true); (drop, dropped)]
                                   ++ attempts
      /\ Forall (fun ev => isCreateIndex (fst ev) = true) attempts
      /\ ((required <= 4000)%Z -> attempts <> [])
      /\ Forall (fun r => recordDimensions r = required) (records (store w2))
      /\ atttypmod (store w2) = required).
Proof.
  cbv zeta. unfold migrate, clearMismatchedVectorData.
  destruct (queryFault env (clock w1) (DeleteMismatched required)) as [e|] eqn:Ed.
  - left. exists e, (tick (CallQuery (DeleteMismatched required)) false w1).
    split; [|left; split; reflexivity].
    unfold_monad. now rewrite (query_fail _ _ _ _ Ed).
  - pose (wd := withStore (execute (DeleteMismatched required) (store w1))
                          (tick (CallQuery (DeleteMismatched required)) true w1)).
    assert (Qd : query env (DeleteMismatched required) w1
                 = (Ok (answer (DeleteMismatched required) (store w1)), wd))
      by (apply query_ok; exact Ed).
    destruct (queryFault env (S (clock w1)) (AlterEmbeddingColumn required))
      as [e|] eqn:Ea.
    + left. exists e, (tick (CallQuery (AlterEmbeddingColumn required)) false wd).
      split.
      * unfold_monad. rewrite Qd.
        now rewrite (query_fail env (AlterEmbeddingColumn required) wd e Ea).
      * right. cbn [journal tick withStore wd]. rewrite <- app_assoc.
        repeat split; reflexivity.
    + right.
      pose (wa := withStore (execute (AlterEmbeddingColumn required) (store wd))
                            (tick (CallQuery (AlterEmbeddingColumn required)) true wd)).
      assert (Qa : query env (AlterEmbeddingColumn required) wd
                   = (Ok (answer (AlterEmbeddingColumn required) (store wd)), wa))
        by (apply query_ok; exact Ea).
      destruct (createVectorIndex_effects env required wa)
        as (result & w2 & dropped & attempts & E & Hj & Hc & Hne & Ht & Hr).
      exists w2, dropped, attempts.
      split; [unfold_monad; now rewrite Qd, Qa, E|].
      do 2 (split; [reflexivity|]).
      cbn [journal store atttypmod records execute tick withStore clock wa wd]
        in Hj, Ht, Hr.
      split; [rewrite Hj, <- !app_assoc; reflexivity|].
      split; [exact Hc|]. split; [exact Hne|].
      split; [rewrite Hr; apply Forall_filter_dimensions | exact Ht].
Qed.

(** ** C4: which reconciliation errors are fatal *)

Lemma initializeColumn_effects (env : Env) (required : Z) (w1 : World) :
  (exists e w2,
      initializeColumn env required w1 = (Throw e, w2)
      /\ queryFault env (clock w1) (AlterEmbeddingColumn required) = Some e)
  \/
  (exists w2,
      initializeColumn env required w1 = (Ok tt, w2)
      /\ queryFault env (clock w1) (AlterEmbeddingColumn required) = None).
Proof.
  unfold initializeColumn.
  destruct (queryFault env (clock w1) (AlterEmbeddingColumn required)) as [e|] eqn:Ea.
  - left. exists e, (tick (CallQuery (AlterEmbeddingColumn required)) false w1).
    split; [|reflexivity]. unfold_monad. now rewrite (query_fail _ _ _ _ Ea).
  - right.
    pose (wa := withStore (execute (AlterEmbeddingColumn required) (store w1))
                          (tick (CallQuery (AlterEmbeddingColumn required)) true w1)).
    destruct (createVectorIndex_effects env required wa)
      as (result & w2 & dropped & attempts & E & _).
    exists w2. split; [|reflexivity].
    unfold_monad. rewrite (query_ok _ _ _ Ea). fold wa. now rewrite E.
Qed.

(** How [checkDatabaseVectorDimensions] and the batch end, by how the
    branch taken after detection ends. *)
Lemma reconciliation_outcome
      (env : Env) {Component : Type} (generate : string -> M (option (list Component)))
      (serverName : string) (config : OpenAIConfig) (n : nat)
      (tools : list Tool.t) (w w1 : World) (current : Z) (branch : M unit) :
  (0 < n)%nat ->
  bind (ensureInitialized env) (fun _ => detectCurrentDimensions env) w
  = (Ok current, w1) ->
  branch = (if needsMigration current (Z.of_nat n) then migrate env (Z.of_nat n)
            else if needsInitialization current then initializeColumn env (Z.of_nat n)
            else ret tt) ->
  (forall w2, branch w1 = (Ok tt, w2) ->
     checkDatabaseVectorDimensions env (Z.of_nat n) w = (Ok tt, w2)
     /\ reconcileAndStore env generate serverName config n tools w
        = bind (forEachTool env generate serverName config n tools (0, 0))
               (fun _ => ret tt) w2)
  /\ (forall e w2, branch w1 = (Throw e, w2) ->
      let failure := ErrorWith ("Vector dimension check failed: "
                                  ++ messageOrUnknown e)%string in
      checkDatabaseVectorDimensions env (Z.of_nat n) w = (Throw failure, w2)
      /\ reconcileAndStore env generate serverName config n tools w
         = (Throw failure, w2)).
Proof.
  intros Hn Hpre ->.
  assert (Hcheck : checkDatabaseVectorDimensions env (Z.of_nat n) w
                   = tryCatch
                       (if needsMigration current (Z.of_nat n)
                        then migrate env (Z.of_nat n)
                        else if needsInitialization current
                             then initializeColumn env (Z.of_nat n)
                             else ret tt)
                       (fun error => throw (ErrorWith ("Vector dimension check failed: "
                                                         ++ messageOrUnknown error)%string))
                       w1).
  { unfold checkDatabaseVectorDimensions.
    destruct (Z.leb_spec (Z.of_nat n) 0) as [Hle|_]; [lia|].
    unfold tryCatch at 1.
    rewrite <- (bind_assoc (ensureInitialized env) (fun _ => detectCurrentDimensions env)).
    rewrite (bind_Ok _ _ _ _ _ Hpre). reflexivity. }
  split.
  - intros w2 E.
    assert (Hc : checkDatabaseVectorDimensions env (Z.of_nat n) w = (Ok tt, w2))
      by (rewrite Hcheck; now rewrite (tryCatch_Ok _ _ _ _ _ E)).
    split; [exact Hc|]. unfold reconcileAndStore, bind at 1.
    now rewrite (tryCatch_Ok _ _ _ _ _ Hc).
  - intros e w2 E. cbv zeta.
    assert (Hc : checkDatabaseVectorDimensions env (Z.of_nat n) w
                 = (Throw (ErrorWith ("Vector dimension check failed: "
                                        ++ messageOrUnknown e)%string), w2))
      by (rewrite Hcheck; now rewrite (tryCatch_Throw _ _ _ _ _ E)).
    split; [exact Hc|]. unfold reconcileAndStore, bind.
    now rewrite (tryCatch_Throw _ _ _ _ _ Hc).
Qed.

(** C4, as the code has it.  Once the width in the database has been
    detected, a column alteration that fails makes reconciliation throw
    "Vector dimension check failed: ..." to its caller, and the batch stops
    there: the loop over the tools is not entered.  An alteration that
    succeeds makes reconciliation return normally and the batch go on to the
    tools whatever happens to the index statements: their failures are
    absorbed inside [createVectorIndex] and only produce a warning.  This
    holds in the migration branch (after a successful deletion) and in the
    initialization branch. *)
Theorem alteration_failure_aborts_index_failure_does_not
        (env : Env) (generate : string -> M (option (list R)))
        (serverName : string) (config : OpenAIConfig) (n : nat)
        (tools : list Tool.t) (w w1 : World) (current : Z) :
  (0 < n)%nat ->
  bind (ensureInitialized env) (fun _ => detectCurrentDimensions env) w
  = (Ok current, w1) ->
  let required := Z.of_nat n in
  let alter := AlterEmbeddingColumn required in
  let failure e := ErrorWith ("Vector dimension check failed: "
                                ++ messageOrUnknown e)%string in
  let aborted e :=
    exists w2,
      checkDatabaseVectorDimensions env required w = (Throw (failure e), w2)
      /\ reconcileAndStore env generate serverName config n tools w
         = (Throw (failure e), w2) in
  let continued :=
    exists w2,
      checkDatabaseVectorDimensions env required w = (Ok tt, w2)
      /\ reconcileAndStore env generate serverName config n tools w
         = bind (forEachTool env generate serverName config n tools (0, 0))
                (fun _ => ret tt) w2 in
  (needsMigration current required = true ->
   queryFault env (clock w1) (DeleteMismatched required) = None ->
   (forall e, queryFault env (S (clock w1)) alter = Some e -> aborted e)
   /\ (queryFault env (S (clock w1)) alter = None -> continued))
  /\ (needsInitialization current = true ->
      (forall e, queryFault env (clock w1) alter = Some e -> aborted e)
      /\ (queryFault env (clock w1) alter = None -> continued)).
Proof.
  intros Hn Hpre. cbv zeta.
  destruct (reconciliation_outcome env generate serverName config n tools w w1 current
              _ Hn Hpre eq_refl) as [Hok Hthrow].
  split.
  - intros Hmig Hdel. rewrite Hmig in Hok, Hthrow.
    destruct (migrate_effects env (Z.of_nat n) w1)
      as [(e & w2 & E & [(Hd & _) | (_ & Ha & _)])
         | (w2 & dropped & attempts & E & _ & Ha & _)].
    + congruence.
    + split; [|congruence]. intros e' He'.
      assert (e' = e) by congruence. subst e'.
      exists w2. now apply Hthrow.
    + split; [congruence|]. intros _. exists w2. now apply Hok.
  - intros Hinit.
    assert (Hmig : needsMigration current (Z.of_nat n) = false).
    { unfold needsInitialization in Hinit. apply Z.eqb_eq in Hinit. now subst current. }
    rewrite Hmig, Hinit in Hok, Hthrow.
    destruct (initializeColumn_effects env (Z.of_nat n) w1)
      as [(e & w2 & E & Ha) | (w2 & E & Ha)].
    + split; [|congruence]. intros e' He'.
      assert (e' = e) by congruence. subst e'.
      exists w2. now apply Hthrow.
    + split; [congruence|]. intros _. exists w2. now apply Hok.
Qed.

(** The column cannot be altered: reconciliation of the stale database
    throws, and the batch ends with that error before any tool. *)
Lemma alteration_failure_aborts_index_failure_does_not_witness :
  let failure := ErrorWith "Vector dimension check failed: cannot alter type of a column" in
  exists w2,
    checkDatabaseVectorDimensions alterFaultEnv 100 staleWorld = (Throw failure, w2)
    /\ reconcileAndStore alterFaultEnv (generateEmbeddingArray alterFaultEnv) "docs"
                         (openAIConfigOf sampleConfig) 100 [sampleTool] staleWorld
       = (Throw failure, w2).
Proof.
  cbv zeta.
  destruct (alteration_failure_aborts_index_failure_does_not
              alterFaultEnv (generateEmbeddingArray alterFaultEnv)
              "docs" (openAIConfigOf sampleConfig) 100 [sampleTool] staleWorld
              (snd (bind (ensureInitialized alterFaultEnv)
                         (fun _ => detectCurrentDimensions alterFaultEnv) staleWorld))
              1024) as [Hmig _].
  - lia.
  - vm_compute. reflexivity.
  - destruct Hmig as [Hfatal _]; [reflexivity | reflexivity |].
    apply (Hfatal (ErrorWith "cannot alter type of a column")). reflexivity.
Defined.

(** The wording of C4 fails for the index rebuild: both CREATE INDEX
    statements are rejected, and reconciliation still returns normally, the
    database left without an index. *)
Lemma index_rebuild_failure_is_absorbed :
  let r := checkDatabaseVectorDimensions indexFaultEnv 100 staleWorld in
  fst r = Ok tt
  /\ journal (snd r)
     = [ (CallQuery SelectVectorTypeInfo, true);
         (CallQuery SelectAtttypmod, true);
         (CallQuery SelectRecordDimensions, true);
         (CallQuery (DeleteMismatched 100), true);
         (CallQuery (AlterEmbeddingColumn 100), true);
         (CallQuery (DropIndexIfExists "idx_vector_embeddings_embedding"), true);
         (CallQuery (CreateIndexHnsw "idx_vector_embeddings_embedding"
                                     "vector_embeddings" "embedding"), false);
         (CallQuery (CreateIndexIvfflat "idx_vector_embeddings_embedding"
                                        "vector_embeddings" "embedding"), false) ]
  /\ indexes (store (snd r)) = [].
Proof. cbv zeta. vm_compute. repeat split. Qed.

(** ** The outermost handler of the batch *)

Lemma saveToolsAsVectorEmbeddingsWith_returns
      (env : Env) (generate : string -> M (option (list R)))
      (serverName : string) (tools : list Tool.t) (w : World) :
  saveToolsAsVectorEmbeddingsWith env generate serverName tools w
  = (Ok tt, snd (saveToolsBody env generate serverName tools w)).
Proof.
  unfold saveToolsAsVectorEmbeddingsWith, tryCatch, ret.
  destruct (saveToolsBody env generate serverName tools w) as [[[]|e] w1]; reflexivity.
Qed.

(** ** C7: a tool with a bad embedding *)

Lemma processTool_total
      (env : Env) {Component : Type} (generate : string -> M (option (list Component)))
      (serverName : string) (config : OpenAIConfig) (n : nat) (tool : Tool.t) (w : World) :
  exists saved w', processTool env generate serverName config n tool w = (Ok saved, w').
Proof.
  unfold processTool. unfold_monad.
  destruct (generate (searchableTextOf tool) w) as [[[v|]|e] w1];
    try (do 2 eexists; reflexivity).
  destruct (length v =? 0); [do 2 eexists; reflexivity|].
  destruct (length v =? n); cbn [negb]; [|do 2 eexists; reflexivity].
  destruct (saveEmbedding env _ _ v serverName _ w1) as [[[]|e] w2];
    do 2 eexists; reflexivity.
Qed.

Lemma processTool_rejected
      (env : Env) (generate : string -> M (option (list R)))
      (serverName : string) (config : OpenAIConfig) (n : nat) (tool : Tool.t) (w : World) :
  rejectedEmbedding n (fst (generate (searchableTextOf tool) w)) ->
  processTool env generate serverName config n tool w
  = (Ok false, snd (generate (searchableTextOf tool) w)).
Proof.
  unfold processTool. unfold_monad.
  destruct (generate (searchableTextOf tool) w) as [[[v|]|e] w1];
    cbn [fst snd rejectedEmbedding]; try reflexivity; try contradiction.
  intros [H|H].
  - now rewrite H.
  - destruct (length v =? 0); [reflexivity|].
    apply Nat.eqb_neq in H. now rewrite H.
Qed.

Lemma forEachTool_total
      (env : Env) {Component : Type} (generate : string -> M (option (list Component)))
      (serverName : string) (config : OpenAIConfig) (n : nat)
      (tools : list Tool.t) (counts : nat * nat) (w : World) :
  exists counts' w',
    forEachTool env generate serverName config n tools counts w = (Ok counts', w').
Proof.
  revert counts w; induction tools as [|tool tools IH]; intros counts w; cbn [forEachTool].
  - do 2 eexists; reflexivity.
  - destruct (processTool_total env generate serverName config n tool w) as (saved & w1 & E).
    rewrite (bind_Ok _ _ _ _ _ E). apply IH.
Qed.

Lemma forEachTool_app
      (env : Env) (generate : string -> M (option (list R)))
      (serverName : string) (config : OpenAIConfig) (n : nat)
      (before after : list Tool.t) (counts counts1 : nat * nat) (w w1 : World) :
  forEachTool env generate serverName config n before counts w = (Ok counts1, w1) ->
  forEachTool env generate serverName config n (before ++ after) counts w
  = forEachTool env generate serverName config n after counts1 w1.
Proof.
  revert counts w; induction before as [|tool before IH]; intros counts w; cbn [forEachTool app].
  - unfold ret. intros H. now injection H as <- <-.
  - destruct (processTool_total env generate serverName config n tool w) as (saved & w0 & E).
    rewrite !(bind_Ok _ _ _ _ _ E). apply IH.
Qed.

(** C7.  Inside a batch of width [n] the loop over the tools never raises,
    and a tool whose generated embedding is not a non-empty array, or has a
    length other than [n], is skipped: processing it leaves the world
    exactly as the generator left it (no call of [saveEmbedding], nothing
    stored), it counts as a failure, and the loop goes on with the tools
    that follow.  The batch as a whole returns normally. *)
Theorem rejected_tool_is_skipped
        (env : Env) (generate : string -> M (option (list R)))
        (serverName : string) (config : OpenAIConfig) (n : nat)
        (tools : list Tool.t) (counts : nat * nat) (w : World) :
  (exists counts' w',
      forEachTool env generate serverName config n tools counts w = (Ok counts', w'))
  /\ (exists w', saveToolsAsVectorEmbeddingsWith env generate serverName tools w = (Ok tt, w'))
  /\ (forall before tool after counts1 w1,
        tools = before ++ tool :: after ->
        forEachTool env generate serverName config n before counts w = (Ok counts1, w1) ->
        rejectedEmbedding n (fst (generate (searchableTextOf tool) w1)) ->
        let w2 := snd (generate (searchableTextOf tool) w1) in
        processTool env generate serverName config n tool w1 = (Ok false, w2)
        /\ forEachTool env generate serverName config n tools counts w
           = forEachTool env generate serverName config n after
                         (fst counts1, S (snd counts1)) w2).
Proof.
  split; [apply forEachTool_total|].
  split; [eexists; apply saveToolsAsVectorEmbeddingsWith_returns|].
  intros before tool after counts1 w1 -> Hbefore Hrej. cbv zeta.
  pose proof (processTool_rejected env generate serverName config n tool w1 Hrej) as E.
  split; [exact E|].
  rewrite (forEachTool_app _ _ _ _ _ _ _ _ _ _ _ Hbefore).
  cbn [forEachTool]. now rewrite (bind_Ok _ _ _ _ _ E).
Qed.

(** Probe width 1536, tool embedding of length 768: the tool is skipped and
    the loop ends with one failure, the world untouched. *)
Lemma rejected_tool_is_skipped_witness :
  processTool quietEnv narrowToolGenerator "docs" (openAIConfigOf sampleConfig)
              1536 sampleTool emptyWorld
  = (Ok false, emptyWorld)
  /\ forEachTool quietEnv narrowToolGenerator "docs" (openAIConfigOf sampleConfig)
                 1536 [sampleTool] (0, 0) emptyWorld
     = (Ok (0, 1), emptyWorld).
Proof.
  destruct (rejected_tool_is_skipped quietEnv narrowToolGenerator "docs"
              (openAIConfigOf sampleConfig) 1536 [sampleTool] (0, 0) emptyWorld)
    as (_ & _ & H).
  destruct (H [] sampleTool [] (0, 0) emptyWorld eq_refl eq_refl) as [H1 H2].
  - right. vm_compute. discriminate.
  - split; [exact H1 | exact H2].
Defined.

(** The same scenario through the whole batch: reconciliation runs for
    width 1536, no [saveEmbedding] call is made, the call returns. *)
Example narrow_tool_batch :
  let r := saveToolsAsVectorEmbeddingsWith quietEnv narrowToolGenerator "docs"
                                           [sampleTool] emptyWorld in
  fst r = Ok tt
  /\ existsb (fun ev => isSaveEmbedding (fst ev)) (journal (snd r)) = false
  /\ records (store (snd r)) = [].
Proof. cbv zeta. vm_compute. repeat split. Qed.

(** ** C8: rows without usable metadata *)

Lemma structuredHit_None (env : Env) (row : SearchRow) :
  ~ usableMetadata env row -> structuredHit env row = None.
Proof.
  intros H. unfold structuredHit.
  destruct (embedding row) as [e|] eqn:Ee; [|reflexivity].
  destruct (metadata e) as [| | | |s| |] eqn:Em; try reflexivity.
  destruct (String.eqb_spec s ""); [reflexivity|].
  destruct (JSON_parse env s) as [parsed|] eqn:Ep; [|reflexivity].
  destruct (getProp parsed "serverName") as [sn|] eqn:Es; [|reflexivity].
  destruct (getProp parsed "toolName") as [tn|] eqn:Et; [|reflexivity].
  destruct (isTruthy sn) eqn:Ts; [|reflexivity].
  destruct (isTruthy tn) eqn:Tt; [|reflexivity].
  exfalso. apply H. now exists e, s, parsed, sn, tn.
Qed.

Lemma span_fst_snd (p : ascii -> bool) (s : string) :
  s = (JsString.takeWhile p s ++ JsString.dropWhile p s)%string.
Proof.
  unfold JsString.takeWhile, JsString.dropWhile.
  induction s as [|c s IH]; cbn [JsString.span]; [reflexivity|].
  destruct (p c); [|reflexivity].
  destruct (JsString.span p s) as [a b]. cbn [fst snd] in *. simpl. now rewrite <- IH.
Qed.

(** The tool name is the first piece of [split(/\s+/)]. *)
Lemma hd_splitWs (s cur : string) :
  hd ""%string (JsString.splitWs s cur false)
  = (cur ++ JsString.takeWhile JsString.notWhitespace s)%string.
Proof.
  unfold JsString.takeWhile, JsString.notWhitespace.
  revert cur; induction s as [|c s IH]; intros cur; cbn [JsString.splitWs JsString.span].
  - simpl. now rewrite append_nil_r.
  - destruct (JsString.isWhitespace c); cbn [negb].
    + simpl. now rewrite append_nil_r.
    + rewrite IH. destruct (JsString.span _ s) as [a b]. cbn [fst].
      now rewrite append_assoc.
Qed.

Lemma span_separator (p : ascii -> bool) (a : string) (c : ascii) (rest : string) :
  allChars p a = true -> p c = false ->
  JsString.span p (a ++ String c rest) = (a, String c rest).
Proof.
  intros Ha Hc. induction a as [|x a IH]; cbn [append JsString.span].
  - now rewrite Hc.
  - cbn [allChars] in Ha. apply andb_true_iff in Ha as [Hx Ha].
    rewrite Hx, (IH Ha). reflexivity.
Qed.

Lemma span_all (p : ascii -> bool) (a : string) :
  allChars p a = true -> JsString.span p a = (a, ""%string).
Proof.
  induction a as [|x a IH]; cbn [allChars JsString.span]; [reflexivity|].
  intros Ha. apply andb_true_iff in Ha as [Hx Ha]. now rewrite Hx, (IH Ha).
Qed.

Lemma dropWhile_idempotent (p : ascii -> bool) (s : string) :
  JsString.dropWhile p (JsString.dropWhile p s) = JsString.dropWhile p s.
Proof.
  unfold JsString.dropWhile.
  induction s as [|c s IH]; cbn [JsString.span]; [reflexivity|].
  destruct (p c) eqn:E.
  - destruct (JsString.span p s) as [a b]. cbn [snd] in *. exact IH.
  - cbn [snd JsString.span]. now rewrite E.
Qed.

Lemma extractDescription_spec (textContent : string) :
  extractDescription textContent
  = JsString.trim (JsString.dropWhile JsString.notWhitespace textContent).
Proof.
  unfold extractDescription, JsString.dropWhile.
  destruct (JsString.span JsString.notWhitespace textContent) as [token rest] eqn:E.
  cbn [snd]. destruct token as [|c token].
  - pose proof (span_fst_snd JsString.notWhitespace textContent) as H.
    unfold JsString.takeWhile, JsString.dropWhile in H. rewrite E in H.
    cbn [fst snd append] in H. now rewrite <- H.
  - unfold JsString.trim, JsString.trimStart.
    fold (JsString.dropWhile JsString.isWhitespace rest).
    now rewrite dropWhile_idempotent.
Qed.

Lemma extractServerName_prefix (p rest : string) :
  p <> ""%string -> noUnderscore p ->
  extractServerName (p ++ "_" ++ rest) = p.
Proof.
  intros Hp Hno. unfold extractServerName.
  change (p ++ "_" ++ rest)%string with (p ++ String "_"%char rest)%string.
  rewrite (span_separator _ p "_"%char rest Hno eq_refl).
  destruct p; [congruence | reflexivity].
Qed.

Lemma extractServerName_no_underscore (token : string) :
  noUnderscore token -> extractServerName token = "unknown"%string.
Proof.
  intros Hno. unfold extractServerName. rewrite (span_all _ token Hno).
  destruct token; reflexivity.
Qed.

Lemma extractServerName_leading_underscore (token : string) :
  prefix "_" token = true -> extractServerName token = "unknown"%string.
Proof.
  intros H. apply prefix_true_iff in H as (post & ->).
  reflexivity.
Qed.

Lemma takeWhile_allChars (p : ascii -> bool) (s : string) :
  allChars p (JsString.takeWhile p s) = true.
Proof.
  unfold JsString.takeWhile.
  induction s as [|c s IH]; cbn [JsString.span]; [reflexivity|].
  destruct (p c) eqn:E; [|reflexivity].
  destruct (JsString.span p s) as [a b]. cbn [fst allChars] in *. now rewrite E, IH.
Qed.

Lemma dropWhile_notWhitespace_head (s : string) :
  JsString.dropWhile JsString.notWhitespace s = ""%string
  \/ beginsWithWhitespace (JsString.dropWhile JsString.notWhitespace s) = true.
Proof.
  unfold JsString.dropWhile, JsString.notWhitespace.
  induction s as [|c s IH]; cbn [JsString.span]; [now left|].
  destruct (JsString.isWhitespace c) eqn:E; cbn [negb].
  - right. cbn [snd beginsWithWhitespace]. exact E.
  - destruct (JsString.span _ s) as [a b]. cbn [snd] in *. exact IH.
Qed.

Lemma takeWhile_notWhitespace_empty (s : string) :
  s = ""%string \/ beginsWithWhitespace s = true ->
  JsString.takeWhile JsString.notWhitespace s = ""%string
  /\ JsString.dropWhile JsString.notWhitespace s = s.
Proof.
  unfold JsString.takeWhile, JsString.dropWhile, JsString.notWhitespace.
  intros [-> | H]; [split; reflexivity|].
  destruct s as [|c s]; [discriminate|]. cbn [beginsWithWhitespace] in H.
  cbn [JsString.span]. rewrite H. split; reflexivity.
Qed.

(** C8, as the code has it.  A row whose metadata is missing, is not a
    string, does not parse, or parses to something without truthy
    [serverName] and [toolName] is transformed, without any exception, into
    a record read off its text.  The tool name is the longest prefix of the
    text that has no whitespace: the first whitespace-delimited piece of
    the text, which is its first word when the text begins with one and the
    empty string when the text is empty or begins with whitespace.  The
    description is what follows the tool name, trimmed.  The server name is
    the part of the tool name before its first underscore when that part is
    not empty, and "unknown" when the tool name has no underscore or begins
    with one.  So a text that is empty or begins with whitespace gives the
    tool name '', the server name "unknown" and the whole text, trimmed, as
    description. *)
Theorem heuristic_extraction (env : Env) (row : SearchRow) :
  ~ usableMetadata env row ->
  let text := textOf row in
  let token := hd ""%string (JsString.splitWhitespace text) in
  let remaining := JsString.dropWhile JsString.notWhitespace text in
  let hit := transformSearchRow env row in
  text = (token ++ remaining)%string
  /\ allChars JsString.notWhitespace token = true
  /\ (remaining = ""%string \/ beginsWithWhitespace remaining = true)
  /\ (text <> ""%string -> beginsWithWhitespace text = false -> token <> ""%string)
  /\ Hit.toolName hit = JString token
  /\ Hit.description hit = JString (JsString.trim remaining)
  /\ (forall p rest, token = (p ++ "_" ++ rest)%string -> p <> ""%string ->
                     noUnderscore p -> Hit.serverName hit = JString p)
  /\ (noUnderscore token -> Hit.serverName hit = JString "unknown")
  /\ (prefix "_" token = true -> Hit.serverName hit = JString "unknown")
  /\ (text = ""%string \/ beginsWithWhitespace text = true ->
      Hit.toolName hit = JString ""
      /\ Hit.serverName hit = JString "unknown"
      /\ Hit.description hit = JString (JsString.trim text))
  /\ Hit.inputSchema hit = JObject []
  /\ Hit.similarity hit = similarity row
  /\ Hit.searchableText hit = Some text.
Proof.
  intros H. cbv zeta. unfold transformSearchRow.
  rewrite (structuredHit_None env row H).
  unfold heuristicHit. fold (textOf row).
  cbn [Hit.toolName Hit.description Hit.serverName Hit.inputSchema
       Hit.similarity Hit.searchableText].
  unfold JsString.splitWhitespace, extractToolName. rewrite hd_splitWs. cbn [append].
  split; [apply span_fst_snd|].
  split; [apply takeWhile_allChars|].
  split; [apply dropWhile_notWhitespace_head|].
  split.
  { intros Hne Hb. destruct (textOf row) as [|c t]; [congruence|].
    cbn [beginsWithWhitespace] in Hb.
    unfold JsString.takeWhile, JsString.notWhitespace. cbn [JsString.span].
    rewrite Hb. cbn [negb]. destruct (JsString.span _ t). discriminate. }
  split; [reflexivity|].
  split; [now rewrite extractDescription_spec|].
  split; [intros p rest Heq Hp Hno; rewrite Heq; f_equal;
          exact (extractServerName_prefix p rest Hp Hno)|].
  split; [intros Hno; now rewrite extractServerName_no_underscore|].
  split; [intros Hpre; now rewrite extractServerName_leading_underscore|].
  split.
  { intros Hw. destruct (takeWhile_notWhitespace_empty (textOf row) Hw) as [Ht Hd].
    rewrite extractDescription_spec, Ht, Hd. repeat split. }
  repeat split.
Qed.

(** A row whose metadata is the text "invalid json". *)
Lemma heuristic_extraction_witness :
  let row := mkSearchRow 1%R
               (Some (mkSearchEntity (Some "docs_search  Search for documents ")
                                     (JString "invalid json"))) in
  let hit := transformSearchRow quietEnv row in
  Hit.toolName hit = JString "docs_search"
  /\ Hit.description hit = JString "Search for documents"
  /\ Hit.serverName hit = JString "docs".
Proof.
  cbv zeta.
  destruct (heuristic_extraction quietEnv
              (mkSearchRow 1%R
                 (Some (mkSearchEntity (Some "docs_search  Search for documents ")
                                       (JString "invalid json")))))
    as (_ & _ & _ & _ & Htool & Hdesc & Hserver & _).
  - intros (e & s & parsed & sn & tn & He & Hm & _ & Hp & _).
    cbn in He. injection He as <-. cbn in Hm. injection Hm as <-.
    vm_compute in Hp. discriminate Hp.
  - split; [exact Htool|]. split; [exact Hdesc|].
    apply (Hserver "docs"%string "search"%string); [reflexivity | discriminate | reflexivity].
Defined.

(** The wording of C8 fails for a tool name that begins with an underscore:
    the token contains an underscore, the part before its first underscore
    is empty, and the server name is "unknown", not that part.  It also
    fails for a text that begins with a blank: the tool name is the empty
    string, not the first word, the server name is "unknown" although the
    first word has an underscore, and the description is the whole text. *)
Lemma leading_underscore_gives_unknown :
  (let row := mkSearchRow 1%R
                (Some (mkSearchEntity (Some "_private list things") JUndefined)) in
   let hit := transformSearchRow quietEnv row in
   Hit.toolName hit = JString "_private"
   /\ JsString.existsb isUnderscore "_private" = true
   /\ JsString.takeWhile (fun c => negb (isUnderscore c)) "_private" = ""%string
   /\ Hit.serverName hit = JString "unknown"
   /\ Hit.serverName hit <> JString "")
  /\ (let row := mkSearchRow 1%R
                   (Some (mkSearchEntity (Some " docs_search Search for documents")
                                         JUndefined)) in
      let hit := transformSearchRow quietEnv row in
      Hit.toolName hit = JString ""
      /\ Hit.toolName hit <> JString "docs_search"
      /\ Hit.serverName hit = JString "unknown"
      /\ Hit.description hit = JString "docs_search Search for documents").
Proof. cbv zeta. vm_compute. repeat split; discriminate. Qed.

(** ** C9: search, listing and removal never raise *)

Lemma tryCatch_default {A} (m : M A) (d : A) (w : World) :
  (exists a w', m w = (Ok a, w') /\ tryCatch m (fun _ => ret d) w = (Ok a, w'))
  \/ (exists e w', m w = (Throw e, w') /\ tryCatch m (fun _ => ret d) w = (Ok d, w')).
Proof.
  unfold tryCatch, ret. destruct (m w) as [[a|e] w'].
  - left. now exists a, w'.
  - right. now exists e, w'.
Qed.

(** C9.  Whatever the collaborators do, [searchToolsByVector] and
    [getAllVectorizedTools] return a list and [removeServerToolEmbeddings]
    returns: none of them raises.  Whenever the body of a listing function
    raises, its result is the empty list; this covers, among others, a
    repository that cannot be obtained, a rejected [searchByText], and a row
    without [embedding] met while filtering by server names. *)
Theorem failures_are_recovered
        (env : Env) (queryText : string) (limit : Z) (threshold : R)
        (serverNames : option (list string)) (serverName : string) (w : World) :
  (* searchToolsByVector *)
  ((exists hits w',
       searchToolsByVector env queryText limit threshold serverNames w = (Ok hits, w'))
   /\ (forall e w1,
         searchToolsBody env queryText limit threshold serverNames w = (Throw e, w1) ->
         searchToolsByVector env queryText limit threshold serverNames w = (Ok [], w1))
   /\ (forall e, repositoryFactoryFault env (clock w) = Some e ->
         searchToolsByVector env queryText limit threshold serverNames w = (Ok [], w))
   /\ (forall e, repositoryFactoryFault env (clock w) = None ->
         searchByTextResult env (clock w) queryText limit threshold = Throw e ->
         searchToolsByVector env queryText limit threshold serverNames w
         = (Ok [], tick (CallSearchByText queryText) false w))
   /\ (forall rows e, repositoryFactoryFault env (clock w) = None ->
         searchByTextResult env (clock w) queryText limit threshold = Ok rows ->
         filterByServerNames env serverNames rows = Throw e ->
         searchToolsByVector env queryText limit threshold serverNames w
         = (Ok [], tick (CallSearchByText queryText) true w)))
  (* getAllVectorizedTools *)
  /\ ((exists tools w', getAllVectorizedTools env serverNames w = (Ok tools, w'))
      /\ (forall e w1,
            getAllVectorizedToolsBody env serverNames w = (Throw e, w1) ->
            getAllVectorizedTools env serverNames w = (Ok [], w1))
      /\ (forall e, repositoryFactoryFault env (S (clock w)) = Some e ->
            getAllVectorizedTools env serverNames w = (Ok [], advance w)))
  (* removeServerToolEmbeddings *)
  /\ (exists w', removeServerToolEmbeddings env serverName w = (Ok tt, w')).
Proof.
  split; [|split].
  - split.
    { unfold searchToolsByVector.
      destruct (tryCatch_default (searchToolsBody env queryText limit threshold serverNames)
                                 [] w) as [(a & w' & _ & E) | (e & w' & _ & E)];
        rewrite E; eauto. }
    split.
    { intros e w1 E. unfold searchToolsByVector. now rewrite (tryCatch_Throw _ _ _ _ _ E). }
    split.
    { intros e He. unfold searchToolsByVector, searchToolsBody, getVectorRepository.
      unfold_monad. now rewrite He. }
    split.
    { intros e Hrepo Hs.
      unfold searchToolsByVector, searchToolsBody, getVectorRepository, searchByText.
      unfold_monad. now rewrite Hrepo, Hs. }
    { intros rows e Hrepo Hs Hf.
      unfold searchToolsByVector, searchToolsBody, getVectorRepository, searchByText.
      unfold_monad. now rewrite Hrepo, Hs, Hf. }
  - split.
    { unfold getAllVectorizedTools.
      destruct (tryCatch_default (getAllVectorizedToolsBody env serverNames) [] w)
        as [(a & w' & _ & E) | (e & w' & _ & E)]; rewrite E; eauto. }
    split.
    { intros e w1 E. unfold getAllVectorizedTools. now rewrite (tryCatch_Throw _ _ _ _ _ E). }
    { intros e He.
      unfold getAllVectorizedTools, getAllVectorizedToolsBody, getOpenAIConfig,
        getSmartRoutingConfig, getVectorRepository.
      unfold_monad. cbn [clock advance]. now rewrite He. }
  - unfold removeServerToolEmbeddings.
    destruct (tryCatch_default (removeServerToolEmbeddingsBody env serverName) tt w)
      as [(a & w' & _ & E) | (e & w' & _ & E)]; rewrite E; [destruct a|]; eauto.
Qed.

(** A repository that rejects the search: the result is the empty list. *)
Lemma failures_are_recovered_witness :
  searchToolsByVector searchFaultEnv "x" 10 (7 / 10)%R None emptyWorld
  = (Ok [], tick (CallSearchByText "x") false emptyWorld)
  /\ exists w', removeServerToolEmbeddings searchFaultEnv "docs" emptyWorld = (Ok tt, w').
Proof.
  destruct (failures_are_recovered searchFaultEnv "x" 10 (7 / 10)%R None "docs" emptyWorld)
    as ((_ & _ & _ & Hsearch & _) & _ & Hremove).
  split; [|exact Hremove].
  apply (Hsearch (ErrorWith "Search failed")); reflexivity.
Defined.

(** ** C10: filtering by server names *)

Lemma allowed_not_unreadable (env : Env) (serverNames : list string) (row : SearchRow) :
  allowedMetadata env serverNames row -> ~ unreadableMetadata env row.
Proof.
  intros (e & s & parsed & v & He & Hm & Hp & _) H.
  unfold unreadableMetadata in H. rewrite He, Hm in H. congruence.
Qed.

Lemma serverNameAllowed_true (env : Env) (serverNames : list string) (row : SearchRow) :
  serverNameAllowed env serverNames row = Ok true -> allowedMetadata env serverNames row.
Proof.
  unfold serverNameAllowed, allowedMetadata.
  destruct (embedding row) as [e|]; [|discriminate].
  destruct (metadata e) as [| | | |s| |] eqn:Em; try discriminate.
  destruct (JSON_parse env s) as [parsed|] eqn:Ep; [|discriminate].
  destruct (getProp parsed "serverName") as [v|] eqn:Ev; [|discriminate].
  destruct v as [| | | |name| |]; cbn [includesValue]; try discriminate.
  intros H. injection H as H. apply existsb_exists in H as (x & Hin & Hx).
  apply String.eqb_eq in Hx. subst x.
  now exists e, s, parsed, name.
Qed.

Lemma filterRows_sound (env : Env) (serverNames : list string)
      (rows kept : list SearchRow) :
  filterRows env serverNames rows = Ok kept ->
  forall r, In r kept -> In r rows /\ allowedMetadata env serverNames r.
Proof.
  revert kept; induction rows as [|row rows IH]; intros kept; cbn [filterRows].
  - intros H. injection H as <-. contradiction.
  - destruct (serverNameAllowed env serverNames row) as [keep|e] eqn:Ea; [|discriminate].
    destruct (filterRows env serverNames rows) as [kept0|e]; [|discriminate].
    intros H. injection H as <-. intros r Hr.
    destruct keep.
    + destruct Hr as [<-|Hr].
      * split; [now left | now apply serverNameAllowed_true].
      * destruct (IH kept0 eq_refl r Hr). split; [now right | assumption].
    + destruct (IH kept0 eq_refl r Hr). split; [now right | assumption].
Qed.

(** With a non-empty list of server names, the output of both listing
    functions is the image of rows that all passed the filter. *)
Lemma filtered_outputs
        (env : Env) (queryText : string) (limit : Z) (threshold : R)
        (name : string) (names : list string) (w : World) :
  let serverNames := name :: names in
  (exists kept w',
      searchToolsByVector env queryText limit threshold (Some serverNames) w
      = (Ok (map (transformSearchRow env) kept), w')
      /\ (forall r, In r kept ->
                    allowedMetadata env serverNames r /\ ~ unreadableMetadata env r)
      /\ (forall rows,
            searchByTextResult env (clock w) queryText limit threshold = Ok rows ->
            incl kept rows))
  /\ (exists kept tools w',
         getAllVectorizedTools env (Some serverNames) w = (Ok tools, w')
         /\ mapRows (transformListedRow env) kept = Ok tools
         /\ (forall r, In r kept ->
                       allowedMetadata env serverNames r /\ ~ unreadableMetadata env r)).
Proof.
  cbv zeta.
  assert (Hnone : forall r : SearchRow, In r [] ->
                    allowedMetadata env (name :: names) r /\ ~ unreadableMetadata env r)
    by (intros r []).
  assert (Hsound : forall rows kept,
             filterRows env (name :: names) rows = Ok kept ->
             forall r, In r kept ->
                       allowedMetadata env (name :: names) r /\ ~ unreadableMetadata env r).
  { intros rows kept Hf r Hr. destruct (filterRows_sound _ _ _ _ Hf r Hr) as [_ Ha].
    split; [exact Ha | now apply (allowed_not_unreadable env (name :: names))]. }
  split.
  - unfold searchToolsByVector, searchToolsBody, getVectorRepository, searchByText.
    unfold_monad. cbn [filterByServerNames].
    destruct (repositoryFactoryFault env (clock w)) as [e|].
    { exists [], w. split; [reflexivity|]. split; [exact Hnone|]. intros rows _ r []. }
    destruct (searchByTextResult env (clock w) queryText limit threshold) as [rows|e].
    2:{ eexists [], _. split; [reflexivity|]. split; [exact Hnone|]. discriminate. }
    destruct (filterRows env (name :: names) rows) as [kept|e] eqn:Ef.
    + eexists kept, _. split; [reflexivity|]. split; [now apply (Hsound rows)|].
      intros rows' Hrows r Hr. injection Hrows as <-.
      now destruct (filterRows_sound _ _ _ _ Ef r Hr).
    + eexists [], _. split; [reflexivity|]. split; [exact Hnone|]. intros rows' _ r [].
  - unfold getAllVectorizedTools.
    destruct (tryCatch_default (getAllVectorizedToolsBody env (Some (name :: names))) [] w)
      as [(tools & w' & Hbody & E) | (e & w' & _ & E)]; rewrite E.
    + revert Hbody. unfold getAllVectorizedToolsBody.
      unfold bind at 1. destruct (getOpenAIConfig env w) as [[config|e] w1]; [|discriminate].
      unfold bind at 1. destruct (getVectorRepository env w1) as [[[]|e] w2]; [|discriminate].
      unfold bind at 1. destruct (dimensionsToUse env config w2) as [[d|e] w3]; [|discriminate].
      unfold bind at 1. destruct (zeroVector d w3) as [[probe|e] w4]; [|discriminate].
      unfold bind at 1.
      destruct (searchSimilar env probe 1000 (-1)%R w4) as [[rows|e] w5]; [|discriminate].
      unfold bind, liftOutcome. cbn [filterByServerNames].
      destruct (filterRows env (name :: names) rows) as [kept|e] eqn:Ef; [|discriminate].
      intros Hmap. exists kept, tools, w'. split; [reflexivity|].
      split; [|now apply (Hsound rows)].
      destruct (mapRows (transformListedRow env) kept); congruence.
    + exists [], [], w'. split; [reflexivity|]. split; [reflexivity | exact Hnone].
Qed.

(** ** The widths a batch of the service can have *)

Lemma getDimensionsForModel_values (model : string) :
  In (getDimensionsForModel model) [1024; 768; 3072; 1536; 100]%Z.
Proof.
  unfold getDimensionsForModel.
  repeat match goal with
         | |- context [if ?b then _ else _] => destruct b
         end; cbn; tauto.
Qed.

(** With the service's own generator the probe always succeeds, with a
    width between 1 and 3072, so that the index rebuild of a migration
    always has a CREATE INDEX to attempt. *)
Lemma probeDimensions_of_service (env : Env) (w : World) :
  exists n w',
    probeDimensions (generateEmbeddingArray env) w = (Ok n, w')
    /\ (0 < n)%nat /\ (Z.of_nat n <= 3072)%Z.
Proof.
  destruct (generateEmbedding_cases env "test" w) as (v & E & Hv). cbv zeta in Hv.
  assert (Hlen : (0 < length v)%nat /\ (Z.of_nat (length v) <= 3072)%Z).
  { destruct Hv as [-> | (_ & Hne & _ & _ & Hd)].
    - rewrite length_generateFallbackEmbedding. split; lia.
    - split.
      + destruct v; [congruence | cbn; lia].
      + unfold validateEmbeddingDimensions in Hd. apply Z.eqb_eq in Hd. rewrite Hd.
        pose proof (getDimensionsForModel_values
                      (embeddingModel (openAIConfigOf (smartRoutingConfig env (clock w)))))
          as Hin.
        cbn [In] in Hin. lia. }
  exists (length v), (tick (CallEmbeddingAPI (prepareText "test")) true (advance w)).
  split; [|exact Hlen].
  set (w1 := tick (CallEmbeddingAPI (prepareText "test")) true (advance w)) in *.
  assert (Eg : generateEmbeddingArray env "test" w = (Ok (Some v), w1))
    by (unfold generateEmbeddingArray; now rewrite (bind_Ok _ _ _ _ _ E)).
  unfold probeDimensions.
  rewrite (bind_Ok _ _ w w1 (Some (length v))).
  - destruct (length v) as [|n]; [lia | reflexivity].
  - apply tryCatch_Ok. now rewrite (bind_Ok _ _ _ _ _ Eg).
Qed.

(** What becomes of a row that passed the filter: a hit with the names of
    its metadata when these are usable, a hit read off its text
    otherwise. *)
Lemma kept_row_hit (env : Env) (serverNames : list string) (r : SearchRow) :
  allowedMetadata env serverNames r ->
  (usableMetadata env r
   /\ exists v, Hit.serverName (transformSearchRow env r) = JString v /\ In v serverNames)
  \/ (~ usableMetadata env r /\ transformSearchRow env r = heuristicHit r).
Proof.
  intros (e & s & parsed & v & He & Hm & Hp & Hv & Hin).
  assert (Hheuristic : ~ usableMetadata env r ->
                       ~ usableMetadata env r /\ transformSearchRow env r = heuristicHit r).
  { intros Hn. split; [exact Hn|]. unfold transformSearchRow.
    now rewrite (structuredHit_None env r Hn). }
  assert (Hsame : forall e' s' parsed' sn tn,
             embedding r = Some e' -> metadata e' = JString s' ->
             JSON_parse env s' = Some parsed' ->
             getProp parsed' "serverName" = Some sn ->
             getProp parsed' "toolName" = Some tn ->
             s' = s /\ sn = JString v /\ getProp parsed "toolName" = Some tn).
  { intros e' s' parsed' sn tn He' Hm' Hp' Hs' Ht'.
    rewrite He in He'. injection He' as <-. rewrite Hm in Hm'. injection Hm' as <-.
    rewrite Hp in Hp'. injection Hp' as <-. rewrite Hv in Hs'. injection Hs' as <-.
    now repeat split. }
  destruct (String.eqb_spec s "") as [Hempty|Hs].
  { right. apply Hheuristic.
    intros (e' & s' & parsed' & sn & tn & He' & Hm' & Hne & Hp' & Hs' & Ht' & _).
    destruct (Hsame _ _ _ _ _ He' Hm' Hp' Hs' Ht') as (-> & _). contradiction. }
  destruct (getProp parsed "toolName") as [toolName|] eqn:Et.
  2:{ right. apply Hheuristic.
      intros (e' & s' & parsed' & sn & tn & He' & Hm' & Hne & Hp' & Hs' & Ht' & _).
      destruct (Hsame _ _ _ _ _ He' Hm' Hp' Hs' Ht') as (_ & _ & H). discriminate H. }
  destruct (isTruthy (JString v)) eqn:Tv.
  2:{ right. apply Hheuristic.
      intros (e' & s' & parsed' & sn & tn & He' & Hm' & Hne & Hp' & Hs' & Ht' & Ts & _).
      destruct (Hsame _ _ _ _ _ He' Hm' Hp' Hs' Ht') as (_ & -> & _). congruence. }
  destruct (isTruthy toolName) eqn:Tt.
  2:{ right. apply Hheuristic.
      intros (e' & s' & parsed' & sn & tn & He' & Hm' & Hne & Hp' & Hs' & Ht' & _ & Tn).
      destruct (Hsame _ _ _ _ _ He' Hm' Hp' Hs' Ht') as (_ & _ & H).
      injection H as <-. congruence. }
  left. split.
  - now exists e, s, parsed, (JString v), toolName.
  - exists v. split; [|exact Hin].
    unfold transformSearchRow, structuredHit. rewrite He, Hm, Hp, Hv, Et, Tv, Tt.
    destruct (String.eqb_spec s ""); [contradiction | reflexivity].
Qed.

(** C10, as the code has it.  With a non-empty list of server names, the
    output of [searchToolsByVector] and of [getAllVectorizedTools] is the
    image of rows that all passed the filter: each has string metadata that
    parses and names an allowed server.  So a row whose metadata is not a
    string, or does not parse, contributes nothing to the output, not even
    as "unknown".  The extraction from the text is still applied under
    filtering, by [searchToolsByVector], to the rows that passed the filter
    without usable metadata (no truthy tool name, or an empty server name):
    every hit either carries the allowed server name of its metadata, or is
    read off the text of such a row. *)
Theorem filter_excludes_unreadable_metadata
        (env : Env) (queryText : string) (limit : Z) (threshold : R)
        (name : string) (names : list string) (w : World) :
  let serverNames := name :: names in
  (exists kept w',
      searchToolsByVector env queryText limit threshold (Some serverNames) w
      = (Ok (map (transformSearchRow env) kept), w')
      /\ (forall r, In r kept ->
                    allowedMetadata env serverNames r /\ ~ unreadableMetadata env r)
      /\ (forall r, In r kept ->
            (usableMetadata env r
             /\ exists v, Hit.serverName (transformSearchRow env r) = JString v
                          /\ In v serverNames)
            \/ (~ usableMetadata env r /\ transformSearchRow env r = heuristicHit r))
      /\ (forall rows,
            searchByTextResult env (clock w) queryText limit threshold = Ok rows ->
            incl kept rows))
  /\ (exists kept tools w',
         getAllVectorizedTools env (Some serverNames) w = (Ok tools, w')
         /\ mapRows (transformListedRow env) kept = Ok tools
         /\ (forall r, In r kept ->
                       allowedMetadata env serverNames r /\ ~ unreadableMetadata env r)).
Proof.
  cbv zeta.
  destruct (filtered_outputs env queryText limit threshold name names w)
    as [(kept & w' & E & Hkept & Hincl) Hlist].
  split; [|exact Hlist].
  exists kept, w'. split; [exact E|]. split; [exact Hkept|]. split; [|exact Hincl].
  intros r Hr. apply (kept_row_hit env (name :: names)). now destruct (Hkept r Hr).
Qed.

(** The sample rows filtered for server "a": what is returned comes from
    rows with readable metadata only. *)
Lemma filter_excludes_unreadable_metadata_witness :
  exists kept w',
    searchToolsByVector sampleSearchEnv "x" 10 (7 / 10)%R (Some ["a"%string]) emptyWorld
    = (Ok (map (transformSearchRow sampleSearchEnv) kept), w')
    /\ incl kept sampleRows
    /\ forall r, In r kept -> ~ unreadableMetadata sampleSearchEnv r.
Proof.
  destruct (filter_excludes_unreadable_metadata sampleSearchEnv "x" 10 (7 / 10)%R
              "a"%string [] emptyWorld) as [(kept & w' & E & Hkept & _ & Hincl) _].
  exists kept, w'. split; [exact E|]. split.
  - apply Hincl. reflexivity.
  - intros r Hr. now destruct (Hkept r Hr).
Defined.

(** The wording of C10 fails for the extraction from the text: the search
    is filtered to the server "a", the row passes the filter because its
    metadata name the server "a", and, these metadata naming no tool, the
    hit is read off the text: tool "b_tool" of server "b". *)
Lemma filtered_hit_read_off_the_text :
  exists hit w',
    searchToolsByVector unnamedToolEnv "x" 10 (7 / 10)%R (Some ["a"%string]) emptyWorld
    = (Ok [hit], w')
    /\ hit = heuristicHit unnamedToolRow
    /\ Hit.toolName hit = JString "b_tool"
    /\ Hit.serverName hit = JString "b"
    /\ ~ In "b"%string ["a"%string].
Proof.
  eexists _, _. split; [vm_compute; reflexivity|].
  split; [vm_compute; reflexivity|]. split; [reflexivity|]. split; [reflexivity|].
  intros [H|[]]. discriminate H.
Qed.

(** ** The batch around reconciliation *)





(** * Further properties of the service *)

(** ** The fallback embedding *)

Section FallbackNorm.

Local Open Scope R_scope.

Lemma fold_left_sum (f : R -> R) (v : list R) (a : R) :
  fold_left (fun sum val => sum + f val) v a = a + sumList (map f v).
Proof.
  revert a; induction v as [|x v IH]; intros a; simpl.
  - lra.
  - rewrite IH. lra.
Qed.

Lemma sumOfSquares_sumList (v : list R) :
  sumOfSquares v = sumList (map (fun x => x * x) v).
Proof. unfold sumOfSquares. rewrite (fold_left_sum (fun x => x * x)). lra. Qed.

Lemma sumOfSquares_nonneg (v : list R) : 0 <= sumOfSquares v.
Proof.
  rewrite sumOfSquares_sumList. induction v as [|x v IH]; simpl; [lra|].
  pose proof (Rle_0_sqr x) as H. unfold Rsqr in H. lra.
Qed.

Lemma sumOfSquares_zero (v : list R) :
  sumOfSquares v = 0 -> forallb isZero v = true.
Proof.
  rewrite sumOfSquares_sumList. induction v as [|x v IH]; simpl; [reflexivity|].
  intros H.
  pose proof (Rle_0_sqr x) as Hx. unfold Rsqr in Hx.
  pose proof (sumOfSquares_nonneg v) as Hv. rewrite sumOfSquares_sumList in Hv.
  assert (Hx0 : x * x = 0) by lra.
  apply Rmult_integral in Hx0.
  apply andb_true_iff. split.
  - apply isZero_true_iff. tauto.
  - apply IH. lra.
Qed.

Lemma sumOfSquares_scaled (m : R) (v : list R) :
  m <> 0 ->
  sumOfSquares (map (fun val => val / m) v) = sumOfSquares v / (m * m).
Proof.
  intros Hm. rewrite !sumOfSquares_sumList.
  induction v as [|x v IH]; simpl.
  - field. exact Hm.
  - rewrite IH. field. exact Hm.
Qed.

Lemma component_le_norm (v : list R) (x : R) :
  In x v -> x * x <= sumOfSquares v.
Proof.
  rewrite sumOfSquares_sumList. induction v as [|y v IH]; simpl; [contradiction|].
  intros [->|Hin].
  - pose proof (sumOfSquares_nonneg v) as Hv. rewrite sumOfSquares_sumList in Hv. lra.
  - pose proof (Rle_0_sqr y) as Hy. unfold Rsqr in Hy. specialize (IH Hin). lra.
Qed.

(** The accumulated vector behind the fallback embedding: 100 components,
    none negative, not all zero, hence of positive magnitude. *)
Lemma fallback_accumulator (text : string) :
  let words := JsString.splitWhitespace (JsString.toLowerCase text) in
  let vector := fold_left accumulateWord words (repeat 0 (Z.to_nat FALLBACK_DIMENSIONS)) in
  let magnitude := sqrt (sumOfSquares vector) in
  length vector = 100%nat /\ nonNegative vector /\ 0 < magnitude
  /\ generateFallbackEmbedding text = map (fun val => val / magnitude) vector.
Proof.
  cbv zeta.
  set (words := JsString.splitWhitespace _).
  set (v0 := repeat 0 (Z.to_nat FALLBACK_DIMENSIONS)).
  assert (Hv0 : length v0 = 100%nat) by (unfold v0; now rewrite repeat_length).
  assert (Hs0 : sumList v0 = 0).
  { unfold v0. clear. induction (Z.to_nat FALLBACK_DIMENSIONS); simpl; lra. }
  assert (Hn0 : nonNegative v0).
  { unfold nonNegative, v0. clear. induction (Z.to_nat FALLBACK_DIMENSIONS); simpl;
      constructor; auto. lra. }
  destruct (fold_accumulateWord words v0) as (Hl & Hn & Hs); [rewrite Hv0; lia | exact Hn0 |].
  assert (Hw : (1 <= length words)%nat).
  { unfold words, JsString.splitWhitespace.
    pose proof (splitWs_not_nil (JsString.toLowerCase text) EmptyString false).
    destruct (JsString.splitWs _ _ _); [congruence | simpl; lia]. }
  apply le_INR in Hw. simpl INR at 1 in Hw.
  assert (Hpos : 0 < sumOfSquares (fold_left accumulateWord words v0)).
  { destruct (Rle_lt_or_eq_dec _ _ (sumOfSquares_nonneg (fold_left accumulateWord words v0)))
      as [H|H]; [exact H|].
    symmetry in H. apply sumOfSquares_zero, sumList_allZero in H. lra. }
  assert (Hm : 0 < sqrt (sumOfSquares (fold_left accumulateWord words v0)))
    by now apply sqrt_lt_R0.
  split; [congruence|]. split; [exact Hn|]. split; [exact Hm|].
  unfold generateFallbackEmbedding. fold words. fold v0.
  destruct (Rlt_dec 0 _) as [_|Hc]; [reflexivity | contradiction].
Qed.

Lemma fallback_has_unit_norm_aux (text : string) :
  sumOfSquares (generateFallbackEmbedding text) = 1.
Proof.
  destruct (fallback_accumulator text) as (_ & _ & Hm & ->).
  rewrite sumOfSquares_scaled by lra.
  rewrite sqrt_sqrt by apply sumOfSquares_nonneg.
  apply Rdiv_diag. intros H. rewrite H, sqrt_0 in Hm. lra.
Qed.

End FallbackNorm.

(** X1.  Whatever the text, the fallback embedding has exactly 100
    components (FALLBACK_DIMENSIONS): words only add to existing positions,
    and normalisation keeps the length. *)
Theorem fallback_has_fallback_width (text : string) :
  Z.of_nat (length (generateFallbackEmbedding text)) = FALLBACK_DIMENSIONS.
Proof.
  destruct (fallback_accumulator text) as (Hl & _ & _ & ->).
  rewrite length_map, Hl. reflexivity.
Qed.

Lemma fallback_components (text : string) :
  Forall (fun x => 0 <= x <= 1)%R (generateFallbackEmbedding text).
Proof.
  pose proof (fallback_has_unit_norm_aux text) as Hnorm.
  destruct (fallback_accumulator text) as (_ & Hnn & Hm & E).
  apply Forall_forall. intros x Hx.
  pose proof (component_le_norm _ x Hx) as Hle. rewrite Hnorm in Hle.
  assert (H0 : (0 <= x)%R).
  { rewrite E in Hx. apply in_map_iff in Hx as (y & <- & Hy).
    pose proof (proj1 (Forall_forall _ _) Hnn y Hy) as Hy0. cbv beta in Hy0.
    apply Rmult_le_pos; [exact Hy0 | left; now apply Rinv_0_lt_compat]. }
  split; [exact H0|]. nra.
Qed.

Lemma fallback_in_range (text : string) :
  validateEmbeddingRange (generateFallbackEmbedding text)
                         defaultMinRange defaultMaxRange = true.
Proof.
  unfold validateEmbeddingRange. apply forallb_forall. intros x Hx.
  pose proof (proj1 (Forall_forall _ _) (fallback_components text) x Hx) as [H0 H1].
  cbv beta in H0, H1.
  unfold inRange, defaultMinRange, defaultMaxRange.
  destruct (Rle_dec (- (11 / 10)) x); [|exfalso; lra].
  destruct (Rle_dec x (11 / 10)); [reflexivity | exfalso; lra].
Qed.

(** X3.  Every component of the fallback embedding lies between 0 and 1, so
    the fallback passes the shape, non-zero and range checks that guard the
    vectors of the API; it passes the dimension check exactly for the models
    whose expected width is 100. *)
Theorem fallback_passes_validation (text modelName : string) :
  let v := generateFallbackEmbedding text in
  Forall (fun x => 0 <= x <= 1)%R v
  /\ validateEmbeddingArray (EmbArray v) = true
  /\ validateEmbeddingNotZero v = true
  /\ validateEmbeddingRange v defaultMinRange defaultMaxRange = true
  /\ (validateEmbeddingDimensions v modelName = true
      <-> getDimensionsForModel modelName = 100%Z).
Proof.
  cbv zeta.
  split; [apply fallback_components|].
  split.
  { pose proof (length_generateFallbackEmbedding text) as L.
    destruct (generateFallbackEmbedding text); [discriminate | reflexivity]. }
  split; [apply generateFallbackEmbedding_not_zero|].
  split; [apply fallback_in_range|].
  unfold validateEmbeddingDimensions.
  rewrite length_generateFallbackEmbedding, Z.eqb_eq. split; intros H; lia.
Qed.

(** ** What [generateEmbedding] hands to the transport and gives back *)






(** ** The configuration handed to the transport *)

Lemma stripTrailingSlash_spec (s : string) :
  (s = (JsString.stripTrailingSlash s ++ "/")%string)
  \/ (JsString.stripTrailingSlash s = s /\ ~ endsWithSlash s).
Proof.
  induction s as [|c s IH].
  - right. split; [reflexivity|]. intros ([|x p] & H); discriminate.
  - destruct s as [|d s].
    + cbn [JsString.stripTrailingSlash].
      destruct (JsString.code c =? 47) eqn:E.
      * left. apply Nat.eqb_eq in E. unfold JsString.code in E.
        rewrite <- (ascii_nat_embedding c), E. reflexivity.
      * right. split; [reflexivity|]. intros (p & H).
        destruct p as [|x [|y p]]; try discriminate.
        cbn in H. injection H as ->. discriminate E.
    + change (JsString.stripTrailingSlash (String c (String d s)))
        with (String c (JsString.stripTrailingSlash (String d s))).
      destruct IH as [IH | [IH Hno]].
      * left. cbn [append]. now rewrite <- IH.
      * right. split; [now rewrite IH|]. intros (p & H).
        destruct p as [|x p]; [discriminate|].
        cbn [append] in H. injection H as _ H. apply Hno. now exists p.
Qed.

(** X6.  [getOpenAIConfig] hands on the API key and the model name as
    configured and removes at most one trailing slash from the base URL: the
    configured URL is either the base URL followed by a slash, or the base
    URL itself and then it did not end with a slash. *)
Theorem getOpenAIConfig_normalises_base_url (env : Env) (w : World) :
  let configured := smartRoutingConfig env (clock w) in
  exists config,
    getOpenAIConfig env w = (Ok config, advance w)
    /\ apiKey config = openaiApiKey configured
    /\ embeddingModel config = openaiApiEmbeddingModel configured
    /\ (openaiApiBaseUrl configured = (baseURL config ++ "/")%string
        \/ (baseURL config = openaiApiBaseUrl configured
            /\ ~ endsWithSlash (openaiApiBaseUrl configured))).
Proof.
  cbv zeta. eexists. split; [reflexivity|].
  cbn [apiKey embeddingModel baseURL openAIConfigOf].
  split; [reflexivity|]. split; [reflexivity|]. apply stripTrailingSlash_spec.
Qed.

(** ** Further properties of reconciliation *)

(** X7.  A width that is not positive is refused before anything is asked of
    the database: [checkDatabaseVectorDimensions] throws "Vector dimension
    check failed: Invalid dimension value: ..." and the world is unchanged
    (no initialization, no statement). *)
Theorem nonpositive_width_is_refused (env : Env) (dimensionsNeeded : Z) (w : World) :
  (dimensionsNeeded <= 0)%Z ->
  checkDatabaseVectorDimensions env dimensionsNeeded w
  = (Throw (ErrorWith ("Vector dimension check failed: Invalid dimension value: "
                         ++ JsString.ofZ dimensionsNeeded
                         ++ ". Must be a positive integer.")%string), w).
Proof.
  intros H. unfold checkDatabaseVectorDimensions.
  apply Z.leb_le in H. rewrite H. reflexivity.
Qed.

Lemma nonpositive_width_is_refused_witness :
  checkDatabaseVectorDimensions quietEnv 0 staleWorld
  = (Throw (ErrorWith ("Vector dimension check failed: Invalid dimension value: 0"
                         ++ ". Must be a positive integer.")%string), staleWorld).
Proof. apply (nonpositive_width_is_refused quietEnv 0 staleWorld). lia. Defined.

Lemma journal_tick (c : Call) (ok : bool) (w : World) :
  journal (tick c ok w) = journal w ++ [(c, ok)].
Proof. reflexivity. Qed.

(** What one query does to the world, whether it is rejected or not. *)
Lemma query_effects (env : Env) (q : Sql) (w : World) :
  exists ok,
    journal (snd (query env q w)) = journal w ++ [(CallQuery q, ok)]
    /\ clock (snd (query env q w)) = S (clock w)
    /\ (ok = false -> store (snd (query env q w)) = store w)
    /\ (ok = true -> store (snd (query env q w)) = execute q (store w))
    /\ (ok = true <-> queryFault env (clock w) q = None)
    /\ (forall e, fst (query env q w) = Throw e <-> queryFault env (clock w) q = Some e).
Proof.
  unfold query. destruct (queryFault env (clock w) q) as [e|].
  - exists false. cbn. repeat split; try congruence; try discriminate.
  - exists true. cbn. repeat split; try congruence; try discriminate.
Qed.

(** What detection does to the world, and when it fails. *)
Lemma detectCurrentDimensions_effects (env : Env) (w : World) :
  let r := detectCurrentDimensions env w in
  let c := clock w in
  store (snd r) = store w
  /\ (forall e, fst r = Throw e <-> queryFault env (S c) SelectAtttypmod = Some e)
  /\ (forall e, fst r = Throw e ->
        exists ok1,
          journal (snd r) = journal w ++ [(CallQuery SelectVectorTypeInfo, ok1);
                                          (CallQuery SelectAtttypmod, false)])
  /\ (forall current, fst r = Ok current ->
        exists ok1 ok3,
          journal (snd r) = journal w ++ [(CallQuery SelectVectorTypeInfo, ok1);
                                          (CallQuery SelectAtttypmod, true);
                                          (CallQuery SelectRecordDimensions, ok3)]).
Proof.
  cbv zeta. unfold detectCurrentDimensions. unfold_monad. unfold query.
  assert (Hfin : forall (o : Outcome Z) (j : list (Call * bool)) (ok1 ok3 : bool) (v : Z),
             o = Ok v ->
             j = ((journal w ++ [(CallQuery SelectVectorTypeInfo, ok1)])
                    ++ [(CallQuery SelectAtttypmod, true)])
                   ++ [(CallQuery SelectRecordDimensions, ok3)] ->
             (forall e, o = Throw e <-> @None Thrown = Some e)
             /\ (forall e, o = Throw e ->
                   exists b1,
                     j = journal w ++ [(CallQuery SelectVectorTypeInfo, b1);
                                       (CallQuery SelectAtttypmod, false)])
             /\ (forall current, o = Ok current ->
                   exists b1 b3,
                     j = journal w ++ [(CallQuery SelectVectorTypeInfo, b1);
                                       (CallQuery SelectAtttypmod, true);
                                       (CallQuery SelectRecordDimensions, b3)])).
  { intros o j ok1 ok3 v -> ->. split; [intros e; split; discriminate|].
    split; [intros e H; discriminate H|].
    intros current _. exists ok1, ok3. rewrite <- !app_assoc. reflexivity. }
  destruct (queryFault env (clock w) SelectVectorTypeInfo) as [e1|];
    cbn [clock tick withStore store journal fst snd execute];
    (destruct (queryFault env (S (clock w)) SelectAtttypmod) as [e2|];
     cbn [clock tick withStore store journal fst snd execute answer]);
    try (split; [reflexivity|]; split; [intros e; split; congruence|];
         split; [intros e _; eexists; rewrite <- app_assoc; reflexivity|];
         intros current H; discriminate H);
    (destruct (queryFault env (S (S (clock w))) SelectRecordDimensions) as [e3|];
     cbn [clock tick withStore store journal fst snd execute answer]);
    try (split; [reflexivity|]; eapply Hfin; reflexivity);
    (destruct (firstn 5 (orderByCountDesc (groupCounts (records (store w)))))
       as [|[[mostCommon ?] ?] ?];
     [|match goal with |- context [if ?b then _ else _] => destruct b end]);
    cbn [clock tick withStore store journal fst snd];
    (split; [reflexivity|]; eapply Hfin; reflexivity).
Qed.

(** *** Reading the declared width back *)

Lemma string_of_uint_span (d : Decimal.uint) (rest : string) :
  prefix ")" rest = true ->
  JsString.span JsString.isDigit (NilEmpty.string_of_uint d ++ rest)%string
  = (NilEmpty.string_of_uint d, rest).
Proof.
  intros Hrest. apply prefix_true_iff in Hrest as (post & ->).
  induction d; cbn [NilEmpty.string_of_uint append];
    try (cbn [JsString.span]; cbn [append] in IHd; rewrite IHd; reflexivity).
  reflexivity.
Qed.

Lemma substring_all (s : string) : substring 0 (String.length s) s = s.
Proof. induction s as [|c s IH]; cbn; [reflexivity | now rewrite IH]. Qed.

Lemma ofZ_positive (n : Z) :
  (0 < n)%Z ->
  exists d, JsString.ofZ n = NilEmpty.string_of_uint d
            /\ JsString.ofZ n <> ""%string
            /\ Z.of_uint d = n.
Proof.
  intros Hn. destruct n as [|p|p]; try lia.
  exists (Pos.to_uint p). unfold JsString.ofZ. cbn [Z.to_int NilZero.string_of_int].
  pose proof (DecimalPos.Unsigned.to_uint_nonnil p) as Hnil.
  assert (E : NilZero.string_of_uint (Pos.to_uint p)
              = NilEmpty.string_of_uint (Pos.to_uint p))
    by (destruct (Pos.to_uint p); [contradiction | reflexivity ..]).
  rewrite E. split; [reflexivity|]. split.
  - destruct (Pos.to_uint p); [contradiction | discriminate ..].
  - unfold Z.of_uint. now rewrite DecimalPos.Unsigned.of_to.
Qed.

(** What PostgreSQL's [format_type] prints for a column of width [n] is read
    back as [n] by the pattern [/vector\((\d+)\)/] and [parseInt]. *)
Lemma formatType_read_back (n : Z) :
  (0 < n)%Z ->
  exists digits,
    JsString.matchVectorType (formatType n) = Some digits
    /\ JsString.parseDigits digits = Some n.
Proof.
  intros Hn. destruct (ofZ_positive n Hn) as (d & Ed & Hne & Hd).
  exists (JsString.ofZ n). unfold formatType.
  destruct (Z.ltb_spec 0 n) as [_|]; [|lia]. split.
  - assert (Hhere : JsString.vectorTypeHere ("vector(" ++ JsString.ofZ n ++ ")")%string
                    = Some (JsString.ofZ n)).
    { unfold JsString.vectorTypeHere.
      assert (Hpre : prefix "vector(" ("vector(" ++ JsString.ofZ n ++ ")")%string = true)
        by (apply prefix_true_iff; eexists; reflexivity).
      rewrite Hpre.
      cbn [append String.length Nat.sub substring].
      rewrite Nat.sub_0_r, substring_all, Ed, string_of_uint_span by reflexivity.
      rewrite <- Ed. destruct (String.eqb_spec (JsString.ofZ n) ""); [contradiction|].
      reflexivity. }
    cbn [append] in Hhere |- *. cbn [JsString.matchVectorType]. now rewrite Hhere.
  - unfold JsString.parseDigits. rewrite Ed, NilEmpty.usu. cbn. now rewrite Hd.
Qed.

(** What detection finds in a database whose column has a declared
    width. *)
Lemma detectCurrentDimensions_declared (env : Env) (w : World) (n : Z) :
  (0 < n)%Z ->
  atttypmod (store w) = n ->
  queryFault env (S (clock w)) SelectAtttypmod = None ->
  exists ok1 ok3 w',
    detectCurrentDimensions env w = (Ok n, w')
    /\ store w' = store w
    /\ clock w' = S (S (S (clock w)))
    /\ journal w' = journal w ++ [(CallQuery SelectVectorTypeInfo, ok1);
                                  (CallQuery SelectAtttypmod, true);
                                  (CallQuery SelectRecordDimensions, ok3)].
Proof.
  intros Hn Hdecl Hq.
  destruct (formatType_read_back n Hn) as (digits & Em & Ep).
  assert (Hn0 : (n =? 0)%Z = false) by (apply Z.eqb_neq; lia).
  assert (Hn1 : (n =? -1)%Z = false) by (apply Z.eqb_neq; lia).
  unfold detectCurrentDimensions. unfold_monad. unfold query.
  destruct (queryFault env (clock w) SelectVectorTypeInfo) as [e1|];
    cbn [clock tick withStore store journal fst snd execute answer];
    rewrite Hq;
    cbn [clock tick withStore store journal fst snd execute answer];
    rewrite Hdecl, ?Em, ?Ep, ?Hn0, ?Hn1; cbn [Z.eqb andb];
    (destruct (queryFault env (S (S (clock w))) SelectRecordDimensions) as [e3|];
     cbn [clock tick withStore store journal fst snd execute answer]);
    try (eexists _, _, _; split; [reflexivity|];
         cbn [clock tick withStore store journal];
         rewrite <- ?app_assoc; cbn [app]; repeat split; reflexivity);
    (destruct (firstn 5 (orderByCountDesc (groupCounts (records (store w)))))
       as [|[[mostCommon ?] ?] ?]);
    rewrite ?Hn0; cbn [andb];
    (eexists _, _, _; split; [reflexivity|];
     cbn [clock tick withStore store journal];
     rewrite <- ?app_assoc; cbn [app]; repeat split; reflexivity).
Qed.

(** X8.  Detecting the current width only reads: it sends the three SELECT
    statements (type information, type modifier, record widths), in this
    order, and leaves the database as it is.  It fails exactly when the
    type-modifier query is rejected; a rejected type-information or
    record-width query is tolerated. *)
Theorem detection_only_reads (env : Env) (w : World) :
  let r := detectCurrentDimensions env w in
  let c := clock w in
  store (snd r) = store w
  /\ (forall e, fst r = Throw e <-> queryFault env (S c) SelectAtttypmod = Some e)
  /\ (forall e, fst r = Throw e ->
        exists ok1,
          journal (snd r) = journal w ++ [(CallQuery SelectVectorTypeInfo, ok1);
                                          (CallQuery SelectAtttypmod, false)])
  /\ (forall current, fst r = Ok current ->
        exists ok1 ok3,
          journal (snd r) = journal w ++ [(CallQuery SelectVectorTypeInfo, ok1);
                                          (CallQuery SelectAtttypmod, true);
                                          (CallQuery SelectRecordDimensions, ok3)]).
Proof. exact (detectCurrentDimensions_effects env w). Qed.

Lemma matchVectorType_unconstrained : JsString.matchVectorType "vector" = None.
Proof. vm_compute. reflexivity. Qed.

(** The value detection gives, whenever the type-modifier query is
    answered. *)
Lemma detectCurrentDimensions_value (env : Env) (w : World) :
  queryFault env (S (clock w)) SelectAtttypmod = None ->
  let recordsAnswered :=
    match queryFault env (S (S (clock w))) SelectRecordDimensions with
    | None => true
    | Some _ => false
    end in
  exists w',
    detectCurrentDimensions env w = (Ok (detectedWidth (store w) recordsAnswered), w')
    /\ store w' = store w
    /\ clock w' = S (S (S (clock w))).
Proof.
  intros Hq. cbv zeta.
  destruct (Z.ltb_spec 0 (atttypmod (store w))) as [Hpos|Hneg].
  - destruct (detectCurrentDimensions_declared env w _ Hpos eq_refl Hq)
      as (ok1 & ok3 & w' & E & Hs & Hc & _).
    exists w'. split; [|split; assumption]. rewrite E. do 2 f_equal.
    unfold detectedWidth, storedWidth.
    destruct (Z.eqb_spec (atttypmod (store w)) 0) as [|_]; [lia|].
    destruct (Z.ltb_spec 0 (atttypmod (store w))) as [_|]; [|lia].
    destruct (Z.eqb_spec (atttypmod (store w)) 0) as [|_]; [lia|]. cbn [andb].
    destruct (queryFault env (S (S (clock w))) SelectRecordDimensions); [reflexivity|].
    now destruct (firstn 5 (orderByCountDesc (groupCounts (records (store w)))))
      as [|[[mostCommon ?] ?] ?].
  - assert (Hf : formatType (atttypmod (store w)) = "vector"%string).
    { unfold formatType. destruct (Z.ltb_spec 0 (atttypmod (store w))); [lia | reflexivity]. }
    unfold detectCurrentDimensions. unfold_monad. unfold query.
    unfold detectedWidth, storedWidth.
    destruct (Z.ltb_spec 0 (atttypmod (store w))) as [|_]; [lia|].
    destruct (queryFault env (clock w) SelectVectorTypeInfo) as [e1|];
      cbn [clock tick withStore store journal fst snd execute answer];
      rewrite Hq;
      cbn [clock tick withStore store journal fst snd execute answer];
      rewrite ?Hf, ?matchVectorType_unconstrained; cbn [Z.eqb];
      (destruct (queryFault env (S (S (clock w))) SelectRecordDimensions) as [e3|];
       cbn [clock tick withStore store journal fst snd execute answer]);
      try (eexists; split; [reflexivity|]; split; reflexivity);
      (destruct (firstn 5 (orderByCountDesc (groupCounts (records (store w)))))
         as [|[[mostCommon ?] ?] ?];
       [|match goal with |- context [if ?b && _ then _ else _] => destruct b end;
         cbn [andb];
         try match goal with |- context [if ?b then _ else _] => destruct b end]);
      (eexists; split; [reflexivity|]; split; reflexivity).
Qed.

(** X9.  When the type-modifier query is answered, a column with a declared
    width is detected at that width, whatever the rows hold and whatever
    happens to the other two queries: the width printed by [format_type] is
    read back unchanged by the pattern [vector\((\d+)\)].  A column without
    a declared width (modifier 0 or -1) in a table without rows is detected
    as having no width, 0. *)
Theorem detection_prefers_declared_width (env : Env) (w : World) :
  queryFault env (S (clock w)) SelectAtttypmod = None ->
  let declared := atttypmod (store w) in
  let found := fst (detectCurrentDimensions env w) in
  ((0 < declared)%Z -> found = Ok declared)
  /\ (declared = 0%Z \/ declared = (-1)%Z -> records (store w) = [] -> found = Ok 0%Z).
Proof.
  intros Hq. cbv zeta. split.
  - intros Hpos.
    destruct (detectCurrentDimensions_declared env w _ Hpos eq_refl Hq)
      as (ok1 & ok3 & w' & E & _). now rewrite E.
  - intros Hd Hr.
    destruct (detectCurrentDimensions_value env w Hq) as (w' & E & _).
    rewrite E. cbn [fst]. f_equal. unfold detectedWidth, storedWidth. rewrite Hr.
    cbn [groupCounts fold_left orderByCountDesc fold_right firstn].
    destruct Hd as [-> | ->];
      now destruct (queryFault env (S (S (clock w))) SelectRecordDimensions).
Qed.

(** The database declared at width 1024 that also holds a row of width
    100. *)
Lemma detection_prefers_declared_width_witness :
  fst (detectCurrentDimensions quietEnv staleWorld) = Ok 1024%Z.
Proof.
  apply (proj1 (detection_prefers_declared_width quietEnv staleWorld eq_refl)).
  reflexivity.
Defined.

Lemma ensureInitialized_effects (env : Env) (w : World) :
  (dataSourceIsInitialized env (clock w) = true -> ensureInitialized env w = (Ok tt, w))
  /\ exists o w0, ensureInitialized env w = (o, w0) /\ store w0 = store w.
Proof.
  unfold ensureInitialized, initializeDatabase.
  destruct (dataSourceIsInitialized env (clock w)).
  - split; [reflexivity|]. now exists (Ok tt), w.
  - split; [discriminate|].
    destruct (initializeDatabaseFault env (clock w)); eexists _, _; split; reflexivity.
Qed.

(** Reconciliation when the detected width asks for nothing. *)
Lemma checkDatabaseVectorDimensions_unchanged
      (env : Env) (n current : Z) (w w0 w1 : World) :
  (0 < n)%Z ->
  ensureInitialized env w = (Ok tt, w0) ->
  detectCurrentDimensions env w0 = (Ok current, w1) ->
  needsMigration current n = false ->
  needsInitialization current = false ->
  checkDatabaseVectorDimensions env n w = (Ok tt, w1).
Proof.
  intros Hn Hi Hd Hm Hz. unfold checkDatabaseVectorDimensions.
  destruct (Z.leb_spec n 0) as [|_]; [lia|].
  apply tryCatch_Ok. rewrite (bind_Ok _ _ _ _ _ Hi), (bind_Ok _ _ _ _ _ Hd).
  now rewrite Hm, Hz.
Qed.

(** X10.  A database whose column is already declared at the width asked
    for is left alone: when the data source is initialized and the
    type-modifier query is answered, reconciliation returns normally after
    the three SELECT statements of detection, and nothing is deleted,
    altered or re-indexed. *)
Theorem matching_width_needs_no_change (env : Env) (n : Z) (w : World) :
  (0 < n)%Z ->
  atttypmod (store w) = n ->
  dataSourceIsInitialized env (clock w) = true ->
  queryFault env (S (clock w)) SelectAtttypmod = None ->
  exists ok1 ok3 w',
    checkDatabaseVectorDimensions env n w = (Ok tt, w')
    /\ store w' = store w
    /\ journal w' = journal w ++ [(CallQuery SelectVectorTypeInfo, ok1);
                                  (CallQuery SelectAtttypmod, true);
                                  (CallQuery SelectRecordDimensions, ok3)].
Proof.
  intros Hn Hdecl Hinit Hq.
  destruct (detectCurrentDimensions_declared env w n Hn Hdecl Hq)
    as (ok1 & ok3 & w' & E & Hs & _ & Hj).
  exists ok1, ok3, w'. split; [|split; assumption].
  apply (checkDatabaseVectorDimensions_unchanged env n n w w w' Hn); [|exact E| |].
  - now apply ensureInitialized_effects.
  - unfold needsMigration. rewrite Z.eqb_refl. now rewrite andb_false_r.
  - unfold needsInitialization. apply Z.eqb_neq. lia.
Qed.

Lemma matching_width_needs_no_change_witness :
  exists ok1 ok3 w',
    checkDatabaseVectorDimensions quietEnv 1536 indexedWorld = (Ok tt, w')
    /\ store w' = store indexedWorld
    /\ journal w' = journal indexedWorld
                      ++ [(CallQuery SelectVectorTypeInfo, ok1);
                          (CallQuery SelectAtttypmod, true);
                          (CallQuery SelectRecordDimensions, ok3)].
Proof.
  apply (matching_width_needs_no_change quietEnv 1536 indexedWorld); reflexivity.
Defined.

(** The two steps of the initialization of the column, in order; nothing is
    deleted. *)
Lemma initializeColumn_cases (env : Env) (required : Z) (w1 : World) :
  let alter := CallQuery (AlterEmbeddingColumn required) in
  let drop := CallQuery (DropIndexIfExists defaultIndexName) in
  (exists e,
      queryFault env (clock w1) (AlterEmbeddingColumn required) = Some e
      /\ initializeColumn env required w1 = (Throw e, tick alter false w1))
  \/
  (exists w2 dropped attempts,
      initializeColumn env required w1 = (Ok tt, w2)
      /\ journal w2 = journal w1 ++ [(alter, true); (drop, dropped)] ++ attempts
      /\ Forall (fun ev => isCreateIndex (fst ev) = true) attempts
      /\ atttypmod (store w2) = required
      /\ records (store w2) = records (store w1)).
Proof.
  cbv zeta. unfold initializeColumn.
  destruct (queryFault env (clock w1) (AlterEmbeddingColumn required)) as [e|] eqn:Ea.
  - left. exists e. split; [reflexivity|].
    unfold_monad. now rewrite (query_fail _ _ _ _ Ea).
  - right.
    pose (wa := withStore (execute (AlterEmbeddingColumn required) (store w1))
                          (tick (CallQuery (AlterEmbeddingColumn required)) true w1)).
    destruct (createVectorIndex_effects env required wa)
      as (result & w2 & dropped & attempts & E & Hj & Hc & _ & Ht & Hr).
    exists w2, dropped, attempts.
    split; [unfold_monad; rewrite (query_ok _ _ _ Ea); fold wa; now rewrite E|].
    cbn [journal store atttypmod records execute tick withStore clock wa] in Hj, Ht, Hr.
    split; [rewrite Hj, <- !app_assoc; reflexivity|].
    repeat split; assumption.
Qed.

(** What a reconciliation that returned normally leaves behind: a column
    declared at the width asked for, or the database as it was, found at a
    width that asks for nothing. *)
Lemma checkDatabaseVectorDimensions_returned (env : Env) (n : Z) (w w1 : World) :
  (0 < n)%Z ->
  checkDatabaseVectorDimensions env n w = (Ok tt, w1) ->
  atttypmod (store w1) = n
  \/ (store w1 = store w
      /\ exists recordsAnswered,
           needsMigration (detectedWidth (store w) recordsAnswered) n = false
           /\ needsInitialization (detectedWidth (store w) recordsAnswered) = false).
Proof.
  intros Hn. unfold checkDatabaseVectorDimensions.
  destruct (Z.leb_spec n 0) as [|_]; [lia|].
  unfold tryCatch at 1. unfold bind at 1.
  destruct (ensureInitialized_effects env w) as [_ (o & w0 & Ei & Hs0)]. rewrite Ei.
  destruct o as [[]|e]; [|discriminate].
  unfold bind at 1.
  destruct (queryFault env (S (clock w0)) SelectAtttypmod) as [e|] eqn:Eq.
  { pose proof (detectCurrentDimensions_effects env w0) as (_ & Hthrow & _).
    cbv zeta in Hthrow. apply Hthrow in Eq.
    destruct (detectCurrentDimensions env w0) as [[c|e'] wd]; cbn [fst] in Eq;
      [discriminate Eq | discriminate]. }
  destruct (detectCurrentDimensions_value env w0 Eq) as (wd & Ed & Hsd & _).
  rewrite Ed.
  set (current := detectedWidth (store w0) _) in *.
  destruct (needsMigration current n) eqn:Em.
  - destruct (migrate_effects env n wd)
      as [(e & w2 & E & _) | (w2 & dropped & attempts & E & _ & _ & _ & _ & _ & _ & Ht)];
      cbv zeta in E; rewrite E; [discriminate|].
    intros H. injection H as <-. now left.
  - destruct (needsInitialization current) eqn:Ez.
    + destruct (initializeColumn_cases env n wd)
        as [(e & _ & E) | (w2 & dropped & attempts & E & _ & _ & Ht & _)];
        cbv zeta in E; rewrite E; [discriminate|].
      intros H. injection H as <-. now left.
    + intros H. injection H as <-. right. split; [congruence|].
      rewrite <- Hs0. eexists. split; [exact Em | exact Ez].
Qed.

(** X11.  Reconciliation is idempotent.  After a reconciliation for a width
    that returned normally, a second one for the same width changes nothing
    in the database (no DELETE, no ALTER, no index statement), provided the
    second one finds the data source initialized and its type-modifier and
    record-width queries are answered. *)
Theorem reconciliation_is_idempotent (env : Env) (n : Z) (w w1 : World) :
  (0 < n)%Z ->
  checkDatabaseVectorDimensions env n w = (Ok tt, w1) ->
  dataSourceIsInitialized env (clock w1) = true ->
  queryFault env (S (clock w1)) SelectAtttypmod = None ->
  queryFault env (S (S (clock w1))) SelectRecordDimensions = None ->
  exists w2,
    checkDatabaseVectorDimensions env n w1 = (Ok tt, w2)
    /\ store w2 = store w1
    /\ Forall (fun ev => isSelect (fst ev) = true)
              (skipn (length (journal w1)) (journal w2)).
Proof.
  intros Hn Hfirst Hinit Hq Hr.
  assert (Hi : ensureInitialized env w1 = (Ok tt, w1))
    by now apply ensureInitialized_effects.
  pose proof (detectCurrentDimensions_effects env w1) as (_ & _ & _ & Hj).
  cbv zeta in Hj.
  destruct (detectCurrentDimensions_value env w1 Hq) as (w2 & Ed & Hs & _).
  cbv zeta in Ed. rewrite Hr in Ed.
  exists w2.
  assert (Hjournal : Forall (fun ev => isSelect (fst ev) = true)
                            (skipn (length (journal w1)) (journal w2))).
  { rewrite Ed in Hj. cbn [fst snd] in Hj. destruct (Hj _ eq_refl) as (ok1 & ok3 & ->).
    rewrite skipn_app, skipn_all, Nat.sub_diag. cbn [app skipn].
    repeat constructor. }
  split; [|split; assumption].
  apply (checkDatabaseVectorDimensions_unchanged env n _ w1 w1 w2 Hn Hi Ed).
  - destruct (checkDatabaseVectorDimensions_returned env n w w1 Hn Hfirst)
      as [Hdecl | (Hsame & b & Hm & Hz)].
    + unfold detectedWidth, storedWidth. rewrite Hdecl.
      destruct (Z.eqb_spec n 0) as [|_]; [lia|].
      destruct (Z.ltb_spec 0 n) as [_|]; [|lia].
      destruct (Z.eqb_spec n 0) as [|_]; [lia|]. cbn [andb].
      assert (Hnn : needsMigration n n = false)
        by (unfold needsMigration; rewrite Z.eqb_refl; apply andb_false_r).
      now destruct (firstn 5 (orderByCountDesc (groupCounts (records (store w1)))))
        as [|[[mostCommon ?] ?] ?].
    + rewrite Hsame. destruct b; [exact Hm|].
      unfold detectedWidth in *. unfold needsInitialization in Hz.
      destruct (firstn 5 (orderByCountDesc (groupCounts (records (store w)))))
        as [|[[mostCommon ?] ?] ?]; [exact Hm|].
      rewrite Hz. exact Hm.
  - destruct (checkDatabaseVectorDimensions_returned env n w w1 Hn Hfirst)
      as [Hdecl | (Hsame & b & Hm & Hz)].
    + unfold detectedWidth, storedWidth, needsInitialization. rewrite Hdecl.
      destruct (Z.eqb_spec n 0) as [|_]; [lia|].
      destruct (Z.ltb_spec 0 n) as [_|]; [|lia].
      destruct (Z.eqb_spec n 0) as [|_]; [lia|]. cbn [andb].
      destruct (firstn 5 (orderByCountDesc (groupCounts (records (store w1)))))
        as [|[[mostCommon ?] ?] ?]; apply Z.eqb_neq; lia.
    + rewrite Hsame. destruct b; [exact Hz|].
      unfold detectedWidth in *. unfold needsInitialization in Hz.
      destruct (firstn 5 (orderByCountDesc (groupCounts (records (store w)))))
        as [|[[mostCommon ?] ?] ?]; [exact Hz|].
      rewrite Hz. exact Hz.
Qed.

(** Migrating the database declared at 1024 to the width 1536, twice. *)
Lemma reconciliation_is_idempotent_witness :
  exists w1 w2,
    checkDatabaseVectorDimensions quietEnv 1536 staleWorld = (Ok tt, w1)
    /\ atttypmod (store w1) = 1536%Z
    /\ checkDatabaseVectorDimensions quietEnv 1536 w1 = (Ok tt, w2)
    /\ store w2 = store w1.
Proof.
  eexists.
  assert (Hfirst : checkDatabaseVectorDimensions quietEnv 1536 staleWorld = (Ok tt, _))
    by (vm_compute; reflexivity).
  destruct (reconciliation_is_idempotent quietEnv 1536 staleWorld _ eq_refl Hfirst
              eq_refl eq_refl eq_refl) as (w2 & E & Hs & _).
  exists w2. split; [exact Hfirst|]. split; [reflexivity|]. split; assumption.
Defined.

(** X12.  When detection finds no width at all (0), reconciliation
    initializes the column without deleting anything: the only statements
    after detection are the ALTER, then DROP INDEX and the CREATE INDEX
    attempts; the rows stay as they are; the column ends declared at the
    width asked for.  If the ALTER is rejected, reconciliation throws with
    the database unchanged. *)
Theorem initialization_deletes_nothing (env : Env) (n : Z) (w w1 : World) :
  (0 < n)%Z ->
  bind (ensureInitialized env) (fun _ => detectCurrentDimensions env) w = (Ok 0%Z, w1) ->
  let alter := CallQuery (AlterEmbeddingColumn n) in
  let drop := CallQuery (DropIndexIfExists defaultIndexName) in
  exists o w2,
    checkDatabaseVectorDimensions env n w = (o, w2)
    /\ records (store w2) = records (store w1)
    /\ Forall (fun ev => isDelete (fst ev) = false)
              (skipn (length (journal w1)) (journal w2))
    /\ ((exists e, o = Throw e /\ store w2 = store w1
                   /\ journal w2 = journal w1 ++ [(alter, false)])
        \/ (o = Ok tt /\ atttypmod (store w2) = n
            /\ exists dropped attempts,
                 journal w2 = journal w1 ++ [(alter, true); (drop, dropped)] ++ attempts
                 /\ Forall (fun ev => isCreateIndex (fst ev) = true) attempts)).
Proof.
  intros Hn Hpre. cbv zeta.
  assert (Hcheck : checkDatabaseVectorDimensions env n w
                   = tryCatch (initializeColumn env n)
                       (fun error => throw (ErrorWith ("Vector dimension check failed: "
                                                         ++ messageOrUnknown error)%string))
                       w1).
  { unfold checkDatabaseVectorDimensions.
    destruct (Z.leb_spec n 0) as [|_]; [lia|].
    unfold tryCatch at 1.
    rewrite <- (bind_assoc (ensureInitialized env) (fun _ => detectCurrentDimensions env)).
    rewrite (bind_Ok _ _ _ _ _ Hpre). reflexivity. }
  rewrite Hcheck.
  destruct (initializeColumn_cases env n w1)
    as [(e & _ & E) | (w2 & dropped & attempts & E & Hj & Hc & Ht & Hr)]; cbv zeta in *.
  - rewrite (tryCatch_Throw _ _ _ _ _ E). eexists _, _. split; [reflexivity|].
    cbn [store journal tick].
    split; [reflexivity|]. split.
    + rewrite skipn_app, skipn_all, Nat.sub_diag. cbn [app skipn]. repeat constructor.
    + left. eexists. repeat split; reflexivity.
  - rewrite (tryCatch_Ok _ _ _ _ _ E). exists (Ok tt), w2. split; [reflexivity|].
    split; [exact Hr|]. split.
    + rewrite Hj, skipn_app, skipn_all, Nat.sub_diag. cbn [app skipn].
      constructor; [reflexivity|]. constructor; [reflexivity|].
      apply Forall_forall. intros ev Hev.
      apply (proj1 (Forall_forall _ _) Hc) in Hev.
      destruct ev as [[q| | | | | |] ok]; try discriminate Hev.
      now destruct q.
    + right. split; [reflexivity|]. split; [exact Ht|].
      exists dropped, attempts. split; assumption.
Qed.

(** A database without declared width and without rows. *)
Lemma initialization_deletes_nothing_witness :
  exists w1 o w2,
    bind (ensureInitialized quietEnv) (fun _ => detectCurrentDimensions quietEnv) emptyWorld
    = (Ok 0%Z, w1)
    /\ checkDatabaseVectorDimensions quietEnv 1536 emptyWorld = (o, w2)
    /\ records (store w2) = records (store w1)
    /\ Forall (fun ev => isDelete (fst ev) = false)
              (skipn (length (journal w1)) (journal w2)).
Proof.
  eexists.
  assert (Hpre : bind (ensureInitialized quietEnv)
                      (fun _ => detectCurrentDimensions quietEnv) emptyWorld
                 = (Ok 0%Z, _)) by (vm_compute; reflexivity).
  destruct (initialization_deletes_nothing quietEnv 1536 emptyWorld _ eq_refl Hpre)
    as (o & w2 & E & Hr & Hd & _).
  exists o, w2. split; [exact Hpre|]. split; [exact E|]. split; [exact Hr | exact Hd].
Defined.

(** X13.  [clearMismatchedVectorData] sends one DELETE.  When it is
    answered, exactly the rows of the expected width remain, in their order,
    and the declared width and the indexes are untouched; when it is
    rejected, the very same error is thrown on (it is not wrapped) and the
    database is unchanged. *)
Theorem clearMismatchedVectorData_exact (env : Env) (expected : Z) (w : World) :
  let delete := CallQuery (DeleteMismatched expected) in
  let r := clearMismatchedVectorData env expected w in
  journal (snd r) = journal w
                      ++ [(delete, match fst r with Ok _ => true | Throw _ => false end)]
  /\ atttypmod (store (snd r)) = atttypmod (store w)
  /\ indexes (store (snd r)) = indexes (store w)
  /\ (forall e, fst r = Throw e <->
                queryFault env (clock w) (DeleteMismatched expected) = Some e)
  /\ (forall e, fst r = Throw e -> store (snd r) = store w)
  /\ (fst r = Ok tt ->
      records (store (snd r))
      = filter (fun x => Z.eqb (recordDimensions x) expected) (records (store w))
      /\ forall x, In x (records (store (snd r)))
                   <-> In x (records (store w)) /\ recordDimensions x = expected).
Proof.
  cbv zeta. unfold clearMismatchedVectorData. unfold_monad. unfold query.
  destruct (queryFault env (clock w) (DeleteMismatched expected)) as [e|];
    cbn [fst snd journal store tick withStore execute atttypmod indexes records].
  - repeat split; try congruence; try discriminate.
  - split; [reflexivity|]. split; [reflexivity|]. split; [reflexivity|].
    split; [intros e; split; discriminate|]. split; [discriminate|].
    intros _. split; [reflexivity|]. intros x. rewrite filter_In, Z.eqb_eq. tauto.
Qed.

(** ** Further properties of the save batch *)

(** X14.  A batch with nothing to do touches nothing: without tools the
    call returns at once with the world as it was (not even the
    configuration is read); with smart routing disabled it returns after
    reading the configuration, without any call to the database, the
    embedding transport or the repository. *)
Theorem idle_batch_touches_nothing
        (env : Env) (generate : string -> M (option (list R)))
        (serverName : string) (tools : list Tool.t) (w : World) :
  (tools = [] ->
   saveToolsAsVectorEmbeddingsWith env generate serverName tools w = (Ok tt, w))
  /\ (enabled (smartRoutingConfig env (clock w)) = false ->
      exists w',
        saveToolsAsVectorEmbeddingsWith env generate serverName tools w = (Ok tt, w')
        /\ store w' = store w /\ journal w' = journal w).
Proof.
  split.
  - intros ->. reflexivity.
  - intros Hoff.
    unfold saveToolsAsVectorEmbeddingsWith, saveToolsBody, batchPreamble,
      getSmartRoutingConfig.
    destruct tools as [|tool tools]; [exists w; repeat split|].
    cbn [length Nat.eqb]. unfold_monad. rewrite Hoff. cbn [negb].
    exists (advance w). repeat split.
Qed.

(** X15.  Every tool of the batch is counted once, as a success or as a
    failure: the loop over the tools returns normally for every generator
    and every behaviour of the repository, and its two counters add up to
    the number of tools. *)
Theorem every_tool_is_counted
        (env : Env) (generate : string -> M (option (list R)))
        (serverName : string) (config : OpenAIConfig) (n : nat)
        (tools : list Tool.t) (counts : nat * nat) (w : World) :
  exists successCount failureCount w',
    forEachTool env generate serverName config n tools counts w
    = (Ok (successCount, failureCount), w')
    /\ (successCount + failureCount = fst counts + snd counts + length tools)%nat
    /\ (fst counts <= successCount)%nat
    /\ (snd counts <= failureCount)%nat.
Proof.
  revert counts w. induction tools as [|tool tools IH]; intros [s f] w; cbn [forEachTool].
  - exists s, f, w. cbn. repeat split; lia.
  - destruct (processTool_total env generate serverName config n tool w) as (saved & w1 & E).
    rewrite (bind_Ok _ _ _ _ _ E).
    destruct (IH (if saved then (S (fst (s, f)), snd (s, f))
                  else (fst (s, f), S (snd (s, f)))) w1)
      as (s' & f' & w' & E' & Hsum & Hs & Hf).
    exists s', f', w'. split; [exact E'|].
    destruct saved; cbn [fst snd length] in *; repeat split; lia.
Qed.



(** ** Further properties of search, listing and removal *)

(** X17.  Search and listing agree on rows with usable metadata: for such a
    row the entry of [getAllVectorizedTools] carries the server and tool
    names that the hit of [searchToolsByVector] carries, both read from the
    metadata and not from the text; the hit's description and schema are
    the entry's, with the defaults '' and {} that only the search applies
    when they are falsy. *)
Theorem search_and_listing_agree (env : Env) (row : SearchRow) :
  usableMetadata env row ->
  let hit := transformSearchRow env row in
  exists info e,
    transformListedRow env row = Ok info
    /\ embedding row = Some e
    /\ Hit.serverName hit = ToolInfo.serverName info
    /\ Hit.toolName hit = ToolInfo.toolName info
    /\ isTruthy (Hit.serverName hit) = true
    /\ isTruthy (Hit.toolName hit) = true
    /\ Hit.description hit = orElse (ToolInfo.description info) (JString "")
    /\ Hit.inputSchema hit = orElse (ToolInfo.inputSchema info) (JObject [])
    /\ Hit.similarity hit = similarity row
    /\ Hit.searchableText hit = text_content e.
Proof.
  intros (e & s & parsed & serverName & toolName
          & He & Hm & Hs & Hp & Hsn & Htn & Hts & Htt).
  cbv zeta. unfold transformSearchRow, structuredHit, transformListedRow.
  rewrite He, Hm, Hp, Hsn, Htn, Hts, Htt.
  destruct (String.eqb_spec s "") as [|_]; [contradiction|]. cbn [andb].
  eexists _, e. split; [reflexivity|]. split; [reflexivity|].
  cbn [Hit.serverName Hit.toolName Hit.description Hit.inputSchema Hit.similarity
       Hit.searchableText ToolInfo.serverName ToolInfo.toolName ToolInfo.description
       ToolInfo.inputSchema].
  unfold propOf at 1. rewrite Htn. repeat split; assumption.
Qed.

(** The first of the sample rows. *)
Lemma search_and_listing_agree_witness :
  let row := nth 0 sampleRows (mkSearchRow 0%R None) in
  exists info,
    transformListedRow sampleSearchEnv row = Ok info
    /\ Hit.serverName (transformSearchRow sampleSearchEnv row) = ToolInfo.serverName info
    /\ Hit.toolName (transformSearchRow sampleSearchEnv row) = ToolInfo.toolName info.
Proof.
  cbv zeta.
  assert (Husable : usableMetadata sampleSearchEnv (nth 0 sampleRows (mkSearchRow 0%R None))).
  { eexists _, _, _, _, _. split; [reflexivity|]. split; [reflexivity|].
    split; [discriminate|]. split; [vm_compute; reflexivity|].
    split; [reflexivity|]. split; [reflexivity|]. split; reflexivity. }
  destruct (search_and_listing_agree sampleSearchEnv _ Husable)
    as (info & e & E & _ & Hs & Ht & _).
  exists info. repeat split; assumption.
Defined.

(** X18.  Without a filter (no list of server names, or an empty one) a
    search that the repository answers gives one hit per row, in the order
    of the rows: nothing is dropped, whatever the metadata of a row are and
    even if it has no [embedding] at all.  The repository is asked once,
    with the query, the limit and the threshold as given. *)
Theorem unfiltered_search_keeps_every_row
        (env : Env) (queryText : string) (limit : Z) (threshold : R)
        (serverNames : option (list string)) (rows : list SearchRow) (w : World) :
  serverNames = None \/ serverNames = Some [] ->
  repositoryFactoryFault env (clock w) = None ->
  searchByTextResult env (clock w) queryText limit threshold = Ok rows ->
  exists hits,
    searchToolsByVector env queryText limit threshold serverNames w
    = (Ok hits, tick (CallSearchByText queryText) true w)
    /\ hits = map (transformSearchRow env) rows
    /\ length hits = length rows.
Proof.
  intros Hnames Hrepo Hrows.
  exists (map (transformSearchRow env) rows).
  split; [|split; [reflexivity | apply length_map]].
  unfold searchToolsByVector, searchToolsBody, getVectorRepository, searchByText.
  unfold_monad. rewrite Hrepo, Hrows.
  destruct Hnames as [-> | ->]; reflexivity.
Qed.

Lemma unfiltered_search_keeps_every_row_witness :
  exists hits w',
    searchToolsByVector sampleSearchEnv "list" 10 (7 / 10)%R None emptyWorld = (Ok hits, w')
    /\ length hits = 4.
Proof.
  destruct (unfiltered_search_keeps_every_row sampleSearchEnv "list" 10 (7 / 10)%R None
              sampleRows emptyWorld (or_introl eq_refl) eq_refl eq_refl)
    as (hits & E & _ & Hlen).
  exists hits, (tick (CallSearchByText "list") true emptyWorld).
  split; assumption.
Defined.

Lemma serverNameAllowed_complete (env : Env) (serverNames : list string) (row : SearchRow) :
  allowedMetadata env serverNames row -> serverNameAllowed env serverNames row = Ok true.
Proof.
  intros (e & s & parsed & v & He & Hm & Hp & Hv & Hin).
  unfold serverNameAllowed. rewrite He, Hm, Hp, Hv. cbn [includesValue]. f_equal.
  apply existsb_exists. exists v. split; [exact Hin | apply String.eqb_refl].
Qed.

Lemma serverNameAllowed_total (env : Env) (serverNames : list string) (row : SearchRow) :
  hasEmbedding row -> exists keep, serverNameAllowed env serverNames row = Ok keep.
Proof.
  unfold hasEmbedding, serverNameAllowed. intros H.
  destruct (embedding row) as [e|]; [|contradiction].
  destruct (metadata e); try (eexists; reflexivity).
  destruct (JSON_parse env s) as [parsed|]; [|eexists; reflexivity].
  destruct (getProp parsed "serverName"); eexists; reflexivity.
Qed.

Lemma filterRows_complete (env : Env) (serverNames : list string) (rows : list SearchRow) :
  Forall hasEmbedding rows ->
  exists keep,
    filterRows env serverNames rows = Ok (filter keep rows)
    /\ forall r, In r rows -> allowedMetadata env serverNames r -> keep r = true.
Proof.
  intros Hall.
  exists (fun r => match serverNameAllowed env serverNames r with
                   | Ok b => b
                   | Throw _ => false
                   end).
  split.
  - induction Hall as [|row rows Hrow Hall IH]; [reflexivity|].
    cbn [filterRows filter].
    destruct (serverNameAllowed_total env serverNames row Hrow) as (keep & ->).
    now rewrite IH.
  - intros r _ Ha. now rewrite (serverNameAllowed_complete env serverNames r Ha).
Qed.

(** X19.  Filtering by server names is complete and keeps the order: when
    every row that the repository gives has an [embedding], the hits are
    those of a sub-sequence of the rows that contains every row whose
    metadata name an allowed server (and, by C10, no other row). *)
Theorem filtered_search_is_complete
        (env : Env) (queryText : string) (limit : Z) (threshold : R)
        (name : string) (names : list string) (rows : list SearchRow) (w : World) :
  repositoryFactoryFault env (clock w) = None ->
  searchByTextResult env (clock w) queryText limit threshold = Ok rows ->
  Forall hasEmbedding rows ->
  exists keep,
    searchToolsByVector env queryText limit threshold (Some (name :: names)) w
    = (Ok (map (transformSearchRow env) (filter keep rows)),
       tick (CallSearchByText queryText) true w)
    /\ forall r, In r rows ->
                 (In r (filter keep rows) <-> allowedMetadata env (name :: names) r).
Proof.
  intros Hrepo Hrows Hall.
  destruct (filterRows_complete env (name :: names) rows Hall) as (keep & Ef & Hkeep).
  exists keep. split.
  - unfold searchToolsByVector, searchToolsBody, getVectorRepository, searchByText.
    unfold_monad. rewrite Hrepo, Hrows. cbn [filterByServerNames]. now rewrite Ef.
  - intros r Hr. split.
    + intros Hin. now destruct (filterRows_sound _ _ _ _ Ef r Hin).
    + intros Ha. apply filter_In. split; [exact Hr | now apply Hkeep].
Qed.

Lemma filtered_search_is_complete_witness :
  exists keep w',
    searchToolsByVector sampleSearchEnv "list" 10 (7 / 10)%R (Some ["b"%string]) emptyWorld
    = (Ok (map (transformSearchRow sampleSearchEnv) (filter keep sampleRows)), w')
    /\ forall r, In r sampleRows ->
                 (In r (filter keep sampleRows)
                  <-> allowedMetadata sampleSearchEnv ["b"%string] r).
Proof.
  assert (Hall : Forall hasEmbedding sampleRows)
    by (repeat constructor; discriminate).
  destruct (filtered_search_is_complete sampleSearchEnv "list" 10 (7 / 10)%R
              "b"%string [] sampleRows emptyWorld eq_refl eq_refl Hall)
    as (keep & E & H).
  exists keep, (tick (CallSearchByText "list") true emptyWorld).
  split; assumption.
Defined.

(** X20.  Listing drops no row: when every row has an [embedding], the
    transformation of [getAllVectorizedTools] gives one entry per row, in
    order, and the entry of a row whose metadata are not a string or do not
    parse is the placeholder (server and tool "unknown", empty description,
    empty schema). *)
Theorem listing_keeps_unreadable_rows (env : Env) (rows : list SearchRow) :
  Forall hasEmbedding rows ->
  exists infos,
    mapRows (transformListedRow env) rows = Ok infos
    /\ length infos = length rows
    /\ forall i row, nth_error rows i = Some row ->
                     unreadableMetadata env row ->
                     nth_error infos i = Some ToolInfo.unknown.
Proof.
  intros Hall. induction Hall as [|row rows Hrow Hall IH].
  - exists []. split; [reflexivity|]. split; [reflexivity|].
    intros [|i] r H; discriminate H.
  - destruct IH as (infos & E & Hlen & Hnth).
    assert (Hone : exists info,
               transformListedRow env row = Ok info
               /\ (unreadableMetadata env row -> info = ToolInfo.unknown)).
    { unfold hasEmbedding in Hrow. unfold transformListedRow, unreadableMetadata.
      destruct (embedding row) as [e|]; [|contradiction].
      destruct (metadata e); try (eexists; split; reflexivity).
      destruct (JSON_parse env s) as [parsed|]; [|eexists; split; reflexivity].
      destruct (getProp parsed "serverName");
        eexists; (split; [reflexivity | discriminate]). }
    destruct Hone as (info & Einfo & Hunknown).
    exists (info :: infos). cbn [mapRows]. rewrite Einfo, E.
    split; [reflexivity|]. split; [cbn; now rewrite Hlen|].
    intros [|i] r Hr Hu; cbn [nth_error] in *.
    + injection Hr as <-. now rewrite (Hunknown Hu).
    + now apply (Hnth i r).
Qed.

Lemma listing_keeps_unreadable_rows_witness :
  exists infos,
    mapRows (transformListedRow sampleSearchEnv) sampleRows = Ok infos
    /\ length infos = 4
    /\ nth_error infos 1 = Some ToolInfo.unknown
    /\ nth_error infos 2 = Some ToolInfo.unknown.
Proof.
  assert (Hall : Forall hasEmbedding sampleRows)
    by (repeat constructor; discriminate).
  destruct (listing_keeps_unreadable_rows sampleSearchEnv sampleRows Hall)
    as (infos & E & Hlen & Hnth).
  exists infos. split; [exact E|]. split; [exact Hlen|]. split.
  - apply (Hnth 1 _ eq_refl). vm_compute. reflexivity.
  - apply (Hnth 2 _ eq_refl). exact I.
Defined.

(** X21.  The width of the zero vector with which [getAllVectorizedTools]
    asks the repository for every row: the type modifier of the column when
    the query for it is answered with a value other than 0 and -1, and the
    width of the configured model in every other case (query rejected,
    modifier 0 or -1).  Finding it never fails and changes nothing in the
    database. *)
Theorem listing_probe_width (env : Env) (config : OpenAIConfig) (w : World) :
  let declared := atttypmod (store w) in
  let fromModel := getDimensionsForModel (embeddingModel config) in
  let answered :=
    match queryFault env (clock w) SelectAtttypmod with
    | None => true
    | Some _ => false
    end in
  exists width w',
    dimensionsToUse env config w = (Ok width, w')
    /\ store w' = store w
    /\ journal w' = journal w ++ [(CallQuery SelectAtttypmod, answered)]
    /\ width = (if answered && negb (declared =? 0)%Z && negb (declared =? -1)%Z
                then declared else fromModel).
Proof.
  cbv zeta. unfold dimensionsToUse. unfold_monad. unfold query.
  destruct (queryFault env (clock w) SelectAtttypmod) as [e|];
    cbn [answer execute store journal tick withStore andb].
  - eexists _, _. repeat split.
  - destruct (atttypmod (store w) =? 0)%Z; cbn [negb andb];
      [eexists _, _; repeat split|].
    destruct (atttypmod (store w) =? -1)%Z; cbn [negb andb]; eexists _, _; repeat split.
Qed.

(** X22.  Removal does nothing when there is no database to speak of: if
    the database is not connected and neither the configuration nor the
    environment names one, [removeServerToolEmbeddings] returns after
    reading the configuration, without initializing a connection and
    without asking the repository to delete anything.  When the database is
    connected and the repository is available, the repository is asked
    exactly once, for that server. *)
Theorem removal_needs_a_database (env : Env) (serverName : string) (w : World) :
  (isDatabaseConnected env (clock w) = false ->
   dbUrl (smartRoutingConfig env (clock w)) = ""%string ->
   processEnvDbUrl env = ""%string ->
   removeServerToolEmbeddings env serverName w = (Ok tt, advance w))
  /\ (isDatabaseConnected env (clock w) = true ->
      repositoryFactoryFault env (clock w) = None ->
      exists ok w',
        removeServerToolEmbeddings env serverName w = (Ok tt, w')
        /\ journal w' = journal w ++ [(CallDeleteByServerName serverName, ok)]
        /\ (ok = false -> store w' = store w)).
Proof.
  unfold removeServerToolEmbeddings, removeServerToolEmbeddingsBody, getSmartRoutingConfig,
    getVectorRepository, deleteByServerName.
  split.
  - intros Hc Hu Hp. unfold_monad. rewrite Hc, Hu, Hp. reflexivity.
  - intros Hc Hr. unfold_monad. rewrite Hc, Hr.
    destruct (deleteByServerNameFault env (clock w) serverName) as [e|].
    + eexists false, _. repeat split.
    + eexists true, _. split; [reflexivity|]. split; [reflexivity | discriminate].
Qed.

(** ** The text that is embedded for a tool *)

Lemma join_mentions (sep x : string) (l : list string) :
  In x l -> exists pre post, JsString.join sep l = (pre ++ x ++ post)%string.
Proof.
  induction l as [|y l IH]; [contradiction|].
  intros [->|Hin].
  - destruct l as [|z l].
    + exists ""%string, ""%string. cbn. now rewrite append_nil_r.
    + exists ""%string, (sep ++ JsString.join sep (z :: l))%string. reflexivity.
  - destruct (IH Hin) as (pre & post & E).
    destruct l as [|z l]; [contradiction|].
    exists (y ++ sep ++ pre)%string, post.
    change (JsString.join sep (y :: z :: l))
      with (y ++ sep ++ JsString.join sep (z :: l))%string.
    rewrite E. now rewrite !append_assoc.
Qed.

(** X23.  The text embedded for a tool mentions the tool: its name, its
    description, every key of its schema other than "type" and
    "properties", and the name of every property of the schema occur in
    it, whenever they are not empty. *)
Theorem searchable_text_mentions_the_tool (tool : Tool.t) :
  let text := searchableTextOf tool in
  (Tool.name tool <> ""%string -> JsString.includes text (Tool.name tool) = true)
  /\ (Tool.description tool <> ""%string ->
      JsString.includes text (Tool.description tool) = true)
  /\ (forall fields key,
        Tool.inputSchema tool = JObject fields ->
        In key (map fst fields) ->
        key <> "type"%string -> key <> "properties"%string -> key <> ""%string ->
        JsString.includes text key = true)
  /\ (forall fields properties property,
        Tool.inputSchema tool = JObject fields ->
        lookupField fields "properties" = JObject properties ->
        In property (map fst properties) -> property <> ""%string ->
        JsString.includes text property = true).
Proof.
  cbv zeta.
  assert (Hin : forall piece pieces,
             In piece pieces -> piece <> ""%string ->
             JsString.includes
               (JsString.join " " (filter (fun s => negb (String.eqb s "")) pieces))
               piece = true).
  { intros piece pieces Hp Hne. apply includes_true_iff, join_mentions.
    apply filter_In. split; [exact Hp|].
    now destruct (String.eqb_spec piece ""). }
  unfold searchableTextOf.
  split; [intros Hne; apply Hin; [now left | exact Hne]|].
  split; [intros Hne; apply Hin; [right; now left | exact Hne]|].
  split.
  - intros fields key Hs Hk Ht Hp Hne. apply Hin; [|exact Hne].
    rewrite Hs. cbn [isTruthy typeofObject andb objectKeys].
    apply in_or_app. right. apply in_or_app. left. apply filter_In. split; [exact Hk|].
    destruct (String.eqb_spec key "type"); [contradiction|].
    now destruct (String.eqb_spec key "properties").
  - intros fields properties property Hs Hl Hk Hne. apply Hin; [|exact Hne].
    rewrite Hs. cbn [isTruthy typeofObject andb objectKeys getProp]. rewrite Hl.
    cbn [isTruthy typeofObject andb objectKeys].
    apply in_or_app. right. apply in_or_app. now right.
Qed.

(** ** Synchronization of all servers *)

Lemma syncServers_total
      (env : Env) (servers : list ServerInfo.t) (counts : nat * nat) (w : World) :
  exists w',
    syncServers env servers counts w
    = (Ok ((fst counts + length (flat_map toolsToSync servers))%nat,
           (snd counts + length (filter (fun server =>
                                           negb (length (toolsToSync server) =? 0))
                                        servers))%nat), w')
    /\ (flat_map toolsToSync servers = [] -> w' = w).
Proof.
  revert counts w. induction servers as [|server rest IH]; intros [total synced] w.
  - exists w. cbn. rewrite !Nat.add_0_r. split; reflexivity.
  - cbn [syncServers flat_map filter].
    destruct (String.eqb (ServerInfo.status server) "connected") eqn:Es.
    + destruct (ServerInfo.tools server) as [[|tool others]|] eqn:Et.
      * assert (Hts : toolsToSync server = [])
          by (unfold toolsToSync; now rewrite Es, Et).
        rewrite Hts. cbn [app length Nat.eqb negb]. apply IH.
      * assert (Hts : toolsToSync server = tool :: others)
          by (unfold toolsToSync; now rewrite Es, Et).
        rewrite Hts.
        pose proof (saveToolsAsVectorEmbeddingsWith_returns
                      env (generateEmbeddingArray env) (ServerInfo.name server)
                      (tool :: others) w) as E.
        fold (saveToolsAsVectorEmbeddings env (ServerInfo.name server) (tool :: others)) in E.
        set (w1 := snd (saveToolsBody env (generateEmbeddingArray env)
                                      (ServerInfo.name server) (tool :: others) w)) in E.
        rewrite (bind_Ok _ _ w w1 ((fst (total, synced) + length (tool :: others))%nat,
                                   S (snd (total, synced))))
          by (apply tryCatch_Ok; now rewrite (bind_Ok _ _ _ _ _ E)).
        destruct (IH ((fst (total, synced) + length (tool :: others))%nat,
                      S (snd (total, synced))) w1) as (w' & E' & _).
        exists w'. split; [|discriminate].
        rewrite E'. cbn [fst snd length app Nat.eqb negb].
        rewrite length_app. cbn [length]. do 3 f_equal; lia.
      * assert (Hts : toolsToSync server = [])
          by (unfold toolsToSync; now rewrite Es, Et).
        rewrite Hts. cbn [app length Nat.eqb negb]. apply IH.
    + assert (Hts : toolsToSync server = [])
        by (unfold toolsToSync; now rewrite Es).
      rewrite Hts. cbn [app length Nat.eqb negb]. apply IH.
Qed.

(** X24.  The synchronization fails only with the list of servers: when
    [getServersInfo] throws, that error is thrown on; otherwise the
    synchronization returns normally, whatever happens inside the batches
    (which never raise).  Servers that are not connected or have no tools
    are passed over: if there is no other server, the world stays as
    [getServersInfo] left it. *)
Theorem synchronization_fails_only_with_the_server_list
        (env : Env) (getServersInfo : M (list ServerInfo.t)) (w : World) :
  (forall e w1, getServersInfo w = (Throw e, w1) ->
                syncAllServerToolsEmbeddings env getServersInfo w = (Throw e, w1))
  /\ (forall servers w1, getServersInfo w = (Ok servers, w1) ->
        exists w2,
          syncAllServerToolsEmbeddings env getServersInfo w = (Ok tt, w2)
          /\ (flat_map toolsToSync servers = [] -> w2 = w1)).
Proof.
  unfold syncAllServerToolsEmbeddings. split.
  - intros e w1 E. unfold tryCatch. now rewrite (bind_Throw _ _ _ _ _ E).
  - intros servers w1 E.
    destruct (syncServers_total env servers (0, 0) w1) as (w2 & E2 & Hsame).
    exists w2. split; [|exact Hsame].
    apply tryCatch_Ok. rewrite (bind_Ok _ _ _ _ _ E), (bind_Ok _ _ _ _ _ E2). reflexivity.
Qed.

(** ** [maskString] *)

Lemma length_append (a b : string) :
  String.length (a ++ b)%string = (String.length a + String.length b)%nat.
Proof. induction a as [|c a IH]; cbn; [reflexivity | now rewrite IH]. Qed.

Lemma length_repeatString (c : ascii) (n : nat) :
  String.length (repeatString (String c "") n) = n.
Proof. induction n as [|n IH]; cbn; [reflexivity | now rewrite IH]. Qed.

Lemma madeOf_repeatString (c : ascii) (n : nat) :
  madeOf c (repeatString (String c "") n).
Proof.
  unfold madeOf. induction n as [|n IH]; cbn; [reflexivity|].
  now rewrite Ascii.eqb_refl.
Qed.

Lemma string_split (n : nat) (s : string) :
  (n <= String.length s)%nat ->
  exists a b, s = (a ++ b)%string /\ String.length a = n.
Proof.
  revert s. induction n as [|n IH]; intros s Hn.
  - now exists ""%string, s.
  - destruct s as [|c s]; cbn in Hn; [lia|].
    destruct (IH s) as (a & b & -> & Ha); [lia|].
    exists (String c a), b. cbn. now rewrite Ha.
Qed.

Lemma substring_app_prefix (a b : string) :
  substring 0 (String.length a) (a ++ b)%string = a.
Proof. induction a as [|c a IH]; cbn; [now destruct b | now rewrite IH]. Qed.

Lemma substring_app_skip (a b : string) (k m : nat) :
  substring (String.length a + k) m (a ++ b)%string = substring k m b.
Proof. induction a as [|c a IH]; cbn; [reflexivity | exact IH]. Qed.

(** X25.  [maskString] with a one-character mask keeps the length of the
    text.  A text no longer than the two visible parts together is masked
    entirely.  A longer text, when at least one character is to stay
    visible at the end, keeps its first [visibleStart] and its last
    [visibleEnd] characters and has every character in between replaced by
    the mask. *)
Theorem maskString_masks_the_middle
        (text : string) (visibleStart visibleEnd : nat) (maskChar : ascii) :
  let masked := maskString text visibleStart visibleEnd (String maskChar "") in
  ((String.length text <= visibleStart + visibleEnd)%nat ->
   madeOf maskChar masked /\ String.length masked = String.length text)
  /\ ((visibleStart + visibleEnd < String.length text)%nat -> (0 < visibleEnd)%nat ->
      exists start hidden tail,
        text = (start ++ hidden ++ tail)%string
        /\ String.length start = visibleStart
        /\ String.length tail = visibleEnd
        /\ masked = (start ++ repeatString (String maskChar "") (String.length hidden)
                           ++ tail)%string
        /\ String.length masked = String.length text).
Proof.
  cbv zeta. unfold maskString. split.
  - intros Hshort. apply Nat.leb_le in Hshort. rewrite Hshort.
    split; [apply madeOf_repeatString | apply length_repeatString].
  - intros Hlong Hend.
    destruct (Nat.leb_spec (String.length text) (visibleStart + visibleEnd)) as [|_]; [lia|].
    destruct (string_split visibleStart text) as (start & rest & -> & Hstart); [lia|].
    rewrite length_append, Hstart in Hlong.
    destruct (string_split (String.length rest - visibleEnd) rest)
      as (hidden & tail & -> & Hhidden); [lia|].
    rewrite length_append in Hlong, Hhidden.
    assert (Htail : String.length tail = visibleEnd) by lia.
    exists start, hidden, tail. split; [reflexivity|]. split; [exact Hstart|].
    split; [exact Htail|].
    assert (Hmasked :
              (JsString.substring0 visibleStart (start ++ hidden ++ tail)
               ++ repeatString (String maskChar "")
                    (String.length (start ++ hidden ++ tail) - visibleStart - visibleEnd)
               ++ sliceLast visibleEnd (start ++ hidden ++ tail))%string
              = (start ++ repeatString (String maskChar "") (String.length hidden)
                       ++ tail)%string).
    { unfold JsString.substring0, sliceLast.
      destruct (Nat.eqb_spec visibleEnd 0) as [|_]; [lia|].
      rewrite <- Hstart at 1. rewrite substring_app_prefix.
      rewrite !length_append.
      replace (String.length start + (String.length hidden + String.length tail)
               - visibleStart - visibleEnd)%nat with (String.length hidden) by lia.
      replace (String.length start + (String.length hidden + String.length tail)
               - visibleEnd)%nat
        with (String.length start + (String.length hidden + 0))%nat by lia.
      rewrite substring_app_skip, substring_app_skip.
      rewrite <- Htail, substring_all. reflexivity. }
    split; [exact Hmasked|].
    rewrite Hmasked, !length_append, length_repeatString. reflexivity.
Qed.

Lemma maskString_masks_the_middle_witness :
  exists start hidden tail,
    "sk-1234567890"%string = (start ++ hidden ++ tail)%string
    /\ String.length start = 4
    /\ String.length tail = 4
    /\ maskString "sk-1234567890" 4 4 "*"
       = (start ++ repeatString "*" (String.length hidden) ++ tail)%string
    /\ String.length (maskString "sk-1234567890" 4 4 "*") = 13.
Proof.
  apply (proj2 (maskString_masks_the_middle "sk-1234567890" 4 4 "*"%char)); cbn; lia.
Defined.

(** X26.  With no character to stay visible at the end ([visibleEnd] is 0)
    and a text longer than [visibleStart], the result of [maskString] ends
    with the whole text, after as many characters as the text has:
    [text.slice(-0)] is [text.slice(0)].  The result is twice as long as
    the text and shows all of it. *)
Theorem maskString_without_visible_end
        (text : string) (visibleStart : nat) (maskChar : ascii) :
  (visibleStart < String.length text)%nat ->
  let masked := maskString text visibleStart 0 (String maskChar "") in
  exists start,
    masked = (start ++ text)%string
    /\ String.length start = String.length text
    /\ String.length masked = (2 * String.length text)%nat.
Proof.
  intros Hlong. cbv zeta. unfold maskString. rewrite Nat.add_0_r.
  destruct (Nat.leb_spec (String.length text) visibleStart) as [|_]; [lia|].
  rewrite Nat.sub_0_r. change (sliceLast 0 text) with text.
  exists (JsString.substring0 visibleStart text
          ++ repeatString (String maskChar "") (String.length text - visibleStart))%string.
  assert (Hlen : String.length
                   (JsString.substring0 visibleStart text
                    ++ repeatString (String maskChar "")
                         (String.length text - visibleStart))%string
                 = String.length text).
  { rewrite length_append, length_repeatString.
    destruct (string_split visibleStart text) as (a & b & E & Ha); [lia|].
    unfold JsString.substring0. rewrite E at 1. rewrite <- Ha at 1.
    rewrite substring_app_prefix. lia. }
  split; [now rewrite append_assoc|]. split; [exact Hlen|].
  rewrite <- append_assoc, length_append, Hlen. lia.
Qed.

Lemma maskString_without_visible_end_witness :
  exists start,
    maskString "sk-1234567890" 4 0 "*" = (start ++ "sk-1234567890")%string
    /\ String.length start = 13.
Proof.
  destruct (maskString_without_visible_end "sk-1234567890" 4 "*"%char ltac:(cbn; lia))
    as (start & E & Hlen & _).
  exists start. split; assumption.
Defined.

(** ** The fallback embedding inside a batch *)







(** X29.  Every width that the model table knows can be indexed: the width
    expected for a model is positive and at most the halfvec limit, and
    only the width 3072 (text-embedding-3-large) exceeds the limit of the
    plain vector type.  So [createVectorIndex] for the width of a model
    always has a CREATE INDEX to attempt. *)
Theorem model_widths_are_indexable (model : string) :
  let width := getDimensionsForModel model in
  (0 < width <= HALFVEC_MAX_DIMENSIONS)%Z
  /\ ((width <= VECTOR_MAX_DIMENSIONS)%Z \/ width = EMBEDDING_DIMENSIONS_LARGE).
Proof.
  cbv zeta. pose proof (getDimensionsForModel_values model) as H.
  unfold HALFVEC_MAX_DIMENSIONS, VECTOR_MAX_DIMENSIONS, EMBEDDING_DIMENSIONS_LARGE.
  cbn [In] in H. lia.
Qed.



(** * The service at run time *)

(** ** [generateEmbedding] *)

Lemma runtime_getOpenAIConfig_cases (host : Runtime.Host) (w : World) :
  (forall e, Runtime.getSmartRoutingConfigFault host (clock w) = Some e ->
             Runtime.getOpenAIConfig host w = (Throw e, advance w))
  /\ (Runtime.getSmartRoutingConfigFault host (clock w) = None ->
      Runtime.getOpenAIConfig host w
      = (Ok (openAIConfigOf (smartRoutingConfig (Runtime.services host) (clock w))),
         advance w)).
Proof.
  unfold Runtime.getOpenAIConfig, Runtime.getSmartRoutingConfig. unfold_monad.
  split; [intros e H | intros H]; now rewrite H.
Qed.

(** What [generateEmbedding] does, by the configuration read and the
    answer of the transport: it throws exactly when the configuration read
    rejects, before anything is asked of the transport; otherwise it
    returns the array of the response when that array passed the four
    checks, and the fallback embedding in every other case. *)
Lemma runtime_generateEmbedding_cases (host : Runtime.Host) (text : string) (w : World) :
  let config := openAIConfigOf (smartRoutingConfig (Runtime.services host) (clock w)) in
  let answer := Runtime.embeddingResponse host (S (clock w)) (prepareText text) config in
  (forall e, Runtime.getSmartRoutingConfigFault host (clock w) = Some e ->
             Runtime.generateEmbedding host text w = (Throw e, advance w))
  /\ (Runtime.getSmartRoutingConfigFault host (clock w) = None ->
      exists v,
        Runtime.generateEmbedding host text w
        = (Ok v, tick (CallEmbeddingAPI (prepareText text)) true (advance w))
        /\ (v = Runtime.fallbackEmbedding text
            \/ (answer = JArray v /\ v <> []
                /\ Runtime.validateEmbeddingNotZero v = true
                /\ Runtime.validateEmbeddingRange host v defaultMinRange defaultMaxRange = true
                /\ Runtime.validateEmbeddingDimensions v (embeddingModel config) = true))).
Proof.
  cbv zeta. destruct (runtime_getOpenAIConfig_cases host w) as [Hthrow Hok]. split.
  - intros e He. unfold Runtime.generateEmbedding.
    now rewrite (bind_Throw _ _ _ _ _ (Hthrow e He)).
  - intros Hnone. unfold Runtime.generateEmbedding.
    rewrite (bind_Ok _ _ _ _ _ (Hok Hnone)).
    unfold Runtime.callEmbeddingAPI. unfold_monad. cbn [clock advance].
    destruct (Runtime.embeddingResponse host (S (clock w)) (prepareText text)
                (openAIConfigOf (smartRoutingConfig (Runtime.services host) (clock w))))
      as [| |b|r|s|items|fields] eqn:E;
      cbn [isTruthy negb Runtime.validateEmbeddingArray];
      try (eexists; split; [reflexivity | now left]);
      try (destruct b; eexists; split; reflexivity || now left);
      try (destruct (isZero r); eexists; split; reflexivity || now left);
      try (destruct (String.eqb s ""); eexists; split; reflexivity || now left).
    destruct items as [|x items]; cbn [negb];
      [eexists; split; [reflexivity | now left]|].
    destruct (Runtime.validateEmbeddingNotZero (x :: items)) eqn:E1; cbn [negb];
      [|eexists; split; [reflexivity | now left]].
    destruct (Runtime.validateEmbeddingRange host (x :: items) _ _) eqn:E2; cbn [negb];
      [|eexists; split; [reflexivity | now left]].
    destruct (Runtime.validateEmbeddingDimensions (x :: items) _) eqn:E3; cbn [negb];
      [|eexists; split; [reflexivity | now left]].
    eexists; split; [reflexivity|]. right. repeat split; auto. discriminate.
Qed.

Lemma forallb_repeat {A} (p : A -> bool) (x : A) (n : nat) :
  p x = true -> forallb p (repeat x n) = true.
Proof.
  intros H. induction n as [|n IH]; cbn [repeat forallb]; [reflexivity|].
  now rewrite H, IH.
Qed.

Lemma inRange_zero : inRange defaultMinRange defaultMaxRange 0%R = true.
Proof.
  unfold inRange, defaultMinRange, defaultMaxRange.
  destruct (Rle_dec (- (11 / 10)) 0) as [_|H]; [|exfalso; apply H; lra].
  destruct (Rle_dec 0 (11 / 10)) as [_|H]; [reflexivity | exfalso; apply H; lra].
Qed.

(** The typed [generateEmbedding] is the restriction of the one at run
    time to a configuration read that resolves and to an [embedding] that
    is [null], a value that is no array, or an array of numbers. *)
Lemma generateEmbedding_restriction (env : Env) (text : string) (w : World) :
  exists v w',
    generateEmbedding env text w = (Ok v, w')
    /\ Runtime.generateEmbedding (Runtime.ofEnv env) text w = (Ok (map JNumber v), w').
Proof.
  assert (Hz : forall v, forallb Runtime.strictlyZero (map JNumber v) = forallb isZero v).
  { induction v as [|x v IH]; cbn; [reflexivity | now rewrite IH]. }
  assert (Hr : forall v,
             forallb (Runtime.withinRange (Runtime.ofEnv env) defaultMinRange defaultMaxRange)
                     (map JNumber v)
             = forallb (inRange defaultMinRange defaultMaxRange) v).
  { induction v as [|x v IH]; cbn; [reflexivity | now rewrite IH]. }
  unfold generateEmbedding, Runtime.generateEmbedding, getOpenAIConfig,
    Runtime.getOpenAIConfig, getSmartRoutingConfig, Runtime.getSmartRoutingConfig,
    callEmbeddingAPI, Runtime.callEmbeddingAPI, Runtime.fallbackEmbedding.
  unfold_monad. cbn [Runtime.ofEnv Runtime.getSmartRoutingConfigFault Runtime.services
                     Runtime.embeddingResponse clock advance].
  destruct (embeddingTransport env (S (clock w)) (prepareText text)
              (openAIConfigOf (smartRoutingConfig env (clock w)))) as [| |v];
    cbn [Runtime.ofEmbedding isTruthy negb Runtime.validateEmbeddingArray map];
    try (eexists _, _; split; reflexivity).
  destruct v as [|x v]; cbn [validateEmbeddingArray negb map];
    [eexists _, _; split; reflexivity|].
  change (JNumber x :: map JNumber v) with (map JNumber (x :: v)).
  unfold validateEmbeddingNotZero, Runtime.validateEmbeddingNotZero,
    validateEmbeddingRange, Runtime.validateEmbeddingRange,
    validateEmbeddingDimensions, Runtime.validateEmbeddingDimensions.
  cbv zeta. rewrite Hz, Hr, length_map.
  destruct (negb (negb (forallb isZero (x :: v)))); [eexists _, _; split; reflexivity|].
  destruct (negb (forallb (inRange defaultMinRange defaultMaxRange) (x :: v)));
    [eexists _, _; split; reflexivity|].
  destruct (negb (Z.of_nat (length (x :: v)) =? _)%Z); eexists _, _; split; reflexivity.
Qed.

(** C2.  [generateEmbedding] does not keep the guarantee of its docstring
    ("@throws Never throws - always returns a valid embedding or
    fallback", "never all zeros").  The configuration is awaited at line
    517, before the [try] of line 526 is entered: when that read rejects,
    [generateEmbedding] rejects with the same error and no fallback is
    computed.  And an [embedding] made of the strings "0" passes the four
    checks ([val === 0] is false for a string, the comparisons coerce it to
    the number 0) and is returned as it is, not replaced by the fallback. *)
Theorem generateEmbedding_breaks_its_guarantee :
  Runtime.generateEmbedding unreadableSettingsHost "search tool" emptyWorld
  = (Throw (ErrorWith "settings unavailable"), advance emptyWorld)
  /\ Runtime.generateEmbedding zeroStringsHost "search tool" emptyWorld
     = (Ok (repeat (JString "0") 1536),
        tick (CallEmbeddingAPI "search tool") true (advance emptyWorld)).
Proof.
  split; [reflexivity|].
  assert (Hrange : Runtime.validateEmbeddingRange zeroStringsHost (repeat (JString "0") 1536)
                     defaultMinRange defaultMaxRange = true).
  { apply forallb_repeat. unfold Runtime.withinRange.
    change (Runtime.toNumber zeroStringsHost (JString "0")) with (Some 0%R).
    apply inRange_zero. }
  unfold Runtime.generateEmbedding, Runtime.getOpenAIConfig, Runtime.getSmartRoutingConfig,
    Runtime.callEmbeddingAPI.
  unfold_monad.
  cbn [zeroStringsHost Runtime.getSmartRoutingConfigFault Runtime.embeddingResponse
       Runtime.services clock advance emptyWorld isTruthy negb].
  fold zeroStringsHost. rewrite Hrange. reflexivity.
Qed.

(** ** The batch *)

Lemma runtime_saveToolsAsVectorEmbeddings_returns
      (host : Runtime.Host) (serverName : string) (tools : list Tool.t) (w : World) :
  Runtime.saveToolsAsVectorEmbeddings host serverName tools w
  = (Ok tt, snd (Runtime.saveToolsBody host serverName tools w)).
Proof.
  unfold Runtime.saveToolsAsVectorEmbeddings, tryCatch, ret.
  destruct (Runtime.saveToolsBody host serverName tools w) as [[[]|e] w1]; reflexivity.
Qed.

(** The probe of a batch fails exactly when the configuration read that
    [generateEmbedding] makes for it rejects: the error thrown is "Cannot
    determine embedding dimensions from API" and nothing has been asked of
    the transport.  Otherwise the probe gives a width between 1 and 3072 and
    has made one request to the transport. *)
Lemma runtime_probeDimensions_cases (host : Runtime.Host) (wp : World) :
  (forall e, Runtime.getSmartRoutingConfigFault host (clock wp) = Some e ->
             probeDimensions (Runtime.generateEmbeddingArray host) wp
             = (Throw (ErrorWith "Cannot determine embedding dimensions from API"),
                advance wp))
  /\ (Runtime.getSmartRoutingConfigFault host (clock wp) = None ->
      exists n,
        probeDimensions (Runtime.generateEmbeddingArray host) wp
        = (Ok n, tick (CallEmbeddingAPI (prepareText "test")) true (advance wp))
        /\ (0 < n)%nat /\ (Z.of_nat n <= 3072)%Z).
Proof.
  destruct (runtime_generateEmbedding_cases host "test" wp) as [Hthrow Hok].
  cbv zeta in Hok. split.
  - intros e He. unfold probeDimensions, Runtime.generateEmbeddingArray.
    unfold bind at 1.
    rewrite (tryCatch_Throw _ _ wp (advance wp) e); [reflexivity|].
    now rewrite (bind_Throw _ _ _ _ _ (bind_Throw _ _ _ _ _ (Hthrow e He))).
  - intros Hnone. destruct (Hok Hnone) as (v & E & Hv).
    assert (Hlen : (0 < length v)%nat /\ (Z.of_nat (length v) <= 3072)%Z).
    { destruct Hv as [-> | (_ & Hne & _ & _ & Hd)].
      - unfold Runtime.fallbackEmbedding.
        rewrite length_map, length_generateFallbackEmbedding. split; lia.
      - split.
        + destruct v; [congruence | cbn; lia].
        + unfold Runtime.validateEmbeddingDimensions in Hd. apply Z.eqb_eq in Hd.
          rewrite Hd.
          pose proof (getDimensionsForModel_values
                        (embeddingModel
                           (openAIConfigOf
                              (smartRoutingConfig (Runtime.services host) (clock wp)))))
            as Hin.
          cbn [In] in Hin. lia. }
    exists (length v). split; [|exact Hlen].
    unfold probeDimensions, Runtime.generateEmbeddingArray.
    rewrite (bind_Ok _ _ wp (tick (CallEmbeddingAPI (prepareText "test")) true (advance wp))
                     (Some (length v))).
    + destruct (length v) as [|n]; [lia | reflexivity].
    + apply tryCatch_Ok. now rewrite (bind_Ok _ _ _ _ _ (bind_Ok _ _ _ _ _ E)).
Qed.

(** C3.  A batch whose probe fails does not raise.  The settings are read
    twice by the preamble of the batch; the third read, which
    [generateEmbedding('test')] makes, rejects.  The body of the batch then
    throws "Cannot determine embedding dimensions from API" (line 748), but
    the handler of the outermost [try] (lines 869-875) only logs:
    [saveToolsAsVectorEmbeddings] returns normally, with nothing asked of
    the database and nothing stored, against its own "@throws Error if test
    embedding generation fails". *)
Theorem probe_failure_is_swallowed :
  let batch := Runtime.saveToolsBody thirdReadFaultHost "docs" [sampleTool] staleWorld in
  fst batch = Throw (ErrorWith "Cannot determine embedding dimensions from API")
  /\ Runtime.saveToolsAsVectorEmbeddings thirdReadFaultHost "docs" [sampleTool] staleWorld
     = (Ok tt, snd batch)
  /\ journal (snd batch) = []
  /\ store (snd batch) = store staleWorld.
Proof.
  cbv zeta.
  assert (Hpre : Runtime.batchPreamble thirdReadFaultHost [sampleTool] staleWorld
                 = (Ok (Some (openAIConfigOf sampleConfig)),
                    mkWorld 2 (store staleWorld) []))
    by reflexivity.
  destruct (runtime_probeDimensions_cases thirdReadFaultHost
              (mkWorld 2 (store staleWorld) [])) as [Hprobe _].
  assert (Hbody : Runtime.saveToolsBody thirdReadFaultHost "docs" [sampleTool] staleWorld
                  = (Throw (ErrorWith "Cannot determine embedding dimensions from API"),
                     advance (mkWorld 2 (store staleWorld) []))).
  { unfold Runtime.saveToolsBody. rewrite (bind_Ok _ _ _ _ _ Hpre).
    now rewrite (bind_Throw _ _ _ _ _ (Hprobe _ eq_refl)). }
  rewrite runtime_saveToolsAsVectorEmbeddings_returns, Hbody.
  repeat split.
Qed.

(** ** Migration inside the batch *)















